(** * ssm-ctl: the parameter-file engine, embedded in Rocq

    A shallow embedding of [ssm_ctl/parameters.py] ([SSMClient], [VarString],
    [SSMParameter], [_batch]), [ssm_ctl/files.py] ([Input],
    [parse_parameter_file], [compile_parameter_file]) and the loading steps
    of [ssm_ctl/cli.py] ([load_inputs_from_args], [load_parameter_files]),
    followed by the properties of the specification stated and settled
    against it, and by further properties of the code.

    Conventions of the embedding.
    - Python values are the type [pyobj]; a [VarString] instance is the
      constructor [OVar] carrying its four attributes.  Strings are
      sequences of ASCII characters; floats are not modelled; the keys of
      dictionaries are strings.
    - Dictionaries are association lists in insertion order with at most one
      binding per key ([Dict.set] keeps that property).
    - Class attributes that the program mutates ([VarString.NAMES],
      [VarString._VAR_VALUES], the memoised region and account, ...), the
      terminal and the remote store are the fields of [World]; code with
      effects lives in the monad [M] (state plus exceptions).  A request to
      the remote store is recorded and succeeds.
    - Objects are passed by value: a method that mutates [self] returns the
      updated object next to its result.  An exception ends the run
      ([cli.py] catches [InputError] only to exit), so what a failed call
      did to the objects it was given is not reported.  The [VarString]
      that a parameter and its value share as key-id is held by each of
      them.
    - The pattern search of user-written patterns and the decryption
      provider are parameters of the program ([re_search],
      [SSMClient_decrypt]), and so are the answers of the service to the
      calls that read from it ([get_parameter_history], [get_parameters],
      [pages]). *)

From Stdlib Require Import List String Ascii ZArith NArith Bool Lia.
Import ListNotations.
Open Scope list_scope.
Open Scope string_scope.

(* ------------------------------------------------------------------ *)
(** ** Python values *)

#[local] Unset Elimination Schemes.
Inductive pyobj : Type :=
| ONone
| OBool (b : bool)
| OInt (z : Z)
| OStr (s : string)
| OList (l : list pyobj)
| ODict (d : list (string * pyobj))
| OVar (template : string) (names : list string) (key_id : pyobj)
       (cached : option string).
#[local] Set Elimination Schemes.

(** [bool(x)].  [VarString] defines neither [__bool__] nor [__len__], so an
    instance is always true. *)
Definition truthy (x : pyobj) : bool :=
  match x with
  | ONone => false
  | OBool b => b
  | OInt z => negb (z =? 0)%Z
  | OStr s => negb (s =? "")
  | OList l => match l with [] => false | _ => true end
  | ODict d => match d with [] => false | _ => true end
  | OVar _ _ _ _ => true
  end.

(** [isinstance(x, six.string_types)] and [isinstance(x, list)]. *)
Definition is_str (x : pyobj) : bool :=
  match x with OStr _ => true | _ => false end.

Definition is_list (x : pyobj) : bool :=
  match x with OList _ => true | _ => false end.

Definition is_none (x : pyobj) : bool :=
  match x with ONone => true | _ => false end.

(** [a == b].  Booleans compare as the integers 0 and 1; dictionaries compare
    without regard to order; [VarString.__eq__] compares the templates.  The
    comparisons of the program never receive a [VarString] next to a value
    that is neither a string nor a [VarString]. *)
Fixpoint py_eqb (a b : pyobj) {struct a} : bool :=
  match a, b with
  | ONone, ONone => true
  | OBool x, OBool y => Bool.eqb x y
  | OBool x, OInt y | OInt y, OBool x => ((if x then 1 else 0) =? y)%Z
  | OInt x, OInt y => (x =? y)%Z
  | OStr x, OStr y => (x =? y)
  | OList x, OList y =>
      (fix go (l1 l2 : list pyobj) : bool :=
         match l1, l2 with
         | [], [] => true
         | u :: l1', v :: l2' => py_eqb u v && go l1' l2'
         | _, _ => false
         end) x y
  | ODict x, ODict y =>
      Nat.eqb (List.length x) (List.length y) &&
      forallb (fun kv =>
                 match find (fun kv' => fst kv =? fst kv') y with
                 | Some kv' => py_eqb (snd kv) (snd kv')
                 | None => false
                 end) x
  | OVar s _ _ _, OStr t | OStr t, OVar s _ _ _ => (s =? t)
  | OVar s _ _ _, OVar t _ _ _ => (s =? t)
  | _, _ => false
  end.

(** [x == 'literal'] for a value that is not a [VarString]. *)
Definition is_lit (x : pyobj) (s : string) : bool := py_eqb x (OStr s).

(* ------------------------------------------------------------------ *)
(** ** Dictionaries *)

Module Dict.

Definition t := list (string * pyobj).

(** [d.get(k)] as an option; [k in d] is [mem]. *)
Fixpoint lookup (d : t) (k : string) : option pyobj :=
  match d with
  | [] => None
  | (k', v) :: d' => if k =? k' then Some v else lookup d' k
  end.

Definition mem (d : t) (k : string) : bool :=
  match lookup d k with Some _ => true | None => false end.

(** [d.get(k)]: [None] when the key is absent. *)
Definition get (d : t) (k : string) : pyobj :=
  match lookup d k with Some v => v | None => ONone end.

(** [d.get(k, default)]. *)
Definition get_default (d : t) (k : string) (default : pyobj) : pyobj :=
  match lookup d k with Some v => v | None => default end.

(** [d[k] = v]: an existing key keeps its position. *)
Fixpoint set (d : t) (k : string) (v : pyobj) : t :=
  match d with
  | [] => [(k, v)]
  | (k', v') :: d' =>
      if k =? k' then (k', v) :: d' else (k', v') :: set d' k v
  end.

(** [d.update(e)]. *)
Definition update (d e : t) : t :=
  fold_left (fun acc kv => set acc (fst kv) (snd kv)) e d.

(** [d.pop(k)] without its result. *)
Fixpoint remove (d : t) (k : string) : t :=
  match d with
  | [] => []
  | (k', v') :: d' => if k =? k' then d' else (k', v') :: remove d' k
  end.

Definition keys (d : t) : list string := map fst d.
Definition values (d : t) : list pyobj := map snd d.

End Dict.

(** The same operations on dictionaries whose values are not [pyobj]
    (the [inputs] and [parameters] maps, [_VAR_VALUES]). *)
Section Assoc.
Variable V : Type.

Fixpoint assoc_lookup (d : list (string * V)) (k : string) : option V :=
  match d with
  | [] => None
  | (k', v) :: d' => if k =? k' then Some v else assoc_lookup d' k
  end.

Fixpoint assoc_set (d : list (string * V)) (k : string) (v : V)
  : list (string * V) :=
  match d with
  | [] => [(k, v)]
  | (k', v') :: d' =>
      if k =? k' then (k', v) :: d' else (k', v') :: assoc_set d' k v
  end.
End Assoc.
Arguments assoc_lookup {V} d k.
Arguments assoc_set {V} d k v.

(* ------------------------------------------------------------------ *)
(** ** Strings *)

(** [s.startswith(p)]. *)
Fixpoint startswith (s p : string) : bool :=
  match p with
  | EmptyString => true
  | String c p' =>
      match s with
      | EmptyString => false
      | String d s' => Ascii.eqb c d && startswith s' p'
      end
  end.

(** [sep.join(l)] on strings. *)
Fixpoint join (sep : string) (l : list string) : string :=
  match l with
  | [] => ""
  | [x] => x
  | x :: l' => x ++ sep ++ join sep l'
  end.

(** [c in s] for a one-character [c]. *)
Fixpoint contains_char (c : ascii) (s : string) : bool :=
  match s with
  | EmptyString => false
  | String d s' => Ascii.eqb c d || contains_char c s'
  end.

(* ------------------------------------------------------------------ *)
(** ** Exceptions *)

(** An exception is its class, the message template of the [raise]
    statement and the argument handed to [format] (or [ONone]); the
    exceptions of the interpreter and of libraries carry a short
    description. *)
Inductive exn : Type :=
| ValueError (msg : string) (arg : pyobj)
| TypeError (msg : string) (arg : pyobj)
| KeyError (key : pyobj)
| AttributeError (msg : string)
| InputError (msg : string) (arg : pyobj)
| IndexError (msg : string)
| EOFError
| RecursionError
| ReError (msg : string).

Inductive outcome (A : Type) : Type :=
| Ok (a : A)
| Raise (e : exn).
Arguments Ok {A} a.
Arguments Raise {A} e.

Definition obind {A B} (c : outcome A) (k : A -> outcome B) : outcome B :=
  match c with
  | Ok a => k a
  | Raise e => Raise e
  end.

(** [d[k]]. *)
Definition subscript (d : Dict.t) (k : string) : outcome pyobj :=
  match Dict.lookup d k with
  | Some v => Ok v
  | None => Raise (KeyError (OStr k))
  end.

(* ------------------------------------------------------------------ *)
(** ** The regular expressions of [VarString]

    The program uses the module [re] of the Python library on three fixed
    patterns; each use is modelled by a matcher for that pattern.
    - [_VAR_NAME_PATTERN] is [\w+], used with [fullmatch];
    - [_REFERENCE_PATTERN] is [\$\((\w+)\)], used with [findall] and
      [fullmatch];
    - [get_reference_pattern(name)] is [re.escape('$(name)')], a literal,
      used with [sub], whose second argument is a replacement template
      (CPython's [parse_template]: backslash escapes are interpreted). *)

Module Re.

Definition between (lo hi : N) (c : ascii) : bool :=
  let n := N_of_ascii c in (lo <=? n)%N && (n <=? hi)%N.

Definition is_digit (c : ascii) : bool := between 48 57 c.
Definition is_octdigit (c : ascii) : bool := between 48 55 c.
Definition is_ascii_letter (c : ascii) : bool :=
  between 65 90 c || between 97 122 c.

(** The class [\w]. *)
Definition is_word (c : ascii) : bool :=
  is_ascii_letter c || is_digit c || Ascii.eqb c "_".

Definition digit_val (c : ascii) : nat := nat_of_ascii c - 48.

Fixpoint all_chars (p : ascii -> bool) (s : string) : bool :=
  match s with
  | EmptyString => true
  | String c s' => p c && all_chars p s'
  end.

(** [_VAR_NAME_PATTERN.fullmatch(s)] succeeds. *)
Definition fullmatch_var_name (s : string) : bool :=
  negb (s =? "") && all_chars is_word s.

(** [s] is a run of word characters followed by a closing parenthesis
    and nothing else. *)
Fixpoint word_run_then_close (s : string) : bool :=
  match s with
  | EmptyString => false
  | String c s' =>
      if Ascii.eqb c ")" then (s' =? "")
      else is_word c && word_run_then_close s'
  end.

(** [_REFERENCE_PATTERN.fullmatch(s)] succeeds. *)
Definition fullmatch_reference (s : string) : bool :=
  match s with
  | String "$" (String "(" (String c r)) => is_word c && word_run_then_close r
  | _ => false
  end.

(** State of the left-to-right scan for [\$\((\w+)\)]: nothing pending,
    a [$] seen, or [$(] and the word characters [acc] seen.  A failed
    attempt contains no [$] after its first character, so the scan resumes
    at the character that made it fail. *)
Inductive scan : Type :=
| Idle
| Dollar
| Name (acc : string).

Definition restart (c : ascii) : scan :=
  if Ascii.eqb c "$" then Dollar else Idle.

Fixpoint findall_from (st : scan) (s : string) : list string :=
  match s with
  | EmptyString => []
  | String c s' =>
      match st with
      | Idle => findall_from (restart c) s'
      | Dollar =>
          if Ascii.eqb c "(" then findall_from (Name "") s'
          else findall_from (restart c) s'
      | Name acc =>
          if is_word c then findall_from (Name (acc ++ String c "")) s'
          else if Ascii.eqb c ")" && negb (acc =? "")
               then acc :: findall_from Idle s'
               else findall_from (restart c) s'
      end
  end.

(** [_REFERENCE_PATTERN.findall(s)]: the names, in order, duplicates
    kept. *)
Definition findall_reference (s : string) : list string :=
  findall_from Idle s.

(** Replace every non-overlapping occurrence of the non-empty literal
    [needle], leftmost first; [skip] counts the characters of a match that
    are still to be dropped. *)
Fixpoint replace_from (needle by_ : string) (skip : nat) (s : string)
  : string :=
  match s with
  | EmptyString => ""
  | String c s' =>
      match skip with
      | S k => replace_from needle by_ k s'
      | O =>
          if startswith s needle
          then by_ ++ replace_from needle by_ (String.length needle - 1) s'
          else String c (replace_from needle by_ 0 s')
      end
  end.

Definition replace_all (needle by_ s : string) : string :=
  replace_from needle by_ 0 s.

(** Expansion of a replacement template for a pattern without groups
    ([parse_template] of CPython 3.12).  [matched] is the text of group 0.
    In mode [GroupName acc] the scan is inside [\g<...>]. *)
Inductive tmode : Type :=
| Lit
| GroupName (acc : string).

Definition chr (n : nat) : string := String (ascii_of_nat n) "".

Definition is_identifier (s : string) : bool :=
  match s with
  | EmptyString => false
  | String c s' =>
      (is_ascii_letter c || Ascii.eqb c "_") && all_chars is_word s'
  end.

Definition all_zero (s : string) : bool :=
  all_chars (fun c => Ascii.eqb c "0") s.

Definition cons_out (p : string) (r : outcome string) : outcome string :=
  obind r (fun s => Ok (p ++ s)).

Fixpoint expand (matched : string) (m : tmode) (s : string)
  : outcome string :=
  match m with
  | GroupName acc =>
      match s with
      | EmptyString => Raise (ReError "missing >, unterminated name")
      | String c s' =>
          if Ascii.eqb c ">" then
            if acc =? "" then Raise (ReError "missing group name")
            else if is_identifier acc
                 then Raise (IndexError "unknown group name")
            else if all_chars is_digit acc then
                   if all_zero acc
                   then cons_out matched (expand matched Lit s')
                   else Raise (ReError "invalid group reference")
            else Raise (ReError "bad character in group name")
          else expand matched (GroupName (acc ++ String c "")) s'
      end
  | Lit =>
      match s with
      | EmptyString => Ok ""
      | String bs rest =>
          if negb (Ascii.eqb bs "\") then
            cons_out (String bs "") (expand matched Lit rest)
          else
            match rest with
            | EmptyString => Raise (ReError "bad escape (end of pattern)")
            | String c rest1 =>
                if Ascii.eqb c "g" then
                  match rest1 with
                  | String "<" rest2 => expand matched (GroupName "") rest2
                  | _ => Raise (ReError "missing <")
                  end
                else if Ascii.eqb c "0" then
                  match rest1 with
                  | String d1 rest2 =>
                      if is_octdigit d1 then
                        match rest2 with
                        | String d2 rest3 =>
                            if is_octdigit d2
                            then cons_out
                                   (chr (digit_val d1 * 8 + digit_val d2))
                                   (expand matched Lit rest3)
                            else cons_out (chr (digit_val d1))
                                          (expand matched Lit rest2)
                        | EmptyString =>
                            cons_out (chr (digit_val d1))
                                     (expand matched Lit rest2)
                        end
                      else cons_out (chr 0) (expand matched Lit rest1)
                  | EmptyString => cons_out (chr 0) (expand matched Lit rest1)
                  end
                else if is_digit c then
                  match rest1 with
                  | String d1 (String d2 rest3) =>
                      if is_digit d1 then
                        if is_octdigit c && is_octdigit d1 && is_octdigit d2
                        then
                          let v := digit_val c * 64 + digit_val d1 * 8
                                   + digit_val d2 in
                          if (255 <? v)%nat
                          then Raise (ReError "octal escape value outside of range 0-0o377")
                          else cons_out (chr v) (expand matched Lit rest3)
                        else Raise (ReError "invalid group reference")
                      else Raise (ReError "invalid group reference")
                  | _ => Raise (ReError "invalid group reference")
                  end
                else if Ascii.eqb c "a" then cons_out (chr 7) (expand matched Lit rest1)
                else if Ascii.eqb c "b" then cons_out (chr 8) (expand matched Lit rest1)
                else if Ascii.eqb c "f" then cons_out (chr 12) (expand matched Lit rest1)
                else if Ascii.eqb c "n" then cons_out (chr 10) (expand matched Lit rest1)
                else if Ascii.eqb c "r" then cons_out (chr 13) (expand matched Lit rest1)
                else if Ascii.eqb c "t" then cons_out (chr 9) (expand matched Lit rest1)
                else if Ascii.eqb c "v" then cons_out (chr 11) (expand matched Lit rest1)
                else if Ascii.eqb c "\" then cons_out (chr 92) (expand matched Lit rest1)
                else if is_ascii_letter c then Raise (ReError "bad escape")
                else cons_out (String bs (String c "")) (expand matched Lit rest1)
            end
      end
  end.

(** ['$({})'.format(name)], the text that [get_reference_pattern(name)]
    matches. *)
Definition reference_text (name : string) : string := "$(" ++ name ++ ")".

(** [get_reference_pattern(name).sub(repl, s)].  The template is parsed
    before the search, so a malformed template raises even without a
    match. *)
Definition sub (name repl s : string) : outcome string :=
  obind (expand (reference_text name) Lit repl)
        (fun r => Ok (replace_all (reference_text name) r s)).

End Re.

(* ------------------------------------------------------------------ *)
(** ** Objects and the state of the run *)

(** An instance of [Input] ([files.py]). *)
Module InputObj.
Record t : Type := mk {
  name : string;
  type : pyobj;
  pattern : pyobj;
  description : pyobj;
  default : pyobj;
  _value : pyobj;
  _encrypted_value : pyobj;
  _decrypted_value : pyobj
}.

Definition set_pattern (i : t) (v : pyobj) : t :=
  mk (name i) (type i) v (description i) (default i)
     (_value i) (_encrypted_value i) (_decrypted_value i).
Definition set_description (i : t) (v : pyobj) : t :=
  mk (name i) (type i) (pattern i) v (default i)
     (_value i) (_encrypted_value i) (_decrypted_value i).
Definition set__value (i : t) (v : pyobj) : t :=
  mk (name i) (type i) (pattern i) (description i) (default i)
     v (_encrypted_value i) (_decrypted_value i).
Definition set__encrypted_value (i : t) (v : pyobj) : t :=
  mk (name i) (type i) (pattern i) (description i) (default i)
     (_value i) v (_decrypted_value i).
Definition set__decrypted_value (i : t) (v : pyobj) : t :=
  mk (name i) (type i) (pattern i) (description i) (default i)
     (_value i) (_encrypted_value i) v.
End InputObj.

(** What a resolver returns and [_VAR_VALUES] stores: one of the two
    classes local to [Input.get_resolver], or an [Input]. *)
Inductive binding : Type :=
| RegionResolver
| AccountResolver
| BoundInput (i : InputObj.t).

(** An instance of [SSMParameter] ([parameters.py]). *)
Module ParameterObj.
Record t : Type := mk {
  _name : pyobj;
  _type : pyobj;
  _value : pyobj;
  _allowed_pattern : pyobj;
  _description : pyobj;
  _key_id : pyobj;
  _overwrite : pyobj;
  _disable : pyobj;
  version : pyobj;
  last_modified_date : pyobj;
  last_modified_user : pyobj
}.

Definition set__name (p : t) (v : pyobj) : t :=
  mk v (_type p) (_value p) (_allowed_pattern p) (_description p)
     (_key_id p) (_overwrite p) (_disable p)
     (version p) (last_modified_date p) (last_modified_user p).
Definition set__value (p : t) (v : pyobj) : t :=
  mk (_name p) (_type p) v (_allowed_pattern p) (_description p)
     (_key_id p) (_overwrite p) (_disable p)
     (version p) (last_modified_date p) (last_modified_user p).
Definition set__allowed_pattern (p : t) (v : pyobj) : t :=
  mk (_name p) (_type p) (_value p) v (_description p)
     (_key_id p) (_overwrite p) (_disable p)
     (version p) (last_modified_date p) (last_modified_user p).
Definition set__key_id (p : t) (v : pyobj) : t :=
  mk (_name p) (_type p) (_value p) (_allowed_pattern p) (_description p)
     v (_overwrite p) (_disable p)
     (version p) (last_modified_date p) (last_modified_user p).
Definition set__disable (p : t) (v : pyobj) : t :=
  mk (_name p) (_type p) (_value p) (_allowed_pattern p) (_description p)
     (_key_id p) (_overwrite p) v
     (version p) (last_modified_date p) (last_modified_user p).
Definition set_metadata (p : t) (ver date user : pyobj) : t :=
  mk (_name p) (_type p) (_value p) (_allowed_pattern p) (_description p)
     (_key_id p) (_overwrite p) (_disable p) ver date user.
End ParameterObj.

(** What the terminal has seen: a line read by [input] ([echo] true) or
    [getpass.getpass] ([echo] false) under the given prompt, or a line
    printed.  The prompt of [_prompt_for_string] is recorded by the
    arguments of its [format]. *)
Inductive prompt_text : Type :=
| EnterPrompt (name : string) (type description : pyobj)
| NewlinePrompt.

Inductive io_event : Type :=
| ReadLine (echo : bool) (prompt : prompt_text)
| Printed (text : string).

Record World : Type := mkWorld {
  NAMES : list string;                   (* VarString.NAMES *)
  _VAR_VALUES : list (string * binding); (* VarString._VAR_VALUES *)
  _REGION : pyobj;                       (* SSMClient._REGION *)
  _ACCOUNT : pyobj;                      (* SSMClient._ACCOUNT *)
  OVERWRITE_DEFAULT : bool;              (* SSMParameter.OVERWRITE_DEFAULT *)
  region_name : pyobj;        (* what the boto3 session reports *)
  caller_account : pyobj;     (* what sts get_caller_identity reports *)
  stdin : list string;        (* the lines still to be typed *)
  terminal : list io_event;   (* prompts and prints so far, oldest first *)
  put_requests : list Dict.t  (* keyword arguments of each put_parameter *)
}.

Definition with_NAMES (w : World) (v : list string) : World :=
  mkWorld v (_VAR_VALUES w) (_REGION w) (_ACCOUNT w) (OVERWRITE_DEFAULT w)
          (region_name w) (caller_account w) (stdin w) (terminal w)
          (put_requests w).
Definition with_VAR_VALUES (w : World) (v : list (string * binding)) : World :=
  mkWorld (NAMES w) v (_REGION w) (_ACCOUNT w) (OVERWRITE_DEFAULT w)
          (region_name w) (caller_account w) (stdin w) (terminal w)
          (put_requests w).
Definition with_REGION (w : World) (v : pyobj) : World :=
  mkWorld (NAMES w) (_VAR_VALUES w) v (_ACCOUNT w) (OVERWRITE_DEFAULT w)
          (region_name w) (caller_account w) (stdin w) (terminal w)
          (put_requests w).
Definition with_ACCOUNT (w : World) (v : pyobj) : World :=
  mkWorld (NAMES w) (_VAR_VALUES w) (_REGION w) v (OVERWRITE_DEFAULT w)
          (region_name w) (caller_account w) (stdin w) (terminal w)
          (put_requests w).
Definition with_terminal (w : World) (i : list string) (t : list io_event)
  : World :=
  mkWorld (NAMES w) (_VAR_VALUES w) (_REGION w) (_ACCOUNT w)
          (OVERWRITE_DEFAULT w) (region_name w) (caller_account w) i t
          (put_requests w).
Definition with_put_requests (w : World) (v : list Dict.t) : World :=
  mkWorld (NAMES w) (_VAR_VALUES w) (_REGION w) (_ACCOUNT w)
          (OVERWRITE_DEFAULT w) (region_name w) (caller_account w) (stdin w)
          (terminal w) v.

(** A freshly started process. *)
Definition initial_world (region account : pyobj) (typed : list string)
  : World :=
  mkWorld [] [] ONone ONone false region account typed [] [].

(* ------------------------------------------------------------------ *)
(** ** The monad of effectful code: state and exceptions *)

Definition M (A : Type) : Type := World -> outcome A * World.

Definition ret {A} (a : A) : M A := fun w => (Ok a, w).

Definition raise {A} (e : exn) : M A := fun w => (Raise e, w).

Definition bind {A B} (c : M A) (k : A -> M B) : M B :=
  fun w =>
    match c w with
    | (Ok a, w') => k a w'
    | (Raise e, w') => (Raise e, w')
    end.

Definition lift {A} (o : outcome A) : M A := fun w => (o, w).

Definition get_world : M World := fun w => (Ok w, w).

Definition modify (f : World -> World) : M unit := fun w => (Ok tt, f w).

Declare Scope py_scope.
Delimit Scope py_scope with py.
Notation "x <- c ;; k" := (bind c (fun x => k))
  (at level 61, c at next level, right associativity) : py_scope.
Notation "' pat <- c ;; k" := (bind c (fun x => match x with pat => k end))
  (at level 61, pat pattern, c at next level, right associativity) : py_scope.
Notation "c ;; k" := (bind c (fun _ => k))
  (at level 61, right associativity) : py_scope.
Open Scope py_scope.

(** [[f(x) for x in l]] for an effectful [f]. *)
Fixpoint mapM {A B} (f : A -> M B) (l : list A) : M (list B) :=
  match l with
  | [] => ret []
  | x :: l' => y <- f x ;; ys <- mapM f l' ;; ret (y :: ys)
  end.

(* ------------------------------------------------------------------ *)
(** ** [SSMClient]: identity look-ups *)

(** [SSMClient.get_region()]. *)
Definition SSMClient_get_region : M pyobj :=
  w <- get_world ;;
  (if negb (truthy (_REGION w))
   then modify (fun w => with_REGION w (region_name w))
   else ret tt) ;;
  w <- get_world ;;
  ret (_REGION w).

(** [SSMClient.get_account()]. *)
Definition SSMClient_get_account : M pyobj :=
  w <- get_world ;;
  (if negb (truthy (_ACCOUNT w))
   then modify (fun w => with_ACCOUNT w (caller_account w))
   else ret tt) ;;
  w <- get_world ;;
  ret (_ACCOUNT w).

(* ------------------------------------------------------------------ *)
(** ** The program *)

Section Program.

(** [re.search(pattern, value)] of the Python library finds a match; the
    patterns here are written by the user. *)
Variable re_search : pyobj -> pyobj -> outcome bool.

(** [SSMClient.decrypt(ciphertext, key_id)], delegated to the encryption
    provider. *)
Variable SSMClient_decrypt : pyobj -> pyobj -> outcome pyobj.

(* ---------------------------------------------------------------- *)
(** *** [Input] *)

(** [Input(name, type, pattern, description, default)]. *)
Definition Input_init (name : string) (type pattern description default : pyobj)
  : InputObj.t :=
  InputObj.mk name (if truthy type then type else OStr "String")
              pattern description default ONone ONone ONone.

Definition Input_load_item (inputs : list (string * InputObj.t))
           (item : string * pyobj) : outcome (list (string * InputObj.t)) :=
  let name := fst item in
  let data := if is_str (snd item) then ODict [("Type", snd item)]
              else snd item in
  match data with
  | ODict data =>
      if is_lit (Dict.get data "Type") "SecureString"
         && Dict.mem data "Default"
      then Raise (ValueError "Defaults are not allowed for SecureString" ONone)
      else Ok (assoc_set inputs name
                 (Input_init name (Dict.get data "Type")
                             (Dict.get data "Pattern")
                             (Dict.get data "Description")
                             (Dict.get data "Default")))
  | _ => Raise (AttributeError "get")
  end.

Fixpoint fold_outcome {A B} (f : A -> B -> outcome A) (l : list B) (a : A)
  : outcome A :=
  match l with
  | [] => Ok a
  | x :: l' => obind (f a x) (fold_outcome f l')
  end.

(** [Input.load(obj)]. *)
Definition Input_load (obj : pyobj) : outcome (list (string * InputObj.t)) :=
  match obj with
  | ODict d => fold_outcome Input_load_item d []
  | _ => Raise (AttributeError "items")
  end.

(** [Input.value_is_set()]: the value of [self._value or
    self._encrypted_value], which callers test for truth. *)
Definition Input_value_is_set (self : InputObj.t) : pyobj :=
  if truthy (InputObj._value self) then InputObj._value self
  else InputObj._encrypted_value self.

(** [Input.get_value(key_id)]. *)
Definition Input_get_value (self : InputObj.t) (key_id : pyobj)
  : outcome (pyobj * InputObj.t) :=
  if truthy key_id then
    if negb (truthy (InputObj._decrypted_value self)) then
      obind (if truthy (InputObj._encrypted_value self)
             then SSMClient_decrypt (InputObj._encrypted_value self) key_id
             else SSMClient_decrypt (InputObj._value self) key_id)
            (fun plain => Ok (plain, InputObj.set__decrypted_value self plain))
    else Ok (InputObj._decrypted_value self, self)
  else Ok (InputObj._value self, self).

(** [x is not False]. *)
Definition is_not_False (x : pyobj) : bool :=
  match x with OBool false => false | _ => true end.

(** [Input.set_value(value, encrypted)]. *)
Definition Input_set_value (self : InputObj.t) (value encrypted : pyobj)
  : InputObj.t :=
  if is_lit (InputObj.type self) "SecureString" && is_not_False encrypted
  then InputObj.set__encrypted_value self value
  else InputObj.set__value self value.

(** [input(prompt)] when [echo], [getpass.getpass(prompt)] otherwise. *)
Definition read_line (echo : bool) (prompt : prompt_text) : M string :=
  fun w =>
    match stdin w with
    | [] => (Raise EOFError,
             with_terminal w [] (terminal w ++ [ReadLine echo prompt])%list)
    | line :: rest =>
        (Ok line,
         with_terminal w rest (terminal w ++ [ReadLine echo prompt])%list)
    end.

Definition print (text : string) : M unit :=
  modify (fun w => with_terminal w (stdin w) (terminal w ++ [Printed text])%list).

(** The test [self.pattern and not re.search(self.pattern, value)]. *)
Definition pattern_rejects (self : InputObj.t) (value : pyobj) : outcome bool :=
  if truthy (InputObj.pattern self)
  then obind (re_search (InputObj.pattern self) value)
             (fun found => Ok (negb found))
  else Ok false.

(** [Input._prompt_for_string(echo)]. *)
Definition Input__prompt_for_string (self : InputObj.t) (echo : pyobj)
  : M pyobj :=
  value <- read_line (truthy echo)
             (EnterPrompt (InputObj.name self) (InputObj.type self)
                          (InputObj.description self)) ;;
  if negb (truthy (OStr value)) && truthy (InputObj.default self)
  then ret (InputObj.default self)
  else
    bad <- lift (pattern_rejects self (OStr value)) ;;
    if bad then raise (InputError "Invalid input" ONone)
    else ret (OStr value).

(** The loop [while entry: entry = input_fn('\n'); value.append(entry)]
    run on the lines still to be typed: the entries appended, the lines
    left, and whether the input ended before a blank line. *)
Fixpoint read_entries (lines : list string)
  : list string * list string * bool :=
  match lines with
  | [] => ([], [], true)
  | line :: rest =>
      if line =? "" then ([line], rest, false)
      else let '(entries, remaining, eof) := read_entries rest in
           (line :: entries, remaining, eof)
  end.

Definition read_more_entries (echo : bool) : M (list string) :=
  fun w =>
    let '(entries, remaining, eof) := read_entries (stdin w) in
    let reads := repeat (ReadLine echo NewlinePrompt)
                        (List.length entries + (if eof then 1 else 0)) in
    ((if eof then Raise EOFError else Ok entries),
     with_terminal w remaining (terminal w ++ reads)%list).

(** [Input._prompt_for_stringlist(echo)]. *)
Definition Input__prompt_for_stringlist (self : InputObj.t) (echo : pyobj)
  : M pyobj :=
  print "Enter StringList {} values (blank line when done):" ;;
  entry <- read_line (truthy echo) NewlinePrompt ;;
  if negb (truthy (OStr entry)) && truthy (InputObj.default self)
  then ret (InputObj.default self)
  else if contains_char "," entry then ret (OStr entry)
  else
    more <- (if truthy (OStr entry) then read_more_entries (truthy echo)
             else ret []) ;;
    let value := entry :: more in
    bad <- lift (pattern_rejects self (OStr (join "," value))) ;;
    if bad then raise (InputError "Invalid input" ONone)
    else ret (OList (map OStr value)).

(** [Input.set_value_from_prompt(echo)]; [_echo(default)] is [default]
    when [echo] is [None]. *)
Definition Input_set_value_from_prompt (self : InputObj.t) (echo : pyobj)
  : M InputObj.t :=
  let _echo (default : bool) := if is_none echo then OBool default else echo in
  if is_lit (InputObj.type self) "String" then
    v <- Input__prompt_for_string self (_echo true) ;;
    ret (InputObj.set__value self v)
  else if is_lit (InputObj.type self) "SecureString" then
    v <- Input__prompt_for_string self (_echo false) ;;
    ret (InputObj.set__decrypted_value self v)
  else if is_lit (InputObj.type self) "StringList" then
    v <- Input__prompt_for_stringlist self (_echo true) ;;
    ret (InputObj.set__value self v)
  else ret self.

(** The function [resolver] that [Input.get_resolver(inputs, prompt, echo)]
    returns.  It mutates the dictionary [inputs] it closes over, which is
    returned next to the result. *)
Definition resolver_found (inputs : list (string * InputObj.t))
           (prompt : bool) (echo : pyobj) (name : string) (input : InputObj.t)
  : M (binding * list (string * InputObj.t)) :=
  if negb (truthy (Input_value_is_set input)) then
    if prompt then
      input' <- Input_set_value_from_prompt input echo ;;
      ret (BoundInput input', assoc_set inputs name input')
    else raise (InputError "Input {} not given" (OStr name))
  else ret (BoundInput input, inputs).

Definition Input_get_resolver (inputs : list (string * InputObj.t))
           (prompt : bool) (echo : pyobj) (name : string)
  : M (binding * list (string * InputObj.t)) :=
  match assoc_lookup inputs name with
  | None =>
      if name =? "Region" then ret (RegionResolver, inputs)
      else if name =? "Account" then ret (AccountResolver, inputs)
      else if prompt then
        let input := Input_init name ONone ONone ONone ONone in
        resolver_found (assoc_set inputs name input) prompt echo name input
      else raise (InputError "Input {} not given" (OStr name))
  | Some input => resolver_found inputs prompt echo name input
  end.

(** One iteration of the loop of [Input.merge_inputs]. *)
Definition merge_input (inputs : list (string * InputObj.t))
           (item : string * InputObj.t)
  : outcome (list (string * InputObj.t)) :=
  let name := fst item in
  let input_to_merge := snd item in
  match assoc_lookup inputs name with
  | None => Ok (assoc_set inputs name input_to_merge)
  | Some input =>
      if negb (py_eqb (InputObj.type input) (InputObj.type input_to_merge))
      then Raise (TypeError "Conflicting input types for {}" (OStr name))
      else
        let pattern := InputObj.pattern input in
        let pattern_to_merge := InputObj.pattern input_to_merge in
        if truthy pattern && truthy pattern_to_merge
           && negb (py_eqb pattern pattern_to_merge)
        then Raise (ValueError "Conflicting input patterns for {}" (OStr name))
        else
          let input :=
            if truthy pattern_to_merge && negb (truthy pattern)
            then InputObj.set_pattern input pattern_to_merge else input in
          let input :=
            if truthy (InputObj.description input_to_merge)
               && negb (truthy (InputObj.description input))
            then InputObj.set_description input
                   (InputObj.description input_to_merge)
            else input in
          Ok (assoc_set inputs name input)
  end.

(** [Input.merge_inputs(inputs, inputs_to_merge)]: the first dictionary
    after the merge. *)
Definition Input_merge_inputs (inputs inputs_to_merge : list (string * InputObj.t))
  : outcome (list (string * InputObj.t)) :=
  fold_outcome merge_input inputs_to_merge inputs.

(* ---------------------------------------------------------------- *)
(** *** [VarString] *)

(** [s.add(x)] on a set kept as a list without duplicates. *)
Definition set_add (x : string) (s : list string) : list string :=
  if existsb (String.eqb x) s then s else (s ++ [x])%list.

(** [VarString(s, key_id)]. *)
Definition VarString_init (s : string) (key_id : pyobj) : M pyobj :=
  let names := Re.findall_reference s in
  modify (fun w => with_NAMES w
                     (fold_left (fun acc n => set_add n acc) names (NAMES w))) ;;
  ret (OVar s names key_id (match names with [] => Some s | _ => None end)).

(** [VarString.load(obj, key_id)]. *)
Definition VarString_load (obj key_id : pyobj) : M pyobj :=
  match obj with
  | OStr s => VarString_init s key_id
  | _ => ret obj
  end.

(** [VarString.single_reference(s)]. *)
Definition VarString_single_reference (s : pyobj) : outcome pyobj :=
  match s with
  | OStr s =>
      if Re.fullmatch_reference s then Ok (OStr s)
      else if Re.fullmatch_var_name s then Ok (OStr (Re.reference_text s))
      else Raise (ValueError "{} is not a valid single reference" (OStr s))
  | _ => Raise (TypeError "expected string or bytes-like object" s)
  end.

(** [sorted(names)] by insertion, in the order of the character codes. *)
Fixpoint insert_sorted (x : string) (l : list string) : list string :=
  match l with
  | [] => [x]
  | y :: l' => if String.leb x y then x :: l else y :: insert_sorted x l'
  end.

Definition sorted (l : list string) : list string :=
  fold_right insert_sorted [] l.

(** [VarString.resolve(resolver)]; [st] is the state the resolver closes
    over. *)
Fixpoint resolve_names {S : Type} (resolver : S -> string -> M (binding * S))
         (names : list string) (st : S) : M S :=
  match names with
  | [] => ret st
  | name :: rest =>
      '(b, st') <- resolver st name ;;
      modify (fun w => with_VAR_VALUES w (assoc_set (_VAR_VALUES w) name b)) ;;
      resolve_names resolver rest st'
  end.

Definition VarString_resolve {S : Type}
           (resolver : S -> string -> M (binding * S)) (st : S) : M S :=
  w <- get_world ;;
  resolve_names resolver (sorted (NAMES w)) st.

(** [b.get_value(key_id=key_id)] on what [_VAR_VALUES] holds. *)
Definition binding_get_value (b : binding) (key_id : pyobj)
  : M (pyobj * binding) :=
  match b with
  | RegionResolver => v <- SSMClient_get_region ;; ret (v, b)
  | AccountResolver => v <- SSMClient_get_account ;; ret (v, b)
  | BoundInput i =>
      '(v, i') <- lift (Input_get_value i key_id) ;;
      ret (v, BoundInput i')
  end.

(** The test [not self._value] fails: a non-empty result is cached. *)
Definition cache_hit (cached : option string) : option string :=
  match cached with
  | Some c => if c =? "" then None else Some c
  | None => None
  end.

(** Nesting of [VarString] objects through [_key_id]. *)
Fixpoint VarString_depth (o : pyobj) : nat :=
  match o with
  | OVar _ _ k _ => S (VarString_depth k)
  | _ => 0
  end.

(** The loop [for name in self.names] of [VarString.value]: [value] is the
    text so far, [key] the object [self._key_id], which [dump_key] reads
    ([VarString.dump]).  The binding of [name] is written back to
    [_VAR_VALUES] as [get_value] leaves it. *)
Fixpoint substitute (dump_key : pyobj -> M (pyobj * pyobj))
         (names : list string) (value : string) (key : pyobj)
  : M (string * pyobj) :=
  match names with
  | [] => ret (value, key)
  | name :: rest =>
      '(key_id, key') <- dump_key key ;;
      w <- get_world ;;
      match assoc_lookup (_VAR_VALUES w) name with
      | None => raise (KeyError (OStr name))
      | Some b =>
          '(var_value, b') <- binding_get_value b key_id ;;
          modify (fun w => with_VAR_VALUES w
                             (assoc_set (_VAR_VALUES w) name b')) ;;
          match var_value with
          | OStr repl =>
              value' <- lift (Re.sub name repl value) ;;
              substitute dump_key rest value' key'
          | _ => raise (TypeError "expected str instance" var_value)
          end
      end
  end.

(** The property [VarString.value].  Reading [self._key_id] recurses into
    another [VarString]; [fuel] bounds that nesting, and
    [value_at_enough_fuel] shows that the nesting depth of [self] is always
    enough.  The result comes with [self] as the read leaves it. *)
Fixpoint value_at (fuel : nat) (self : pyobj) : M (string * pyobj) :=
  match self with
  | OVar template names key cached =>
      match cache_hit cached with
      | Some c => ret (c, self)
      | None =>
          '(value, key') <-
            substitute
              (fun k =>
                 match k with
                 | OVar _ _ _ _ =>
                     match fuel with
                     | S f => '(v, k') <- value_at f k ;; ret (OStr v, k')
                     | O => raise RecursionError
                     end
                 | _ => ret (k, k)
                 end)
              names template key ;;
          ret (value, OVar template names key' (Some value))
      end
  | _ => raise (AttributeError "value")
  end.

Definition VarString_value (self : pyobj) : M (string * pyobj) :=
  value_at (VarString_depth self) self.

(** [VarString.dump(obj)], with [obj] as the read leaves it. *)
Definition VarString_dump (obj : pyobj) : M (pyobj * pyobj) :=
  match obj with
  | OVar _ _ _ _ => '(v, obj') <- VarString_value obj ;; ret (OStr v, obj')
  | _ => ret (obj, obj)
  end.

(* ---------------------------------------------------------------- *)
(** *** [SSMParameter] *)

(** [SSMParameter(name, type, value, ...)]. *)
Definition SSMParameter_init
           (name type value allowed_pattern description key_id overwrite
            disable : pyobj) : outcome ParameterObj.t :=
  if (truthy key_id && negb (is_lit type "SecureString"))
     || (is_lit type "SecureString" && negb (truthy key_id))
  then Raise (ValueError "Mismatched secure inputs on parameter {}" name)
  else Ok (ParameterObj.mk name type value allowed_pattern description
                           key_id overwrite disable ONone ONone ONone).

(** [load_varstring] inside [SSMParameter.load], called as
    [load_varstring(o)] ([k] is [None]) or [load_varstring(o, k)]. *)
Definition load_varstring (vars_in_name_only : bool) (o k : pyobj) : M pyobj :=
  if vars_in_name_only then ret o else VarString_load o k.

(** [load_varstring(o, key_id=k)].  The lambda that stands for
    [load_varstring] under [vars_in_name_only] names its second parameter
    [k], so it rejects the keyword [key_id]. *)
Definition load_varstring_key_id (vars_in_name_only : bool) (o k : pyobj)
  : M pyobj :=
  if vars_in_name_only
  then raise (TypeError "<lambda>() got an unexpected keyword argument"
                        (OStr "key_id"))
  else VarString_load o k.

(** The statements of [SSMParameter.load] that fix [type]: the cascade
    over [KeyId] and [Value], then the assignment that follows it. *)
Definition load_type (obj : Dict.t) : outcome pyobj :=
  let type := Dict.get obj "Type" in
  if negb (truthy type) then
    obind (if Dict.mem obj "KeyId" then Ok (OStr "SecureString")
           else obind (subscript obj "Value")
                  (fun v => if negb (is_str v) then Ok (OStr "StringList")
                            else Ok (OStr "String")))
          (fun _ => Ok (if Dict.mem obj "KeyId" then OStr "SecureString"
                        else OStr "String"))
  else Ok type.

(** The statements of [SSMParameter.load] that fix [value]. *)
Definition load_value (vars_in_name_only : bool) (obj : Dict.t)
           (type key_id : pyobj) : M pyobj :=
  if is_lit type "SecureString" then
    if negb (truthy key_id)
    then raise (ValueError "SecureString requires KeyId" ONone)
    else if Dict.mem obj "EncryptedValue"
    then load_varstring_key_id vars_in_name_only
                               (Dict.get obj "EncryptedValue") key_id
    else if Dict.mem obj "Input" then
      r <- lift (VarString_single_reference (Dict.get obj "Input")) ;;
      load_varstring_key_id vars_in_name_only r key_id
    else if Dict.mem obj "Value"
    then raise (ValueError "Value cannot be used with SecureString" ONone)
    else ret ONone
  else
    match Dict.get obj "Value" with
    | OList l =>
        l' <- mapM (fun s => load_varstring vars_in_name_only s ONone) l ;;
        ret (OList l')
    | v => load_varstring vars_in_name_only v ONone
    end.

(** [SSMParameter.load(obj, vars_in_name_only)]. *)
Definition SSMParameter_load (obj : Dict.t) (vars_in_name_only : bool)
  : M ParameterObj.t :=
  name0 <- lift (subscript obj "Name") ;;
  name <- VarString_load name0 ONone ;;
  type <- lift (load_type obj) ;;
  key_id <- load_varstring vars_in_name_only (Dict.get obj "KeyId") ONone ;;
  value <- load_value vars_in_name_only obj type key_id ;;
  allowed_pattern <-
    load_varstring vars_in_name_only (Dict.get obj "AllowedPattern") ONone ;;
  let description := Dict.get obj "Description" in
  let overwrite := Dict.get obj "Overwrite" in
  disable <-
    load_varstring vars_in_name_only
      (Dict.get_default obj "Disable" (Dict.get obj "Disabled")) ONone ;;
  parameter <- lift (SSMParameter_init name type value allowed_pattern
                       description key_id overwrite disable) ;;
  ret (ParameterObj.set_metadata parameter
         (Dict.get obj "Version") (Dict.get obj "LastModifiedDate")
         (Dict.get obj "LastModifiedUser")).

(** The properties; each returns [self] as the read leaves it. *)
Definition SSMParameter_name (self : ParameterObj.t)
  : M (pyobj * ParameterObj.t) :=
  '(v, o) <- VarString_dump (ParameterObj._name self) ;;
  ret (v, ParameterObj.set__name self o).

Definition SSMParameter_type (self : ParameterObj.t) : pyobj :=
  ParameterObj._type self.

Definition SSMParameter_disable (self : ParameterObj.t)
  : M (bool * ParameterObj.t) :=
  if is_none (ParameterObj._disable self) then ret (false, self)
  else
    '(v, o) <- VarString_dump (ParameterObj._disable self) ;;
    ret (truthy v, ParameterObj.set__disable self o).

(** [[VarString.dump(v) for v in l]] with the elements as left. *)
Fixpoint dump_all (l : list pyobj) : M (list pyobj * list pyobj) :=
  match l with
  | [] => ret ([], [])
  | v :: l' =>
      '(x, v') <- VarString_dump v ;;
      '(xs, l'') <- dump_all l' ;;
      ret (x :: xs, v' :: l'')
  end.

(** [','.join(items)]: every item must be a string. *)
Fixpoint strings_of (items : list pyobj) : outcome (list string) :=
  match items with
  | [] => Ok []
  | OStr s :: rest => obind (strings_of rest) (fun l => Ok (s :: l))
  | x :: _ => Raise (TypeError "sequence item: expected str instance" x)
  end.

Definition comma_join (items : list pyobj) : outcome pyobj :=
  obind (strings_of items) (fun l => Ok (OStr (join "," l))).

Definition SSMParameter_value (self : ParameterObj.t)
  : M (pyobj * ParameterObj.t) :=
  if is_none (ParameterObj._value self) then
    '(d, self) <- SSMParameter_disable self ;;
    if (d : bool) then ret (ParameterObj._value self, self)
    else
      '(n, self) <- SSMParameter_name self ;;
      raise (ValueError "Value missing for parameter {}" n)
  else
    '(value, o) <- VarString_dump (ParameterObj._value self) ;;
    let self := ParameterObj.set__value self o in
    if negb (is_str value) then
      match ParameterObj._value self with
      | OList l =>
          '(items, l') <- dump_all l ;;
          joined <- lift (comma_join items) ;;
          ret (joined, ParameterObj.set__value self (OList l'))
      | ODict d =>
          joined <- lift (comma_join (map OStr (Dict.keys d))) ;;
          ret (joined, self)
      | other => raise (TypeError "object is not iterable" other)
      end
    else ret (value, self).

Definition SSMParameter_allowed_pattern (self : ParameterObj.t)
  : M (pyobj * ParameterObj.t) :=
  '(v, o) <- VarString_dump (ParameterObj._allowed_pattern self) ;;
  ret (v, ParameterObj.set__allowed_pattern self o).

Definition SSMParameter_description (self : ParameterObj.t) : pyobj :=
  ParameterObj._description self.

Definition SSMParameter_key_id (self : ParameterObj.t)
  : M (pyobj * ParameterObj.t) :=
  '(v, o) <- VarString_dump (ParameterObj._key_id self) ;;
  ret (v, ParameterObj.set__key_id self o).

Definition SSMParameter_secure (self : ParameterObj.t) : bool :=
  is_lit (SSMParameter_type self) "SecureString".

Definition SSMParameter_overwrite (self : ParameterObj.t) : M bool :=
  if negb (is_none (ParameterObj._overwrite self))
  then ret (truthy (ParameterObj._overwrite self))
  else w <- get_world ;; ret (OVERWRITE_DEFAULT w).

(** [SSMParameter.dump()]. *)
Definition SSMParameter_dump (self : ParameterObj.t)
  : M (Dict.t * ParameterObj.t) :=
  '(name, self) <- SSMParameter_name self ;;
  '(value, self) <- SSMParameter_value self ;;
  let data := [("Name", name); ("Type", SSMParameter_type self);
               ("Value", value)] in
  '(ap, self) <- SSMParameter_allowed_pattern self ;;
  '(data, self) <-
    (if truthy ap
     then '(ap, self) <- SSMParameter_allowed_pattern self ;;
          ret (Dict.set data "AllowedPattern" ap, self)
     else ret (data, self)) ;;
  let data :=
    if truthy (SSMParameter_description self)
    then Dict.set data "Description" (SSMParameter_description self)
    else data in
  '(k, self) <- SSMParameter_key_id self ;;
  if truthy k
  then '(k, self) <- SSMParameter_key_id self ;;
       ret (Dict.set data "KeyId" k, self)
  else ret (data, self).

(* ---------------------------------------------------------------- *)
(** *** [_batch] and [SSMClient.batch_put] *)

(** [range(start, stop, step)] for a positive [step]. *)
Definition range (start stop step : nat) : list nat :=
  map (fun i => start + i * step)
      (seq 0 ((stop - start + step - 1) / step)).

(** [iterable[a:b]]. *)
Definition slice {A} (iterable : list A) (a b : nat) : list A :=
  firstn (b - a) (skipn a iterable).

(** [_batch(iterable, n)], the chunks the generator yields. *)
Definition _batch {A} (iterable : list A) (n : nat) : list (list A) :=
  let l := List.length iterable in
  map (fun ndx => slice iterable ndx (Nat.min (ndx + n) l)) (range 0 l n).

(** [client.put_parameter] called with the keyword arguments [kwargs]:
    the request reaches the store. *)
Definition put_parameter (kwargs : Dict.t) : M unit :=
  modify (fun w => with_put_requests w (put_requests w ++ [kwargs])%list).

(** The body of the inner loop of [batch_put]. *)
Definition put_one (parameter : ParameterObj.t) : M ParameterObj.t :=
  '(d, parameter) <- SSMParameter_disable parameter ;;
  if (d : bool) then ret parameter
  else
    '(name, parameter) <- SSMParameter_name parameter ;;
    '(value, parameter) <- SSMParameter_value parameter ;;
    let kwargs := [("Name", name); ("Type", SSMParameter_type parameter);
                   ("Value", value)] in
    '(ap, parameter) <- SSMParameter_allowed_pattern parameter ;;
    '(kwargs, parameter) <-
      (if truthy ap
       then '(ap, parameter) <- SSMParameter_allowed_pattern parameter ;;
            ret (Dict.set kwargs "AllowedPattern" ap, parameter)
       else ret (kwargs, parameter)) ;;
    let kwargs :=
      if truthy (SSMParameter_description parameter)
      then Dict.set kwargs "Description" (SSMParameter_description parameter)
      else kwargs in
    '(k, parameter) <- SSMParameter_key_id parameter ;;
    '(kwargs, parameter) <-
      (if truthy k
       then '(k, parameter) <- SSMParameter_key_id parameter ;;
            ret (Dict.set kwargs "KeyId" k, parameter)
       else ret (kwargs, parameter)) ;;
    ow <- SSMParameter_overwrite parameter ;;
    kwargs <-
      (if (ow : bool)
       then ow <- SSMParameter_overwrite parameter ;;
            ret (Dict.set kwargs "Overwrite" (OBool ow))
       else ret kwargs) ;;
    put_parameter kwargs ;;
    ret parameter.

(** The outer loop of [batch_put]: the loop variable [parameters] is never
    read, the inner loop runs over [args]. *)
Fixpoint put_batches (batches : list (list ParameterObj.t))
         (args : list ParameterObj.t) : M (list ParameterObj.t) :=
  match batches with
  | [] => ret args
  | parameters :: rest =>
      args' <- mapM put_one args ;;
      put_batches rest args'
  end.

(** [SSMClient.batch_put] called on the parameters [args], which come
    back as the reads leave them. *)
Definition SSMClient_batch_put (args : list ParameterObj.t)
  : M (list ParameterObj.t) :=
  put_batches (_batch args 10) args.

(* ---------------------------------------------------------------- *)
(** *** [parse_parameter_file] and [compile_parameter_file] *)

Record ParameterFileData : Type := mkParameterFileData {
  inputs : list (string * InputObj.t);
  parameters : list (string * ParameterObj.t);
  flush : pyobj
}.

Definition INPUT_KEY : string := ".INPUT".
Definition COMMON_KEY : string := ".COMMON".
Definition FLUSH_KEY : string := ".FLUSH".

(** [d.update(x)] for a mapping [x]; an argument that is not a mapping is
    rejected (the form of [update] that takes a sequence of pairs is not
    modelled). *)
Definition dict_update (d : Dict.t) (x : pyobj) : outcome Dict.t :=
  match x with
  | ODict e => Ok (Dict.update d e)
  | _ => Raise (TypeError "object is not a mapping" x)
  end.

(** The mapping that the loop of [parse_parameter_file] hands to
    [SSMParameter.load] for the entry [name: data]: the sugar for a bare
    string or list, then the common defaults, then the fields of the
    entry. *)
Definition entry_fragment (name : string) (common_data data : pyobj)
  : outcome Dict.t :=
  let param_data := [("Name", OStr name)] in
  let data :=
    match data with
    | OStr _ => ODict [("Type", OStr "String"); ("Value", data)]
    | OList _ => ODict [("Type", OStr "StringList"); ("Value", data)]
    | _ => data
    end in
  obind (dict_update param_data common_data)
        (fun param_data => dict_update param_data data).

(** The body of the loop of [parse_parameter_file]. *)
Definition parse_entry (common_data : pyobj) (vars_in_name_only : bool)
           (parameters : list (string * ParameterObj.t))
           (item : string * pyobj) : M (list (string * ParameterObj.t)) :=
  let name := fst item in
  let data := snd item in
  if startswith name "." then ret parameters
  else
    param_data <- lift (entry_fragment name common_data data) ;;
    parameter <- SSMParameter_load param_data vars_in_name_only ;;
    ret (assoc_set parameters name parameter).

Fixpoint foldM {A B} (f : A -> B -> M A) (l : list B) (a : A) : M A :=
  match l with
  | [] => ret a
  | x :: l' => a' <- f a x ;; foldM f l' a'
  end.

(** [parse_parameter_file(obj, vars_in_name_only)]. *)
Definition parse_parameter_file (obj : pyobj) (vars_in_name_only : bool)
  : M ParameterFileData :=
  match obj with
  | ODict obj =>
      inputs <- lift (Input_load (Dict.get_default obj INPUT_KEY (ODict []))) ;;
      let common_data := Dict.get_default obj COMMON_KEY (ODict []) in
      let flush := Dict.get_default obj FLUSH_KEY (OList []) in
      let flush := if is_str flush then OList [flush] else flush in
      parameters <- foldM (parse_entry common_data vars_in_name_only) obj [] ;;
      ret (mkParameterFileData inputs parameters flush)
  | _ => raise (AttributeError "get")
  end.

(** The body of the loop of [compile_parameter_file]; [acc] is the
    document so far and the parameters already visited.  The keys of a
    dictionary are strings here, so a name that is not a string is
    rejected. *)
Definition compile_entry (ignore_disabled : bool)
           (acc : Dict.t * list ParameterObj.t) (parameter : ParameterObj.t)
  : M (Dict.t * list ParameterObj.t) :=
  let '(ssm_param_file_data, seen) := acc in
  '(d, parameter) <- SSMParameter_disable parameter ;;
  if (d : bool) && ignore_disabled
  then ret (ssm_param_file_data, (seen ++ [parameter])%list)
  else
    '(data, parameter) <- SSMParameter_dump parameter ;;
    match Dict.get data "Name" with
    | OStr name =>
        ret (Dict.set ssm_param_file_data name
                      (ODict (Dict.remove data "Name")),
             (seen ++ [parameter])%list)
    | other => raise (TypeError "parameter name is not a string" other)
    end.

(** [compile_parameter_file(parameters, flush, ignore_disabled)]: the
    document, and the parameters as the reads leave them. *)
Definition compile_parameter_file (parameters : list ParameterObj.t)
           (flush : pyobj) (ignore_disabled : bool)
  : M (Dict.t * list ParameterObj.t) :=
  let ssm_param_file_data :=
    if truthy flush then [(FLUSH_KEY, flush)] else [] in
  foldM (compile_entry ignore_disabled) parameters (ssm_param_file_data, []).

End Program.

(* ------------------------------------------------------------------ *)
(** ** The remaining calls of [SSMClient] and the command line *)

(** *** [SSMClient.delete], [SSMClient.get], [SSMClient.get_path] *)

(** [SSMClient.delete] called on the names [args]: the [Names] argument of
    each [delete_parameters] request it sends, in order. *)
Definition SSMClient_delete {A} (args : list A) : list (list A) :=
  _batch args 10.

Section Remote.

(** What the service answers.  [get_parameter_history name] is the body of
    [get_versions]: the versions of [name], loaded and sorted, newest first.
    [get_parameters names] is the response of [client.get_parameters]: its
    [InvalidParameters] and its [Parameters].  [pages] are the responses of
    the paginator of [get_parameters_by_path], each by its [Parameters]. *)
Variable get_parameter_history : pyobj -> M (list ParameterObj.t).
Variable get_parameters : list pyobj -> outcome (list pyobj * list Dict.t).
Variable pages : list (list Dict.t).

(** [SSMClient.get_versions(name)] called with the keyword arguments
    [kwargs] besides [name]: the function declares no other parameter. *)
Definition SSMClient_get_versions (name : pyobj) (kwargs : list string)
  : M (list ParameterObj.t) :=
  match kwargs with
  | [] => get_parameter_history name
  | keyword :: _ =>
      raise (TypeError "get_versions() got an unexpected keyword argument"
                       (OStr keyword))
  end.

(** The body of the loop of [get] under [full]. *)
Definition get_full (parameters : list ParameterObj.t) (name : pyobj)
  : M (list ParameterObj.t) :=
  parameter_versions <- SSMClient_get_versions name ["with_decryption"] ;;
  match parameter_versions with
  | [] => raise (IndexError "list index out of range")
  | newest :: _ => ret (parameters ++ [newest])%list
  end.

(** The body of the loop of [get] over the chunks of names. *)
Definition get_chunk (acc : list pyobj * list ParameterObj.t)
           (names : list pyobj) : M (list pyobj * list ParameterObj.t) :=
  let '(invalid_parameter_names, parameters) := acc in
  '(invalid, found) <- lift (get_parameters names) ;;
  loaded <- mapM (fun p => SSMParameter_load p false) found ;;
  ret ((invalid_parameter_names ++ invalid)%list, (parameters ++ loaded)%list).

(** [SSMClient.get] called on the names [args] with the keyword [full]. *)
Definition SSMClient_get (args : list pyobj) (full : bool)
  : M (list ParameterObj.t) :=
  '(invalid_parameter_names, parameters) <-
    (if full
     then parameters <- foldM get_full args [] ;; ret ([], parameters)
     else foldM get_chunk (_batch args 10) ([], [])) ;;
  if truthy (OList invalid_parameter_names)
  then
    names <- lift (strings_of invalid_parameter_names) ;;
    raise (KeyError (OStr ("Invalid parameter names " ++ join ", " names)))
  else ret parameters.

(** [[item['Name'] for item in items]]. *)
Fixpoint item_names (items : list Dict.t) : outcome (list pyobj) :=
  match items with
  | [] => Ok []
  | item :: rest =>
      obind (subscript item "Name")
            (fun name => obind (item_names rest) (fun l => Ok (name :: l)))
  end.

(** The body of the loop of [get_path] over the responses. *)
Definition get_path_page (names_only full : bool)
           (acc : list pyobj * list ParameterObj.t) (page : list Dict.t)
  : M (list pyobj * list ParameterObj.t) :=
  let '(names, parameters) := acc in
  if names_only || full
  then more <- lift (item_names page) ;;
       ret ((names ++ more)%list, parameters)
  else loaded <- mapM (fun item => SSMParameter_load item false) page ;;
       ret (names, (parameters ++ loaded)%list).

(** [SSMClient.get_path(path, names_only, full)]: names, or parameters. *)
Definition SSMClient_get_path (names_only full : bool)
  : M (list pyobj + list ParameterObj.t) :=
  if names_only && full
  then raise (ValueError "Can't specify both names_only and full" ONone)
  else
    '(names, parameters) <-
      foldM (get_path_page names_only full) pages ([], []) ;;
    if names_only then ret (inl names)
    else if full
    then parameters <- SSMClient_get names true ;; ret (inr parameters)
    else ret (inr parameters).

(** [SSMClient.delete_path(path)]: the names of each request it sends. *)
Definition SSMClient_delete_path : M (list (list pyobj)) :=
  names <- SSMClient_get_path true false ;;
  match names with
  | inl names => ret (SSMClient_delete names)
  | inr _ => ret []
  end.

End Remote.

(** *** The command line ([cli.py]) *)

(** The part of the namespace of [parse_args] that [add_input_args]
    declares: [--input NAME VALUE] is collected in [input]; the attribute
    [secure_input] exists only when [add_input_args] was called with
    [secure] true. *)
Record Namespace : Type := mkNamespace {
  args_input : list (string * string);
  args_secure_input : option (list (string * string))
}.

(** [load_inputs_from_args(args)]. *)
Definition load_inputs_from_args (args : Namespace)
  : outcome (list (string * InputObj.t)) :=
  let inputs :=
    fold_left
      (fun inputs item =>
         assoc_set inputs (fst item)
           (Input_set_value
              (Input_init (fst item) (OStr "String") ONone ONone ONone)
              (OStr (snd item)) ONone))
      (args_input args) [] in
  match args_secure_input args with
  | None => Raise (AttributeError "secure_input")
  | Some secure_input =>
      Ok (fold_left
            (fun inputs item =>
               assoc_set inputs (fst item)
                 (Input_set_value
                    (Input_init (fst item) (OStr "SecureString")
                                ONone ONone ONone)
                    (OStr (snd item)) (OBool true)))
            secure_input inputs)
  end.

(** [list(x)], the elements that [list.extend(x)] appends. *)
Definition iterate (x : pyobj) : outcome (list pyobj) :=
  match x with
  | OList l => Ok l
  | ODict d => Ok (map OStr (Dict.keys d))
  | OStr s => Ok (map (fun c => OStr (String c "")) (list_ascii_of_string s))
  | _ => Raise (TypeError "object is not iterable" x)
  end.

(** [d.update(e)] on the dictionaries of Inputs and parameters. *)
Definition assoc_update {V} (d e : list (string * V)) : list (string * V) :=
  fold_left (fun acc kv => assoc_set acc (fst kv) (snd kv)) e d.

(** The body of the loop of [load_parameter_files]: [file] is the name of
    the file and the document that [yaml.safe_load] reads from it; [acc]
    holds the local variables [inputs], [parameters] and [flush]. *)
Definition load_parameter_file
           (acc : list (string * InputObj.t) * list (string * ParameterObj.t)
                  * list pyobj)
           (file : string * pyobj)
  : M (list (string * InputObj.t) * list (string * ParameterObj.t)
       * list pyobj) :=
  let '(inputs0, parameters0, flush0) := acc in
  print ("Loading " ++ fst file ++ "...") ;;
  data <- parse_parameter_file (snd file) false ;;
  inputs1 <- lift (Input_merge_inputs inputs0 (inputs data)) ;;
  let parameters1 := assoc_update parameters0 (parameters data) in
  more <- lift (iterate (flush data)) ;;
  ret (inputs1, parameters1, (flush0 ++ more)%list).

(** [load_parameter_files(args, inputs)] on the files of
    [args.parameter_file]. *)
Definition load_parameter_files (files : list (string * pyobj))
           (inputs0 : list (string * InputObj.t)) : M ParameterFileData :=
  '(inputs1, parameters1, flush1) <-
    foldM load_parameter_file files (inputs0, [], []) ;;
  ret (mkParameterFileData inputs1 parameters1 (OList flush1)).

(* ------------------------------------------------------------------ *)
(** ** Concrete collaborators, states and inputs for the examples *)

(** A pattern search that always finds a match and a provider that decrypts
    everything to the same text. *)
Definition search_any (pattern value : pyobj) : outcome bool := Ok true.
Definition decrypt_const (ciphertext key_id : pyobj) : outcome pyobj :=
  Ok (OStr "plaintext").

(** A fresh process in region us-east-1 with nothing typed at the terminal. *)
Definition sample_world : World :=
  initial_world (OStr "us-east-1") (OStr "123456789012") [].

(** What [SSMParameter.load] builds for a [String] parameter without
    references: both strings are [VarString] objects resolved at once. *)
Definition plain_parameter (name value : string) : ParameterObj.t :=
  ParameterObj.mk (OVar name [] ONone (Some name)) (OStr "String")
                  (OVar value [] ONone (Some value))
                  ONone ONone ONone ONone ONone ONone ONone ONone.

(** A parameter without a value, with the given [Disable] field. *)
Definition valueless_parameter (name : string) (disable : pyobj)
  : ParameterObj.t :=
  ParameterObj.mk (OVar name [] ONone (Some name)) (OStr "String") ONone
                  ONone ONone ONone ONone disable ONone ONone ONone.

Definition eleven_names : list string :=
  ["/p/01"; "/p/02"; "/p/03"; "/p/04"; "/p/05"; "/p/06"; "/p/07"; "/p/08";
   "/p/09"; "/p/10"; "/p/11"].

Definition eleven_parameters : list ParameterObj.t :=
  map (fun n => plain_parameter n "v") eleven_names.

(** A fragment without [Type] and [KeyId] whose [Value] is a list. *)
Definition list_fragment : Dict.t :=
  [("Name", OStr "/app/hosts"); ("Value", OList [OStr "a"; OStr "b"])].

(** [LF] is the line feed; [windows_path] is the seven characters
    C, colon, backslash, n, e, w, s. *)
Definition LF : string := String (ascii_of_nat 10) "".
Definition windows_path : string := "C:\news".

(** The Input [path], supplied on the command line as [windows_path], and a
    state in which the resolution pass has bound it. *)
Definition path_input : InputObj.t :=
  Input_set_value (Input_init "path" (OStr "String") ONone ONone ONone)
                  (OStr windows_path) ONone.

Definition path_world : World :=
  with_VAR_VALUES (with_NAMES sample_world ["path"])
                  [("path", BoundInput path_input)].

(** [VarString('dir=$(path)', None)]. *)
Definition dir_varstring : pyobj := OVar "dir=$(path)" ["path"] ONone None.

(** A user Input that happens to be called [Region]. *)
Definition region_input : InputObj.t :=
  Input_set_value (Input_init "Region" (OStr "String") ONone ONone ONone)
                  (OStr "mars-1") ONone.

(** The Inputs [Stage] and [Account] as [--input] supplies them. *)
Definition account_input : InputObj.t :=
  Input_set_value (Input_init "Account" (OStr "String") ONone ONone ONone)
                  (OStr "000000000000") ONone.

Definition given_inputs : list (string * InputObj.t) :=
  [("Stage", Input_set_value
               (Input_init "Stage" (OStr "String") ONone ONone ONone)
               (OStr "prod") ONone);
   ("Account", account_input)].

(** A document with a key that starts with a dot and is not reserved. *)
Definition dotted_document : Dict.t :=
  [(".NOTES", OStr "owner: ops"); ("/app/name", OStr "demo")].

(** A document with a [StringList] entry. *)
Definition list_document : Dict.t :=
  [("/app/hosts",
    ODict [("Type", OStr "StringList"); ("Value", OList [OStr "a"; OStr "b"])])].

(** A document whose entry carries a [Name] that is not its key. *)
Definition renamed_document : Dict.t :=
  [("/a", ODict [("Name", OStr "/b"); ("Value", OStr "x")])].

(** A document with common defaults, a flush path and one entry of each
    kind. *)
Definition plain_sample_document : Dict.t :=
  [(".FLUSH", OStr "/app");
   (".COMMON", ODict [("Description", OStr "demo application")]);
   ("/app/name", OStr "demo");
   ("/app/hosts", OList [OStr "a"; OStr "b"]);
   ("/app/port",
    ODict [("Value", OStr "8080"); ("AllowedPattern", OStr "^[0-9]+$");
           ("Description", OStr "listening port")]);
   ("/app/secret",
    ODict [("KeyId", OStr "alias/app"); ("EncryptedValue", OStr "AQICAHh")])].

(* ------------------------------------------------------------------ *)
(** ** Properties *)

(** *** Laws of the monad used in the proofs *)

Lemma bind_ok {A B} (c : M A) (k : A -> M B) {w a w'} :
  c w = (Ok a, w') -> bind c k w = k a w'.
Proof. intros H. unfold bind. rewrite H. reflexivity. Qed.

Lemma bind_raise {A B} (c : M A) (k : A -> M B) {w e w'} :
  c w = (Raise e, w') -> bind c k w = (Raise e, w').
Proof. intros H. unfold bind. rewrite H. reflexivity. Qed.

Lemma bind_ret {A B} (a : A) (k : A -> M B) w : bind (ret a) k w = k a w.
Proof. reflexivity. Qed.

Lemma bind_lift {A B} (a : A) (k : A -> M B) (w : World) :
  bind (lift (Ok a)) k w = k a w.
Proof. reflexivity. Qed.

Lemma bind_assoc {A B C} (c : M A) (k1 : A -> M B) (k2 : B -> M C) (w : World) :
  bind (bind c k1) k2 w = bind c (fun a => bind (k1 a) k2) w.
Proof. unfold bind. destruct (c w) as [[a|e] w']; reflexivity. Qed.

(** *** [VarString.value] has enough fuel *)

Section Fuel.
Variable decrypt : pyobj -> pyobj -> outcome pyobj.

(** How [value_at] reads [self._key_id] with [fuel] left. *)
Definition dump_key_at (fuel : nat) (k : pyobj) : M (pyobj * pyobj) :=
  match k with
  | OVar _ _ _ _ =>
      match fuel with
      | S f => '(v, k') <- value_at decrypt f k ;; ret (OStr v, k')
      | O => raise RecursionError
      end
  | _ => ret (k, k)
  end.

Lemma value_at_unfold (fuel : nat) template names key cached :
  value_at decrypt fuel (OVar template names key cached)
  = match cache_hit cached with
    | Some c => ret (c, OVar template names key cached)
    | None =>
        '(value, key') <-
          substitute decrypt (dump_key_at fuel) names template key ;;
        ret (value, OVar template names key' (Some value))
    end.
Proof. destruct fuel; reflexivity. Qed.

Lemma substitute_key_depth (dump_key : pyobj -> M (pyobj * pyobj)) :
  (forall k w r k' w',
      dump_key k w = (Ok (r, k'), w') -> VarString_depth k' = VarString_depth k) ->
  forall names value key w v key' w',
    substitute decrypt dump_key names value key w = (Ok (v, key'), w') ->
    VarString_depth key' = VarString_depth key.
Proof.
  intros D. induction names as [|name rest IH]; intros value key w v key' w' H.
  - inversion H. reflexivity.
  - simpl in H. unfold bind at 1 in H.
    destruct (dump_key key w) as [[[r k1]|e] w1] eqn:E; [|discriminate H].
    apply D in E. rewrite <- E.
    unfold bind at 1, get_world in H.
    destruct (assoc_lookup (_VAR_VALUES w1) name) as [b|]; [|discriminate H].
    unfold bind at 1 in H.
    destruct (binding_get_value decrypt b r w1) as [[[vv b']|e] w2];
      [|discriminate H].
    unfold bind at 1, modify in H.
    destruct vv; try discriminate H.
    unfold bind at 1, lift in H.
    destruct (Re.sub name s value) as [value'|]; [|discriminate H].
    exact (IH _ _ _ _ _ _ H).
Qed.

(** A read with [fuel] leaves the nesting depth of the object as it was. *)
Definition keeps_depth (fuel : nat) : Prop :=
  forall self w v self' w',
    value_at decrypt fuel self w = (Ok (v, self'), w') ->
    VarString_depth self' = VarString_depth self.

Lemma dump_key_at_depth (fuel : nat) :
  (forall f, fuel = S f -> keeps_depth f) ->
  forall k w r k' w',
    dump_key_at fuel k w = (Ok (r, k'), w') ->
    VarString_depth k' = VarString_depth k.
Proof.
  intros IH k w r k' w' D. unfold dump_key_at in D.
  destruct k; try (inversion D; reflexivity).
  destruct fuel as [|f]; [discriminate D|].
  unfold bind in D.
  destruct (value_at decrypt f _ w) as [[[v2 k2]|e] w2] eqn:E2;
    [|discriminate D].
  inversion D; subst. exact (IH f eq_refl _ _ _ _ _ E2).
Qed.

Lemma value_at_depth_step (fuel : nat) :
  (forall f, fuel = S f -> keeps_depth f) -> keeps_depth fuel.
Proof.
  intros IH self w v self' w' H.
  destruct self as [| | | | | |template names key cached];
    try (destruct fuel; discriminate H).
  rewrite value_at_unfold in H.
  destruct (cache_hit cached); [inversion H; reflexivity|].
  unfold bind in H.
  destruct (substitute _ _ names template key w) as [[[v1 k1]|e] w1] eqn:E;
    [|discriminate H].
  inversion H; subst. simpl. f_equal.
  exact (substitute_key_depth (dump_key_at fuel) (dump_key_at_depth fuel IH)
                              _ _ _ _ _ _ _ E).
Qed.

Lemma value_at_depth (fuel : nat) : keeps_depth fuel.
Proof.
  induction fuel as [|f IH]; apply value_at_depth_step; intros g E.
  - discriminate E.
  - inversion E; subst. exact IH.
Qed.

Lemma substitute_ext (dk1 dk2 : pyobj -> M (pyobj * pyobj)) (d : nat) :
  (forall k w, VarString_depth k <= d -> dk1 k w = dk2 k w) ->
  (forall k w r k' w',
      dk1 k w = (Ok (r, k'), w') -> VarString_depth k' = VarString_depth k) ->
  forall names value key w,
    VarString_depth key <= d ->
    substitute decrypt dk1 names value key w
    = substitute decrypt dk2 names value key w.
Proof.
  intros X D. induction names as [|name rest IH]; intros value key w L;
    [reflexivity|].
  cbn [substitute]. unfold bind, get_world, modify, lift.
  rewrite <- (X key w L).
  destruct (dk1 key w) as [[[r k1]|e] w1] eqn:E; [|reflexivity].
  apply D in E.
  destruct (assoc_lookup (_VAR_VALUES w1) name) as [b|]; [|reflexivity].
  destruct (binding_get_value decrypt b r w1) as [[[vv b']|e] w2];
    [|reflexivity].
  destruct vv; try reflexivity.
  destruct (Re.sub name s value) as [value'|]; [|reflexivity].
  apply IH. rewrite E. exact L.
Qed.

Lemma value_at_fuel_irrelevant (f1 : nat) :
  forall f2 self w,
    VarString_depth self <= f1 -> VarString_depth self <= f2 ->
    value_at decrypt f1 self w = value_at decrypt f2 self w.
Proof.
  induction f1 as [|g1 IH]; intros f2 self w L1 L2;
    destruct self as [| | | | | |template names key cached];
    try (destruct f2; reflexivity); simpl in L1, L2; [lia|].
  destruct f2 as [|g2]; [lia|].
  rewrite !value_at_unfold.
  destruct (cache_hit cached); [reflexivity|].
  unfold bind.
  rewrite (substitute_ext (dump_key_at (S g1)) (dump_key_at (S g2))
                          (VarString_depth key)); trivial.
  - intros k w0 L. unfold dump_key_at. destruct k; try reflexivity.
    unfold bind. rewrite (IH g2); [reflexivity|lia|lia].
  - apply dump_key_at_depth. intros f _. apply value_at_depth.
Qed.

(** The nesting depth of [self] is enough fuel: more changes nothing. *)
Lemma value_at_enough_fuel (fuel : nat) (self : pyobj) (w : World) :
  VarString_depth self <= fuel ->
  value_at decrypt fuel self w = VarString_value decrypt self w.
Proof.
  intros L. unfold VarString_value.
  apply value_at_fuel_irrelevant; [exact L|apply Nat.le_refl].
Qed.

End Fuel.

(** *** Type inference in [SSMParameter.load] *)

(** What the two statements compute when [Type] is absent or empty: the
    result of the cascade is discarded, only [KeyId] decides. *)
Lemma load_type_untyped (obj : Dict.t) :
  truthy (Dict.get obj "Type") = false ->
  load_type obj =
    if Dict.mem obj "KeyId" then Ok (OStr "SecureString")
    else match Dict.lookup obj "Value" with
         | Some _ => Ok (OStr "String")
         | None => Raise (KeyError (OStr "Value"))
         end.
Proof.
  intros H. unfold load_type, subscript. rewrite H. simpl.
  destruct (Dict.mem obj "KeyId"); [reflexivity|].
  destruct (Dict.lookup obj "Value") as [v|]; [|reflexivity].
  simpl. destruct (is_str v); reflexivity.
Qed.

(** C1 (the code departs from the claim).  The fragment
    [{'Name': '/app/hosts', 'Value': ['a', 'b']}] has no [Type] and no
    [KeyId] and its [Value] is not a string, so the claim asks for
    [StringList]; [SSMParameter.load] builds a parameter of type [String],
    because the assignment after the cascade overwrites its result. *)
Example load_list_value_inferred_as_String :
  Dict.lookup list_fragment "Type" = None /\
  Dict.mem list_fragment "KeyId" = false /\
  is_str (Dict.get list_fragment "Value") = false /\
  load_type list_fragment = Ok (OStr "String") /\
  exists p,
    fst (SSMParameter_load list_fragment false sample_world) = Ok p /\
    SSMParameter_type p = OStr "String".
Proof.
  repeat split; try reflexivity.
  eexists. split; reflexivity.
Qed.

(** *** The constructor of [SSMParameter] *)

(** C8.  A key-id is present when the argument [key_id] is true in Python's
    sense (neither [None] nor empty), which is what the constructor tests.
    Construction succeeds exactly when the presence of the key-id agrees
    with the type being [SecureString], and then stores both unchanged;
    every other combination raises the [ValueError] of the constructor. *)
Theorem SSMParameter_init_key_id_iff_SecureString :
  forall name type value allowed_pattern description key_id overwrite disable,
    match SSMParameter_init name type value allowed_pattern description
                            key_id overwrite disable with
    | Ok p =>
        ParameterObj._key_id p = key_id /\
        ParameterObj._type p = type /\
        (truthy (ParameterObj._key_id p) = true <->
         is_lit (ParameterObj._type p) "SecureString" = true)
    | Raise e =>
        e = ValueError "Mismatched secure inputs on parameter {}" name /\
        ((truthy key_id = true /\ is_lit type "SecureString" = false) \/
         (is_lit type "SecureString" = true /\ truthy key_id = false))
    end.
Proof.
  intros. unfold SSMParameter_init.
  destruct (truthy key_id) eqn:K; destruct (is_lit type "SecureString") eqn:T;
    simpl; rewrite ?K, ?T; intuition congruence.
Qed.

Section ParameterProperties.

Variable decrypt : pyobj -> pyobj -> outcome pyobj.

(** *** Reading the value of a parameter that has none *)

(** C9.  For a parameter whose [_value] is [None]: when [disable]
    evaluates to true, [value] returns ([None]) and does not raise; when
    [disable] evaluates to false, [value] raises, and the exception is the
    missing-value [ValueError] naming the parameter whenever the name can
    be read for the message. *)
Theorem SSMParameter_value_unset (self : ParameterObj.t) (w : World) :
  ParameterObj._value self = ONone ->
  (forall self' w',
      SSMParameter_disable decrypt self w = (Ok (true, self'), w') ->
      SSMParameter_value decrypt self w = (Ok (ONone, self'), w')) /\
  (forall self' w',
      SSMParameter_disable decrypt self w = (Ok (false, self'), w') ->
      exists e w'',
        SSMParameter_value decrypt self w = (Raise e, w'') /\
        forall n self'',
          SSMParameter_name decrypt self' w' = (Ok (n, self''), w'') ->
          e = ValueError "Value missing for parameter {}" n).
Proof.
  intros V. split; intros self' w' D.
  - unfold SSMParameter_value. rewrite V. simpl.
    rewrite (bind_ok _ _ D).
    assert (V' : ParameterObj._value self' = ONone).
    { unfold SSMParameter_disable in D.
      destruct (is_none (ParameterObj._disable self)).
      - inversion D.
      - unfold bind in D.
        destruct (VarString_dump decrypt (ParameterObj._disable self) w)
          as [[[v o]|e] w1]; inversion D; subst. exact V. }
    unfold ret. rewrite V'. reflexivity.
  - unfold SSMParameter_value. rewrite V. simpl.
    rewrite (bind_ok _ _ D).
    destruct (SSMParameter_name decrypt self' w') as [[[n s'']|e] w2] eqn:N.
    + exists (ValueError "Value missing for parameter {}" n), w2. split.
      * rewrite (bind_ok _ _ N). reflexivity.
      * intros n' s3 E. inversion E. reflexivity.
    + exists e, w2. split.
      * rewrite (bind_raise _ _ N). reflexivity.
      * intros n' s3 E. discriminate E.
Qed.

End ParameterProperties.

(** C9 at two parameters without a value: with [Disable: true] the read
    returns [None]; without a [Disable] field it raises the missing-value
    error. *)
Lemma SSMParameter_value_unset_witness :
  SSMParameter_value decrypt_const
    (valueless_parameter "/app/off" (OBool true)) sample_world
  = (Ok (ONone, valueless_parameter "/app/off" (OBool true)), sample_world)
  /\
  exists w,
    SSMParameter_value decrypt_const
      (valueless_parameter "/app/on" ONone) sample_world
    = (Raise (ValueError "Value missing for parameter {}" (OStr "/app/on")), w).
Proof.
  split.
  - apply (SSMParameter_value_unset decrypt_const
             (valueless_parameter "/app/off" (OBool true)) sample_world);
      reflexivity.
  - destruct (SSMParameter_value_unset decrypt_const
                (valueless_parameter "/app/on" ONone) sample_world eq_refl)
      as [_ H].
    destruct (H (valueless_parameter "/app/on" ONone) sample_world eq_refl)
      as [e [w [E N]]].
    exists w. rewrite E.
    rewrite (N (OStr "/app/on") (valueless_parameter "/app/on" ONone));
      [reflexivity|].
    simpl in E |- *. vm_compute in E. vm_compute.
    inversion E. reflexivity.
Defined.

(** *** Merging two definitions of one Input *)

(** A value that is neither a list nor a mapping; the types and patterns of
    Inputs are strings or [None]. *)
Definition scalar (x : pyobj) : bool :=
  match x with
  | OList _ | ODict _ => false
  | _ => true
  end.

Lemma py_eqb_sym_scalar (a b : pyobj) :
  scalar a = true -> py_eqb a b = py_eqb b a.
Proof.
  intros S. destruct a; try discriminate S; destruct b; simpl;
    try reflexivity; try apply Z.eqb_sym; try apply String.eqb_sym.
  destruct b, b0; reflexivity.
Qed.

Lemma py_eqb_refl_scalar (a : pyobj) : scalar a = true -> py_eqb a a = true.
Proof.
  intros S. destruct a; try discriminate S; simpl;
    auto using Bool.eqb_reflx, Z.eqb_refl, String.eqb_refl.
Qed.

(** The pattern the merge leaves on the first Input. *)
Definition merged_pattern (first second : pyobj) : pyobj :=
  if truthy second && negb (truthy first) then second else first.

Lemma merge_input_same_name (n : string) (I J : InputObj.t) :
  py_eqb (InputObj.type I) (InputObj.type J) = true ->
  (truthy (InputObj.pattern I) = true -> truthy (InputObj.pattern J) = true ->
   py_eqb (InputObj.pattern I) (InputObj.pattern J) = true) ->
  exists K,
    Input_merge_inputs [(n, I)] [(n, J)] = Ok [(n, K)] /\
    InputObj.type K = InputObj.type I /\
    InputObj.pattern K =
      merged_pattern (InputObj.pattern I) (InputObj.pattern J).
Proof.
  intros T P. unfold Input_merge_inputs, merge_input. simpl.
  rewrite String.eqb_refl, T. simpl.
  unfold merged_pattern.
  destruct (truthy (InputObj.pattern I)) eqn:PI;
    destruct (truthy (InputObj.pattern J)) eqn:PJ; simpl;
    try (rewrite P by reflexivity; simpl);
    rewrite ?String.eqb_refl;
    eexists; (split; [reflexivity|]);
    destruct (truthy (InputObj.description J)
              && negb (truthy (InputObj.description I))); simpl; auto.
Qed.

(** C7.  Two Inputs of the same name whose types are equal and whose
    patterns do not conflict (they are not both set to different values)
    merge in either order, and the two merged Inputs have equal types; when
    either pattern is set, both merged Inputs carry a set pattern and the
    two are equal; the merged pattern is the first Input's when that is set,
    else the second's.  Types and patterns are compared with Python's [==];
    the type and the patterns are scalars (strings or [None]). *)
Theorem merge_inputs_order_independent (n : string) (I J : InputObj.t) :
  scalar (InputObj.type I) = true ->
  scalar (InputObj.pattern I) = true ->
  scalar (InputObj.pattern J) = true ->
  py_eqb (InputObj.type I) (InputObj.type J) = true ->
  (truthy (InputObj.pattern I) = true -> truthy (InputObj.pattern J) = true ->
   py_eqb (InputObj.pattern I) (InputObj.pattern J) = true) ->
  exists IJ JI,
    Input_merge_inputs [(n, I)] [(n, J)] = Ok [(n, IJ)] /\
    Input_merge_inputs [(n, J)] [(n, I)] = Ok [(n, JI)] /\
    py_eqb (InputObj.type IJ) (InputObj.type JI) = true /\
    InputObj.pattern IJ =
      (if truthy (InputObj.pattern I) then InputObj.pattern I
       else if truthy (InputObj.pattern J) then InputObj.pattern J
       else InputObj.pattern I) /\
    (truthy (InputObj.pattern I) || truthy (InputObj.pattern J) = true ->
     truthy (InputObj.pattern IJ) = true /\
     truthy (InputObj.pattern JI) = true /\
     py_eqb (InputObj.pattern IJ) (InputObj.pattern JI) = true).
Proof.
  intros ST SP SQ T P.
  destruct (merge_input_same_name n I J T P) as [IJ [E1 [T1 P1]]].
  assert (T' : py_eqb (InputObj.type J) (InputObj.type I) = true)
    by (rewrite <- py_eqb_sym_scalar; assumption).
  assert (P' : truthy (InputObj.pattern J) = true ->
               truthy (InputObj.pattern I) = true ->
               py_eqb (InputObj.pattern J) (InputObj.pattern I) = true)
    by (intros; rewrite <- py_eqb_sym_scalar; auto).
  destruct (merge_input_same_name n J I T' P') as [JI [E2 [T2 P2]]].
  exists IJ, JI. rewrite T1, T2, P1, P2. unfold merged_pattern.
  split; [assumption|]. split; [assumption|]. split; [assumption|]. split.
  - destruct (truthy (InputObj.pattern I)), (truthy (InputObj.pattern J));
      reflexivity.
  - intros H.
    destruct (truthy (InputObj.pattern I)) eqn:PI,
             (truthy (InputObj.pattern J)) eqn:PJ; simpl in *;
      try discriminate H; rewrite ?PI, ?PJ; repeat split; auto;
      apply py_eqb_refl_scalar; assumption.
Qed.

(** C7 at two definitions of [Color]: only the second has a pattern; it
    ends up on the merged Input in both orders. *)
Lemma merge_inputs_order_independent_witness :
  exists IJ JI,
    Input_merge_inputs
      [("Color", Input_init "Color" (OStr "String") ONone ONone ONone)]
      [("Color", Input_init "Color" (OStr "String") (OStr "^(red|blue)$")
                            ONone ONone)]
    = Ok [("Color", IJ)] /\
    Input_merge_inputs
      [("Color", Input_init "Color" (OStr "String") (OStr "^(red|blue)$")
                            ONone ONone)]
      [("Color", Input_init "Color" (OStr "String") ONone ONone ONone)]
    = Ok [("Color", JI)] /\
    InputObj.pattern IJ = OStr "^(red|blue)$" /\
    InputObj.pattern JI = OStr "^(red|blue)$".
Proof.
  destruct (merge_inputs_order_independent "Color"
              (Input_init "Color" (OStr "String") ONone ONone ONone)
              (Input_init "Color" (OStr "String") (OStr "^(red|blue)$")
                          ONone ONone)
              eq_refl eq_refl eq_refl eq_refl)
    as [IJ [JI [E1 [E2 _]]]].
  - intros H. discriminate H.
  - exists IJ, JI. repeat split; try assumption.
    + vm_compute in E1. inversion E1. reflexivity.
    + vm_compute in E2. inversion E2. reflexivity.
Defined.

(** *** The resolver of [Input.get_resolver] *)

(** The attribute that [set_value(value, encrypted)] does not write. *)
Definition Input_other_slot (self : InputObj.t) (encrypted : pyobj) : pyobj :=
  if is_lit (InputObj.type self) "SecureString" && is_not_False encrypted
  then InputObj._value self
  else InputObj._encrypted_value self.

(** Between [w] and [w'] a line was requested at the terminal. *)
Definition asks_terminal (w w' : World) : Prop :=
  exists before echo prompt after,
    terminal w' = (terminal w ++ before ++ ReadLine echo prompt :: after)%list.

(** The three types of the data model. *)
Definition known_type (type : pyobj) : bool :=
  is_lit type "String" || is_lit type "SecureString" || is_lit type "StringList".

Section ResolverProperties.

Variable re_search : pyobj -> pyobj -> outcome bool.
Variable decrypt : pyobj -> pyobj -> outcome pyobj.

Lemma read_line_terminal (echo : bool) (prompt : prompt_text) (w : World) :
  terminal (snd (read_line echo prompt w))
  = (terminal w ++ [ReadLine echo prompt])%list.
Proof. unfold read_line. destruct (stdin w); reflexivity. Qed.

Lemma prompt_for_string_terminal (self : InputObj.t) (echo : pyobj) (w : World) :
  terminal (snd (Input__prompt_for_string re_search self echo w))
  = (terminal w
     ++ [ReadLine (truthy echo)
           (EnterPrompt (InputObj.name self) (InputObj.type self)
                        (InputObj.description self))])%list.
Proof.
  unfold Input__prompt_for_string, bind.
  pose proof (read_line_terminal (truthy echo)
                (EnterPrompt (InputObj.name self) (InputObj.type self)
                             (InputObj.description self)) w) as R.
  destruct (read_line _ _ w) as [[line|e] w1]; simpl in R; cbv beta iota;
    [|exact R].
  destruct (negb (truthy (OStr line)) && truthy (InputObj.default self));
    [exact R|].
  unfold lift. destruct (pattern_rejects re_search self (OStr line)) as [[]|];
    exact R.
Qed.

Lemma check_pattern_world (o : outcome bool) (e : exn) (v : pyobj) (w : World) :
  snd (bind (lift o)
            (fun bad : bool => if bad then raise e else ret v) w) = w.
Proof. destruct o as [[]|]; reflexivity. Qed.

Lemma read_more_entries_terminal (echo : bool) (w : World) :
  exists more,
    terminal (snd (read_more_entries echo w)) = (terminal w ++ more)%list.
Proof.
  unfold read_more_entries.
  destruct (read_entries (stdin w)) as [[entries remaining] eof].
  eexists. reflexivity.
Qed.

Lemma prompt_for_stringlist_asks (self : InputObj.t) (echo : pyobj) (w : World) :
  asks_terminal w (snd (Input__prompt_for_stringlist re_search self echo w)).
Proof.
  unfold Input__prompt_for_stringlist, print, modify.
  unfold bind at 1.
  set (w1 := with_terminal w (stdin w)
               (terminal w
                ++ [Printed "Enter StringList {} values (blank line when done):"])%list).
  unfold bind at 1.
  pose proof (read_line_terminal (truthy echo) NewlinePrompt w1) as R.
  assert (A : forall w2 w3,
             terminal w2 = (terminal w1 ++ [ReadLine (truthy echo) NewlinePrompt])%list ->
             (exists more, terminal w3 = (terminal w2 ++ more)%list) ->
             asks_terminal w w3).
  { intros w2 w3 E2 [more E]. unfold asks_terminal.
    exists [Printed "Enter StringList {} values (blank line when done):"],
           (truthy echo), NewlinePrompt, more.
    rewrite E, E2. unfold w1. simpl. rewrite <- !app_assoc. reflexivity. }
  destruct (read_line (truthy echo) NewlinePrompt w1) as [[entry|e] w2];
    simpl in R; cbv beta iota.
  - apply (A w2 _ R).
    destruct (negb (truthy (OStr entry)) && truthy (InputObj.default self)).
    { exists []. rewrite app_nil_r. reflexivity. }
    destruct (contains_char "," entry).
    { exists []. rewrite app_nil_r. reflexivity. }
    unfold bind at 1.
    destruct (truthy (OStr entry)).
    + destruct (read_more_entries_terminal (truthy echo) w2) as [more E].
      destruct (read_more_entries (truthy echo) w2) as [[entries|x] w3];
        simpl in E; cbv beta iota.
      * exists more. rewrite check_pattern_world. exact E.
      * exists more. exact E.
    + unfold ret at 1. cbv beta iota.
      exists []. rewrite check_pattern_world, app_nil_r. reflexivity.
  - apply (A w2 _ R). exists []. rewrite app_nil_r. reflexivity.
Qed.

Lemma set_value_from_prompt_asks (self : InputObj.t) (echo : pyobj) (w : World) :
  known_type (InputObj.type self) = true ->
  asks_terminal w (snd (Input_set_value_from_prompt re_search self echo w)).
Proof.
  intros K. unfold Input_set_value_from_prompt.
  assert (S : forall e (f : pyobj -> InputObj.t),
             asks_terminal w
               (snd (bind (Input__prompt_for_string re_search self e)
                          (fun v => ret (f v)) w))).
  { intros e f. unfold bind.
    pose proof (prompt_for_string_terminal self e w) as R.
    destruct (Input__prompt_for_string re_search self e w) as [[v|x] w1];
      simpl in *; eexists [], _, _, []; rewrite R; reflexivity. }
  destruct (is_lit (InputObj.type self) "String") eqn:T1; [apply S|].
  destruct (is_lit (InputObj.type self) "SecureString") eqn:T2; [apply S|].
  destruct (is_lit (InputObj.type self) "StringList") eqn:T3.
  - unfold bind.
    pose proof (prompt_for_stringlist_asks self
                  (if is_none echo then OBool true else echo) w) as R.
    destruct (Input__prompt_for_stringlist re_search self _ w) as [[v|x] w1];
      exact R.
  - unfold known_type in K. rewrite T1, T2, T3 in K. discriminate K.
Qed.

(** C5 as amended.  Whatever the prompt settings:
    - when the dictionary of Inputs has no entry called [Region] (or
      [Account]), resolving that name yields the built-in resolver and
      leaves dictionary, terminal and state untouched;
    - the value of the built-in resolver is the delegated look-up,
      memoised: in any state it is the memo [_REGION] ([_ACCOUNT]) when
      that holds a value, and otherwise what the session (the identity of
      the caller) reports, which the look-up stores as the memo, changing
      nothing else; so in a state whose memo holds a value the look-up
      returns the memo and leaves the state as it is, whatever the session
      reports by then;
    - when the dictionary has an entry under a name, [Region] and [Account]
      included, resolving the name never yields a built-in resolver: an
      Input that holds a value is returned as it is, with dictionary,
      terminal and state untouched, and every other result is an Input
      too. *)
Theorem resolver_builtin_names
        (inputs : list (string * InputObj.t)) (prompt : bool) (echo : pyobj)
        (w : World) :
  (assoc_lookup inputs "Region" = None ->
   Input_get_resolver re_search inputs prompt echo "Region" w
   = (Ok (RegionResolver, inputs), w)) /\
  (assoc_lookup inputs "Account" = None ->
   Input_get_resolver re_search inputs prompt echo "Account" w
   = (Ok (AccountResolver, inputs), w)) /\
  (forall key_id w0,
      binding_get_value decrypt RegionResolver key_id w0
      = (Ok (if truthy (_REGION w0) then _REGION w0 else region_name w0,
             RegionResolver),
         with_REGION w0
           (if truthy (_REGION w0) then _REGION w0 else region_name w0))) /\
  (forall key_id w0,
      binding_get_value decrypt AccountResolver key_id w0
      = (Ok (if truthy (_ACCOUNT w0) then _ACCOUNT w0 else caller_account w0,
             AccountResolver),
         with_ACCOUNT w0
           (if truthy (_ACCOUNT w0) then _ACCOUNT w0 else caller_account w0))) /\
  (forall key_id w0,
      truthy (_REGION w0) = true ->
      binding_get_value decrypt RegionResolver key_id w0
      = (Ok (_REGION w0, RegionResolver), w0)) /\
  (forall key_id w0,
      truthy (_ACCOUNT w0) = true ->
      binding_get_value decrypt AccountResolver key_id w0
      = (Ok (_ACCOUNT w0, AccountResolver), w0)) /\
  (forall name i,
      assoc_lookup inputs name = Some i ->
      (truthy (Input_value_is_set i) = true ->
       Input_get_resolver re_search inputs prompt echo name w
       = (Ok (BoundInput i, inputs), w)) /\
      (forall b inputs' w',
          Input_get_resolver re_search inputs prompt echo name w
          = (Ok (b, inputs'), w') ->
          exists i', b = BoundInput i')).
Proof.
  split; [intros H; unfold Input_get_resolver; rewrite H; reflexivity|].
  split; [intros H; unfold Input_get_resolver; rewrite H; reflexivity|].
  split.
  { intros key_id w0. simpl.
    unfold SSMClient_get_region, bind, get_world, modify, ret. simpl.
    destruct (truthy (_REGION w0)); simpl; [destruct w0|]; reflexivity. }
  split.
  { intros key_id w0. simpl.
    unfold SSMClient_get_account, bind, get_world, modify, ret. simpl.
    destruct (truthy (_ACCOUNT w0)); simpl; [destruct w0|]; reflexivity. }
  split.
  { intros key_id w0 T. simpl.
    unfold SSMClient_get_region, bind, get_world, modify, ret. simpl.
    rewrite T. reflexivity. }
  split.
  { intros key_id w0 T. simpl.
    unfold SSMClient_get_account, bind, get_world, modify, ret. simpl.
    rewrite T. reflexivity. }
  intros name i L. unfold Input_get_resolver. rewrite L.
  unfold resolver_found. split.
  - intros T. rewrite T. reflexivity.
  - intros b inputs' w' H.
    destruct (negb (truthy (Input_value_is_set i))).
    + destruct prompt; [|discriminate H].
      unfold bind in H.
      destruct (Input_set_value_from_prompt re_search i echo w)
        as [[i'|e] w1]; [|discriminate H].
      inversion H. exists i'. reflexivity.
    + inversion H. exists i. reflexivity.
Qed.

(** C10.  Take an Input that holds nothing in the attribute that
    [set_value] does not write, and call [set_value] with the empty string
    (and any [encrypted] flag).  Then [value_is_set()] is false, and a resolver
    call for the name under which the Input is registered raises the
    input-missing [InputError] when prompting is disabled, and when it is
    enabled runs [set_value_from_prompt] on that Input, which for the three
    types of the data model requests a line at the terminal. *)
Theorem set_value_empty_is_unset
        (i : InputObj.t) (encrypted : pyobj)
        (inputs : list (string * InputObj.t)) (name : string) (echo : pyobj)
        (w : World) :
  truthy (Input_other_slot i encrypted) = false ->
  assoc_lookup inputs name = Some (Input_set_value i (OStr "") encrypted) ->
  truthy (Input_value_is_set (Input_set_value i (OStr "") encrypted)) = false /\
  Input_get_resolver re_search inputs false echo name w
  = (Raise (InputError "Input {} not given" (OStr name)), w) /\
  Input_get_resolver re_search inputs true echo name w
  = bind (Input_set_value_from_prompt re_search
            (Input_set_value i (OStr "") encrypted) echo)
         (fun i' => ret (BoundInput i', assoc_set inputs name i')) w /\
  (known_type (InputObj.type i) = true ->
   asks_terminal w
     (snd (Input_get_resolver re_search inputs true echo name w))).
Proof.
  intros O L.
  assert (U : truthy (Input_value_is_set (Input_set_value i (OStr "") encrypted))
              = false).
  { unfold Input_value_is_set, Input_set_value, Input_other_slot in *.
    destruct (is_lit (InputObj.type i) "SecureString" && is_not_False encrypted);
      simpl.
    - rewrite O. reflexivity.
    - exact O. }
  assert (R : forall prompt,
             Input_get_resolver re_search inputs prompt echo name w
             = resolver_found re_search inputs prompt echo name
                 (Input_set_value i (OStr "") encrypted) w).
  { intros prompt. unfold Input_get_resolver. rewrite L. reflexivity. }
  split; [exact U|]. split; [|split].
  - rewrite R. unfold resolver_found. rewrite U. reflexivity.
  - rewrite R. unfold resolver_found. rewrite U. reflexivity.
  - intros K. rewrite R. unfold resolver_found. rewrite U. simpl.
    assert (K' : known_type
                   (InputObj.type (Input_set_value i (OStr "") encrypted))
                 = true).
    { unfold Input_set_value.
      destruct (is_lit (InputObj.type i) "SecureString" && is_not_False encrypted);
        exact K. }
    pose proof (set_value_from_prompt_asks
                  (Input_set_value i (OStr "") encrypted) echo w K') as A.
    unfold bind.
    destruct (Input_set_value_from_prompt re_search _ echo w) as [[i'|x] w1];
      exact A.
Qed.

End ResolverProperties.

(** C5, the claim as stated fails: with a user Input registered under the
    name [Region], resolving [Region] yields that Input, whose value is what
    the user supplied and not the region of the session. *)
Lemma resolver_Region_yields_user_input :
  Input_get_resolver search_any [("Region", region_input)] true ONone
                     "Region" sample_world
  = (Ok (BoundInput region_input, [("Region", region_input)]), sample_world)
  /\ BoundInput region_input <> RegionResolver
  /\ fst (binding_get_value decrypt_const (BoundInput region_input) ONone
                            sample_world)
     = Ok (OStr "mars-1", BoundInput region_input)
  /\ region_name sample_world = OStr "us-east-1".
Proof.
  split; [reflexivity|]. split; [discriminate|]. split; reflexivity.
Qed.

(** C5 as amended, with the Inputs [Stage] and [Account] given on the
    command line: [Region] resolves to the built-in resolver, whose value in
    a fresh process is the region of the session, stored as the memo;
    with a memo the value is the memo, whatever the session reports; and
    [Account] resolves to the Input of the user. *)
Lemma resolver_builtin_names_witness :
  Input_get_resolver search_any given_inputs false ONone "Region" sample_world
  = (Ok (RegionResolver, given_inputs), sample_world) /\
  binding_get_value decrypt_const RegionResolver ONone sample_world
  = (Ok (OStr "us-east-1", RegionResolver),
     with_REGION sample_world (OStr "us-east-1")) /\
  binding_get_value decrypt_const RegionResolver ONone
                    (with_REGION sample_world (OStr "eu-west-1"))
  = (Ok (OStr "eu-west-1", RegionResolver),
     with_REGION sample_world (OStr "eu-west-1")) /\
  Input_get_resolver search_any given_inputs false ONone "Account" sample_world
  = (Ok (BoundInput account_input, given_inputs), sample_world).
Proof.
  destruct (resolver_builtin_names search_any decrypt_const given_inputs
                                   false ONone sample_world)
    as (R & _ & V & _ & M & _ & U).
  split; [exact (R eq_refl)|].
  split; [exact (V ONone sample_world)|].
  split; [exact (M ONone (with_REGION sample_world (OStr "eu-west-1"))
                   eq_refl)|].
  destruct (U "Account" account_input eq_refl) as [G _].
  exact (G eq_refl).
Defined.

(** C10 at a fresh [String] Input [Foo] set to the empty string, with [bar]
    waiting at the terminal: unset; an [InputError] without prompting; with
    prompting the line is read and becomes the value. *)
Lemma set_value_empty_is_unset_witness :
  let foo := Input_init "Foo" (OStr "String") ONone ONone ONone in
  let foo' := Input_set_value foo (OStr "") ONone in
  let w := initial_world ONone ONone ["bar"] in
  truthy (Input_value_is_set foo') = false /\
  Input_get_resolver search_any [("Foo", foo')] false ONone "Foo" w
  = (Raise (InputError "Input {} not given" (OStr "Foo")), w) /\
  fst (Input_get_resolver search_any [("Foo", foo')] true ONone "Foo" w)
  = Ok (BoundInput (InputObj.set__value foo' (OStr "bar")),
        [("Foo", InputObj.set__value foo' (OStr "bar"))]) /\
  asks_terminal w
    (snd (Input_get_resolver search_any [("Foo", foo')] true ONone "Foo" w)).
Proof.
  intros foo foo' w.
  destruct (set_value_empty_is_unset search_any foo ONone [("Foo", foo')]
              "Foo" ONone w eq_refl eq_refl) as [U [E [P A]]].
  split; [exact U|]. split; [exact E|]. split.
  - rewrite P. reflexivity.
  - apply A. reflexivity.
Defined.

(** *** [SSMClient.batch_put] *)

(** C2 (the code departs from the claim).  With eleven enabled parameters
    [_batch] yields two chunks, and for each chunk the inner loop runs over
    all the arguments: twenty-two requests reach the store, every parameter
    is written twice, where the claim asks for once.  (The requests carry
    [Name], [Type] and [Value] only: no optional field is set.) *)
Example batch_put_eleven_writes_each_twice :
  mapM (fun name =>
          SSMParameter_load
            [("Name", OStr name); ("Type", OStr "String"); ("Value", OStr "v")]
            false)
       eleven_names sample_world
  = (Ok eleven_parameters, sample_world) /\
  List.length eleven_parameters = 11 /\
  List.length (_batch eleven_parameters 10) = 2 /\
  fst (SSMClient_batch_put decrypt_const eleven_parameters sample_world)
  = Ok eleven_parameters /\
  put_requests
    (snd (SSMClient_batch_put decrypt_const eleven_parameters sample_world))
  = map (fun name => [("Name", OStr name); ("Type", OStr "String");
                      ("Value", OStr "v")])
        (eleven_names ++ eleven_names)%list.
Proof. repeat split; vm_compute; reflexivity. Qed.

(** *** [VarString.value] *)

(** A replacement text without a backslash is a template that stands for
    itself: such values are inserted verbatim. *)
Lemma expand_without_backslash (matched s : string) :
  contains_char "\" s = false -> Re.expand matched Re.Lit s = Ok s.
Proof.
  induction s as [|c s IH]; [reflexivity|].
  intros H. simpl in H. apply Bool.orb_false_elim in H. destruct H as [C H].
  assert (C' : Ascii.eqb c "\" = false) by (rewrite Ascii.eqb_sym; exact C).
  cbn [Re.expand]. rewrite C'. cbn [negb]. rewrite (IH H). reflexivity.
Qed.

(** C3 (the code departs from the claim).  The Input [path] is resolved to
    the text [C:\news]; reading the value of the template [dir=$(path)]
    gives [dir=C:], a line feed and [ews]: the resolved value is handed to
    [sub] as a replacement template, which interprets the backslash.  The
    verbatim replacement the claim describes is [dir=C:\news].  The same
    result comes out of the whole run: load the template, resolve the
    names, read the value. *)
Example VarString_value_interprets_backslash :
  fst (VarString_load (OStr "dir=$(path)") ONone sample_world)
  = Ok dir_varstring /\
  fst (binding_get_value decrypt_const (BoundInput path_input) ONone path_world)
  = Ok (OStr windows_path, BoundInput path_input) /\
  fst (VarString_value decrypt_const dir_varstring path_world)
  = Ok ("dir=C:" ++ LF ++ "ews",
        OVar "dir=$(path)" ["path"] ONone (Some ("dir=C:" ++ LF ++ "ews"))) /\
  fst ((v <- VarString_load (OStr "dir=$(path)") ONone ;;
        VarString_resolve
          (fun inputs name =>
             Input_get_resolver search_any inputs false ONone name)
          [("path", path_input)] ;;
        VarString_value decrypt_const v) sample_world)
  = Ok ("dir=C:" ++ LF ++ "ews",
        OVar "dir=$(path)" ["path"] ONone (Some ("dir=C:" ++ LF ++ "ews"))) /\
  Re.replace_all (Re.reference_text "path") windows_path "dir=$(path)"
  = "dir=C:\news" /\
  "dir=C:" ++ LF ++ "ews" <> "dir=C:\news".
Proof.
  split; [reflexivity|]. split; [reflexivity|]. split; [reflexivity|].
  split; [reflexivity|]. split; [reflexivity|].
  discriminate.
Qed.

(** *** [parse_parameter_file] *)

(** The three keys the specification reserves. *)
Definition reserved_key (name : string) : bool :=
  (name =? INPUT_KEY) || (name =? COMMON_KEY) || (name =? FLUSH_KEY).

(** The test of the loop: the key does not start with a dot. *)
Definition parameter_key (name : string) : bool := negb (startswith name ".").

Lemma reserved_key_not_parameter_key (name : string) :
  reserved_key name = true -> parameter_key name = false.
Proof.
  unfold reserved_key, parameter_key, INPUT_KEY, COMMON_KEY, FLUSH_KEY.
  intros H.
  apply Bool.orb_true_iff in H. destruct H as [H|H].
  - apply Bool.orb_true_iff in H.
    destruct H as [H|H]; apply String.eqb_eq in H; subst; reflexivity.
  - apply String.eqb_eq in H; subst; reflexivity.
Qed.

Lemma assoc_set_keys_fresh {V} (d : list (string * V)) (k : string) (v : V) :
  ~ In k (map fst d) -> map fst (assoc_set d k v) = (map fst d ++ [k])%list.
Proof.
  induction d as [|[k' v'] d IH]; simpl; intros N; [reflexivity|].
  destruct (String.eqb_spec k k') as [E|E].
  - exfalso. apply N. left. symmetry. exact E.
  - simpl. rewrite IH; [reflexivity|]. intros I. apply N. right. exact I.
Qed.

Lemma parse_entry_keys common_data v acc item w acc' w' :
  parse_entry common_data v acc item w = (Ok acc', w') ->
  if parameter_key (fst item)
  then exists p, acc' = assoc_set acc (fst item) p
  else acc' = acc.
Proof.
  unfold parse_entry, parameter_key.
  destruct (startswith (fst item) "."); simpl.
  - intros H. inversion H. reflexivity.
  - unfold bind, lift.
    destruct (entry_fragment _ common_data _) as [d2|]; [|discriminate].
    destruct (SSMParameter_load d2 v w) as [[p|] w1]; [|discriminate].
    intros H. inversion H. exists p. reflexivity.
Qed.

Lemma parse_entries_keys common_data v items :
  forall acc w acc' w',
    foldM (parse_entry common_data v) items acc w = (Ok acc', w') ->
    NoDup (map fst items) ->
    (forall k, In k (map fst items) -> ~ In k (map fst acc)) ->
    map fst acc' = (map fst acc ++ filter parameter_key (map fst items))%list.
Proof.
  induction items as [|item items IH]; simpl; intros acc w acc' w' H ND F.
  - inversion H. rewrite app_nil_r. reflexivity.
  - unfold bind in H.
    destruct (parse_entry common_data v acc item w) as [[acc1|] w1] eqn:E;
      [|discriminate].
    apply parse_entry_keys in E.
    inversion ND as [|? ? NI ND']; subst.
    destruct (parameter_key (fst item)).
    + destruct E as [p E]. subst acc1.
      assert (K : map fst (assoc_set acc (fst item) p)
                  = (map fst acc ++ [fst item])%list)
        by (apply assoc_set_keys_fresh; apply F; left; reflexivity).
      rewrite (IH _ _ _ _ H ND').
      * rewrite K, <- app_assoc. reflexivity.
      * intros k I. rewrite K. intros I'. apply in_app_or in I'.
        destruct I' as [I'|[I'|[]]].
        -- exact (F k (or_intror I) I').
        -- subst k. exact (NI I).
    + subst acc1. apply (IH _ _ _ _ H ND').
      intros k I. apply F. right. exact I.
Qed.

(** C4 as amended.  For a document (a dictionary, so its keys are distinct)
    that [parse_parameter_file] accepts, the parameters produced are, in
    order, exactly the top-level keys that do not start with a dot: one entry
    per such key and none for any other key, the three reserved keys among
    them. *)
Theorem parse_parameter_file_keys
        (obj : Dict.t) (vars_in_name_only : bool) (w w' : World)
        (data : ParameterFileData) :
  NoDup (Dict.keys obj) ->
  parse_parameter_file (ODict obj) vars_in_name_only w = (Ok data, w') ->
  map fst (parameters data) = filter parameter_key (Dict.keys obj) /\
  forall name, reserved_key name = true -> ~ In name (map fst (parameters data)).
Proof.
  intros ND H. unfold parse_parameter_file, bind, lift in H.
  destruct (Input_load _) as [i|]; [|discriminate].
  destruct (foldM _ obj [] w) as [[ps|] w1] eqn:E; [|discriminate].
  inversion H. subst. simpl.
  apply parse_entries_keys in E; [|exact ND|intros k _ []].
  simpl in E. split; [exact E|].
  intros name R I. rewrite E in I. apply filter_In in I.
  destruct I as [_ I]. rewrite (reserved_key_not_parameter_key _ R) in I.
  discriminate I.
Qed.

(** C4 as amended, on a document with one reserved key, one other dotted
    key and two parameters. *)
Lemma parse_parameter_file_keys_witness :
  exists data w',
    parse_parameter_file
      (ODict ((".FLUSH", OStr "/app") :: ("/app/port", OStr "8080")
              :: dotted_document))
      false sample_world = (Ok data, w') /\
    map fst (parameters data) = ["/app/port"; "/app/name"].
Proof.
  eexists. eexists. split; [vm_compute; reflexivity|].
  refine (proj1 (parse_parameter_file_keys
                   ((".FLUSH", OStr "/app") :: ("/app/port", OStr "8080")
                    :: dotted_document)
                   false sample_world _ _ _ eq_refl)).
  unfold Dict.keys. simpl.
  repeat (constructor; [simpl; intuition discriminate|]). constructor.
Defined.

(** C4, the claim as stated fails: the key [.NOTES] is none of the three
    reserved keys, yet the parse yields no parameter for it. *)
Lemma parse_skips_unreserved_dotted_key :
  exists data,
    fst (parse_parameter_file (ODict dotted_document) false sample_world)
    = Ok data /\
    filter (fun name => negb (reserved_key name)) (Dict.keys dotted_document)
    = [".NOTES"; "/app/name"] /\
    map fst (parameters data) = ["/app/name"].
Proof. eexists. split; [vm_compute; reflexivity|]. split; reflexivity. Qed.

(** *** Compiling what was parsed *)

(** The text holds no [$(name)] reference: [findall] finds nothing. *)
Definition ref_free (s : string) : bool :=
  match Re.findall_reference s with [] => true | _ => false end.

(** A string without references. *)
Definition plain_text (o : pyobj) : bool :=
  match o with OStr s => ref_free s | _ => false end.

(** A field that is absent, [None], or a string without references. *)
Definition optional_plain_text (o : option pyobj) : bool :=
  match o with
  | None | Some ONone => true
  | Some (OStr s) => ref_free s
  | _ => false
  end.

(** The key is not in the mapping. *)
Definition absent (o : option pyobj) : bool :=
  match o with None => true | Some _ => false end.

(** The type of a fragment: the [Type] it declares, else [SecureString]
    when it has a [KeyId], else [String]. *)
Definition fragment_type (m : Dict.t) : pyobj :=
  if truthy (Dict.get m "Type") then Dict.get m "Type"
  else if Dict.mem m "KeyId" then OStr "SecureString" else OStr "String".

(** The value of a fragment without references.  A [SecureString] fragment
    has a [KeyId] and an [EncryptedValue], both strings; any other fragment
    has no [KeyId] and a [Value] that is a string, or a list of strings next
    to a declared [Type] (the sugar for a bare list declares it). *)
Definition plain_value_fields (m : Dict.t) : bool :=
  if is_lit (fragment_type m) "SecureString"
  then plain_text (Dict.get m "KeyId")
       && plain_text (Dict.get m "EncryptedValue")
  else absent (Dict.lookup m "KeyId")
       && match Dict.lookup m "Value" with
          | Some (OStr s) => ref_free s
          | Some (OList l) =>
              truthy (Dict.get m "Type") && forallb plain_text l
          | _ => false
          end.

(** A fragment for the entry [name] with no variable reference and no
    [Disable] or [Disabled] field, whose [Name] is the key of the entry. *)
Definition plain_fragment (name : string) (m : Dict.t) : bool :=
  match Dict.lookup m "Name" with Some (OStr n) => n =? name | _ => false end
  && ref_free name
  && absent (Dict.lookup m "Disable") && absent (Dict.lookup m "Disabled")
  && optional_plain_text (Dict.lookup m "AllowedPattern")
  && match Dict.lookup m "Type" with
     | None | Some ONone | Some (OStr _) => true
     | _ => false
     end
  && plain_value_fields m.

(** The characters of a string value. *)
Definition text_of (o : pyobj) : string :=
  match o with OStr s => s | _ => "" end.

(** The value a fragment stands for: its string [Value], the elements of
    its list [Value] joined by commas, or for [SecureString] its
    [EncryptedValue]. *)
Definition wire_value (m : Dict.t) : pyobj :=
  if is_lit (fragment_type m) "SecureString" then Dict.get m "EncryptedValue"
  else match Dict.get m "Value" with
       | OList l => OStr (join "," (map text_of l))
       | v => v
       end.

(** A field that is kept when it is set (true in Python's sense). *)
Definition optional_field (key : string) (v : pyobj) : Dict.t :=
  if truthy v then [(key, v)] else [].

(** The entry that corresponds to a fragment in a compiled document:
    [Type] and [Value], then [AllowedPattern], [Description] and [KeyId]
    when set. *)
Definition expected_entry (m : Dict.t) : Dict.t :=
  ([("Type", fragment_type m); ("Value", wire_value m)]
   ++ optional_field "AllowedPattern" (Dict.get m "AllowedPattern")
   ++ optional_field "Description" (Dict.get m "Description")
   ++ optional_field "KeyId" (Dict.get m "KeyId"))%list.

(** What [VarString.load(o, k)] returns when [o] holds no reference. *)
Definition resolved (k o : pyobj) : pyobj :=
  match o with OStr s => OVar s [] k (Some s) | _ => o end.

(** [o] is not a string, or a string without references. *)
Definition loadable (o : pyobj) : bool :=
  match o with OStr s => ref_free s | _ => true end.

(** What [SSMParameter.load] builds from a plain fragment. *)
Definition loaded_parameter (m : Dict.t) : ParameterObj.t :=
  let key_id := resolved ONone (Dict.get m "KeyId") in
  ParameterObj.mk
    (resolved ONone (Dict.get m "Name"))
    (fragment_type m)
    (if is_lit (fragment_type m) "SecureString"
     then resolved key_id (Dict.get m "EncryptedValue")
     else match Dict.get m "Value" with
          | OList l => OList (map (resolved ONone) l)
          | v => resolved ONone v
          end)
    (resolved ONone (Dict.get m "AllowedPattern"))
    (Dict.get m "Description")
    key_id
    (Dict.get m "Overwrite")
    ONone
    (Dict.get m "Version") (Dict.get m "LastModifiedDate")
    (Dict.get m "LastModifiedUser").

(** The common defaults of a document. *)
Definition common_of (obj : Dict.t) : pyobj :=
  Dict.get_default obj COMMON_KEY (ODict []).

(** An item of a document is a reserved or dotted key, or an entry whose
    fragment is plain. *)
Definition plain_item (common : pyobj) (item : string * pyobj) : bool :=
  if parameter_key (fst item) then
    match entry_fragment (fst item) common (snd item) with
    | Ok m => plain_fragment (fst item) m
    | Raise _ => false
    end
  else true.

(** A document without variable references and without disabled fields:
    its Inputs load and every parameter entry is plain. *)
Definition plain_document (obj : Dict.t) : bool :=
  match Input_load (Dict.get_default obj INPUT_KEY (ODict [])) with
  | Ok _ => true
  | Raise _ => false
  end
  && forallb (plain_item (common_of obj)) obj.

(** The entries of the document that corresponds to [obj]: one per
    parameter entry, in order. *)
Definition expected_item (common : pyobj) (item : string * pyobj) : Dict.t :=
  if parameter_key (fst item) then
    match entry_fragment (fst item) common (snd item) with
    | Ok m => [(fst item, ODict (expected_entry m))]
    | Raise _ => []
    end
  else [].

Definition expected_document (obj : Dict.t) : Dict.t :=
  flat_map (expected_item (common_of obj)) obj.

(** The parameters that [parse_parameter_file] builds from a plain
    document. *)
Definition loaded_item (common : pyobj) (item : string * pyobj)
  : list (string * ParameterObj.t) :=
  if parameter_key (fst item) then
    match entry_fragment (fst item) common (snd item) with
    | Ok m => [(fst item, loaded_parameter m)]
    | Raise _ => []
    end
  else [].

Lemma with_NAMES_same (w : World) : with_NAMES w (NAMES w) = w.
Proof. destruct w; reflexivity. Qed.

Lemma VarString_load_plain (s : string) (k : pyobj) (w : World) :
  ref_free s = true ->
  VarString_load (OStr s) k w = (Ok (OVar s [] k (Some s)), w).
Proof.
  unfold ref_free, VarString_load, VarString_init, bind, modify, ret.
  destruct (Re.findall_reference s); [|discriminate].
  intros _. simpl. rewrite with_NAMES_same. reflexivity.
Qed.

Lemma load_varstring_loadable (o k : pyobj) (w : World) :
  loadable o = true ->
  load_varstring false o k w = (Ok (resolved k o), w).
Proof.
  intros L. unfold load_varstring.
  destruct o; try reflexivity. apply VarString_load_plain. exact L.
Qed.

Lemma mapM_load_plain (l : list pyobj) :
  forall w,
  forallb plain_text l = true ->
  mapM (fun s => load_varstring false s ONone) l w
  = (Ok (map (resolved ONone) l), w).
Proof.
  induction l as [|o l IH]; simpl; intros w H; [reflexivity|].
  apply andb_prop in H. destruct H as [P H].
  assert (L : loadable o = true) by (destruct o; try discriminate P; exact P).
  rewrite (bind_ok _ _ (load_varstring_loadable o ONone w L)).
  rewrite (bind_ok _ _ (IH w H)). reflexivity.
Qed.

Lemma load_type_plain (m : Dict.t) :
  plain_value_fields m = true -> load_type m = Ok (fragment_type m).
Proof.
  unfold plain_value_fields, load_type, fragment_type, subscript.
  destruct (truthy (Dict.get m "Type")) eqn:T; simpl; [reflexivity|].
  unfold Dict.mem.
  destruct (Dict.lookup m "KeyId") as [k|] eqn:K; simpl; [reflexivity|].
  destruct (Dict.lookup m "Value") as [v|]; [|discriminate].
  simpl. destruct (is_str v); reflexivity.
Qed.

Lemma key_id_plain (m : Dict.t) :
  plain_value_fields m = true ->
  loadable (Dict.get m "KeyId") = true /\
  truthy (resolved ONone (Dict.get m "KeyId"))
  = is_lit (fragment_type m) "SecureString".
Proof.
  unfold plain_value_fields.
  destruct (is_lit (fragment_type m) "SecureString"); intros H;
    apply andb_prop in H; destruct H as [K _].
  - destruct (Dict.get m "KeyId"); try discriminate K. split; [exact K|reflexivity].
  - unfold Dict.get. destruct (Dict.lookup m "KeyId"); [discriminate K|].
    split; reflexivity.
Qed.

Lemma load_value_plain (m : Dict.t) (w : World) :
  plain_value_fields m = true ->
  load_value false m (fragment_type m) (resolved ONone (Dict.get m "KeyId")) w
  = (Ok (ParameterObj._value (loaded_parameter m)), w).
Proof.
  intros H. destruct (key_id_plain m H) as [_ K].
  unfold load_value, loaded_parameter. cbv beta iota zeta delta [ParameterObj._value].
  rewrite K. unfold plain_value_fields in H.
  destruct (is_lit (fragment_type m) "SecureString"); cbv beta iota;
    apply andb_prop in H; destruct H as [_ V].
  - unfold Dict.mem, Dict.get in *.
    destruct (Dict.lookup m "EncryptedValue") as [c|]; [|discriminate V].
    destruct c; try discriminate V.
    exact (load_varstring_loadable (OStr s) _ w V).
  - unfold Dict.get.
    destruct (Dict.lookup m "Value") as [v|]; [|discriminate V].
    destruct v; try discriminate V.
    + exact (load_varstring_loadable (OStr s) _ w V).
    + apply andb_prop in V. destruct V as [_ V].
      rewrite (bind_ok _ _ (mapM_load_plain l w V)). reflexivity.
Qed.

Lemma load_plain_fragment (name : string) (m : Dict.t) (w : World) :
  plain_fragment name m = true ->
  SSMParameter_load m false w = (Ok (loaded_parameter m), w).
Proof.
  unfold plain_fragment. intros H.
  repeat (apply andb_prop in H; let H' := fresh "P" in destruct H as [H H']).
  fold (plain_value_fields m) in P.
  destruct (key_id_plain m P) as [LK TK].
  assert (N : Dict.lookup m "Name" = Some (OStr name)).
  { destruct (Dict.lookup m "Name") as [[]|]; try discriminate H.
    apply String.eqb_eq in H. subst. reflexivity. }
  assert (LA : loadable (Dict.get m "AllowedPattern") = true).
  { unfold Dict.get. destruct (Dict.lookup m "AllowedPattern") as [[]|];
      try discriminate P1; try reflexivity. exact P1. }
  assert (D : Dict.get_default m "Disable" (Dict.get m "Disabled") = ONone).
  { unfold Dict.get_default, Dict.get.
    destruct (Dict.lookup m "Disable"); [discriminate P3|].
    destruct (Dict.lookup m "Disabled"); [discriminate P2|]. reflexivity. }
  unfold SSMParameter_load, subscript.
  rewrite N, D.
  rewrite bind_lift.
  rewrite (bind_ok _ _ (VarString_load_plain name ONone w P4)).
  rewrite (load_type_plain m P).
  rewrite bind_lift.
  rewrite (bind_ok _ _ (load_varstring_loadable _ ONone w LK)).
  rewrite (bind_ok _ _ (load_value_plain m w P)).
  rewrite (bind_ok _ _ (load_varstring_loadable _ ONone w LA)).
  rewrite (bind_ok _ _ (load_varstring_loadable ONone ONone w eq_refl)).
  unfold SSMParameter_init. rewrite TK.
  destruct (is_lit (fragment_type m) "SecureString") eqn:S; simpl;
    unfold bind, ret, loaded_parameter, Dict.get; rewrite ?N, ?S; reflexivity.
Qed.

Section Compile.
Variable decrypt : pyobj -> pyobj -> outcome pyobj.

Lemma value_at_resolved (fuel : nat) (s : string) (k : pyobj) (w : World) :
  value_at decrypt fuel (OVar s [] k (Some s)) w
  = (Ok (s, OVar s [] k (Some s)), w).
Proof.
  destruct fuel; simpl; destruct (String.eqb_spec s "") as [E|E];
    subst; reflexivity.
Qed.

Lemma VarString_dump_resolved (s : string) (k : pyobj) (w : World) :
  VarString_dump decrypt (OVar s [] k (Some s)) w
  = (Ok (OStr s, OVar s [] k (Some s)), w).
Proof.
  unfold VarString_dump, VarString_value, bind.
  rewrite value_at_resolved. reflexivity.
Qed.

(** [None] or a string. *)
Definition text_or_none (o : pyobj) : bool :=
  match o with ONone | OStr _ => true | _ => false end.

Lemma VarString_dump_text_or_none (k o : pyobj) (w : World) :
  text_or_none o = true ->
  VarString_dump decrypt (resolved k o) w = (Ok (o, resolved k o), w).
Proof.
  destruct o; try discriminate; intros _.
  - reflexivity.
  - apply VarString_dump_resolved.
Qed.

Lemma dump_all_resolved (l : list pyobj) :
  forall w,
    forallb plain_text l = true ->
    dump_all decrypt (map (resolved ONone) l) w
    = (Ok (l, map (resolved ONone) l), w).
Proof.
  induction l as [|o l IH]; intros w H; [reflexivity|].
  simpl in H. apply andb_prop in H. destruct H as [P H].
  assert (T : text_or_none o = true) by (destruct o; try discriminate P; reflexivity).
  simpl map. simpl dump_all.
  rewrite (bind_ok _ _ (VarString_dump_text_or_none ONone o w T)).
  cbv beta iota.
  rewrite (bind_ok _ _ (IH w H)). reflexivity.
Qed.

Lemma comma_join_texts (l : list pyobj) :
  forallb plain_text l = true ->
  comma_join l = Ok (OStr (join "," (map text_of l))).
Proof.
  intros H. unfold comma_join.
  assert (S : strings_of l = Ok (map text_of l)).
  { induction l as [|o l IH]; [reflexivity|].
    simpl in H. apply andb_prop in H. destruct H as [P H].
    destruct o; try discriminate P. simpl. rewrite (IH H). reflexivity. }
  rewrite S. reflexivity.
Qed.

Lemma fragment_fields_plain (name : string) (m : Dict.t) :
  plain_fragment name m = true ->
  Dict.get m "Name" = OStr name /\
  text_or_none (Dict.get m "AllowedPattern") = true /\
  text_or_none (Dict.get m "KeyId") = true /\
  plain_value_fields m = true.
Proof.
  unfold plain_fragment. intros H.
  repeat (apply andb_prop in H; let H' := fresh "P" in destruct H as [H H']).
  split; [|split; [|split]]; trivial.
  - unfold Dict.get. destruct (Dict.lookup m "Name") as [[]|]; try discriminate H.
    apply String.eqb_eq in H. subst. reflexivity.
  - unfold Dict.get. destruct (Dict.lookup m "AllowedPattern") as [[]|];
      try discriminate P1; reflexivity.
  - unfold plain_value_fields in P.
    destruct (is_lit (fragment_type m) "SecureString");
      apply andb_prop in P; destruct P as [K _].
    + destruct (Dict.get m "KeyId"); try discriminate K; reflexivity.
    + unfold Dict.get. destruct (Dict.lookup m "KeyId"); [discriminate K|reflexivity].
Qed.

Lemma name_loaded (name : string) (m : Dict.t) (w : World) :
  plain_fragment name m = true ->
  SSMParameter_name decrypt (loaded_parameter m) w
  = (Ok (OStr name, loaded_parameter m), w).
Proof.
  intros H. destruct (fragment_fields_plain name m H) as [N _].
  unfold SSMParameter_name.
  change (ParameterObj._name (loaded_parameter m))
    with (resolved ONone (Dict.get m "Name")).
  rewrite N.
  rewrite (bind_ok _ _ (VarString_dump_text_or_none ONone (OStr name) w eq_refl)).
  unfold ret, loaded_parameter. rewrite N. reflexivity.
Qed.

Lemma allowed_pattern_loaded (name : string) (m : Dict.t) (w : World) :
  plain_fragment name m = true ->
  SSMParameter_allowed_pattern decrypt (loaded_parameter m) w
  = (Ok (Dict.get m "AllowedPattern", loaded_parameter m), w).
Proof.
  intros H. destruct (fragment_fields_plain name m H) as [_ [A _]].
  unfold SSMParameter_allowed_pattern.
  change (ParameterObj._allowed_pattern (loaded_parameter m))
    with (resolved ONone (Dict.get m "AllowedPattern")).
  rewrite (bind_ok _ _ (VarString_dump_text_or_none ONone _ w A)).
  reflexivity.
Qed.

Lemma key_id_loaded (name : string) (m : Dict.t) (w : World) :
  plain_fragment name m = true ->
  SSMParameter_key_id decrypt (loaded_parameter m) w
  = (Ok (Dict.get m "KeyId", loaded_parameter m), w).
Proof.
  intros H. destruct (fragment_fields_plain name m H) as [_ [_ [K _]]].
  unfold SSMParameter_key_id.
  change (ParameterObj._key_id (loaded_parameter m))
    with (resolved ONone (Dict.get m "KeyId")).
  rewrite (bind_ok _ _ (VarString_dump_text_or_none ONone _ w K)).
  reflexivity.
Qed.

Lemma set__value_same (p : ParameterObj.t) :
  ParameterObj.set__value p (ParameterObj._value p) = p.
Proof. destruct p; reflexivity. Qed.

Lemma value_of_text (p : ParameterObj.t) (s : string) (k : pyobj) (w : World) :
  ParameterObj._value p = OVar s [] k (Some s) ->
  SSMParameter_value decrypt p w = (Ok (OStr s, p), w).
Proof.
  intros E. unfold SSMParameter_value. rewrite E.
  cbv beta iota delta [is_none].
  rewrite (bind_ok _ _ (VarString_dump_resolved s k w)).
  cbv beta iota delta [is_str negb].
  rewrite <- E, set__value_same. reflexivity.
Qed.

Lemma value_of_texts (p : ParameterObj.t) (l : list pyobj) (w : World) :
  ParameterObj._value p = OList (map (resolved ONone) l) ->
  forallb plain_text l = true ->
  SSMParameter_value decrypt p w
  = (Ok (OStr (join "," (map text_of l)), p), w).
Proof.
  intros E V. unfold SSMParameter_value. rewrite E.
  cbv beta iota delta [is_none].
  unfold VarString_dump at 1. rewrite bind_ret.
  cbv beta iota delta [is_str negb].
  rewrite <- E, set__value_same, E.
  rewrite (bind_ok _ _ (dump_all_resolved l w V)). cbv beta iota.
  rewrite (comma_join_texts l V). rewrite bind_lift.
  rewrite <- E, set__value_same. reflexivity.
Qed.

Lemma value_loaded (name : string) (m : Dict.t) (w : World) :
  plain_fragment name m = true ->
  SSMParameter_value decrypt (loaded_parameter m) w
  = (Ok (wire_value m, loaded_parameter m), w).
Proof.
  intros H. destruct (fragment_fields_plain name m H) as [_ [_ [_ V]]].
  unfold wire_value. unfold plain_value_fields in V.
  destruct (is_lit (fragment_type m) "SecureString") eqn:S;
    apply andb_prop in V; destruct V as [_ V].
  - destruct (Dict.get m "EncryptedValue") as [| | |c| | |] eqn:E;
      try discriminate V.
    apply (value_of_text _ c (resolved ONone (Dict.get m "KeyId"))).
    unfold loaded_parameter. simpl. rewrite S, E. reflexivity.
  - unfold Dict.get in *.
    destruct (Dict.lookup m "Value") as [[| | |s|l| |]|] eqn:E;
      try discriminate V.
    + apply (value_of_text _ s ONone).
      unfold loaded_parameter, Dict.get. simpl. rewrite S, E. reflexivity.
    + apply andb_prop in V. destruct V as [_ V].
      apply value_of_texts; [|exact V].
      unfold loaded_parameter, Dict.get. simpl. rewrite S, E. reflexivity.
Qed.

Lemma disable_loaded (m : Dict.t) (w : World) :
  SSMParameter_disable decrypt (loaded_parameter m) w
  = (Ok (false, loaded_parameter m), w).
Proof. reflexivity. Qed.

Lemma dump_loaded (name : string) (m : Dict.t) (w : World) :
  plain_fragment name m = true ->
  SSMParameter_dump decrypt (loaded_parameter m) w
  = (Ok (("Name", OStr name) :: expected_entry m, loaded_parameter m), w).
Proof.
  intros H. unfold SSMParameter_dump.
  rewrite (bind_ok _ _ (name_loaded name m w H)). cbv beta iota.
  rewrite (bind_ok _ _ (value_loaded name m w H)). cbv beta iota.
  rewrite (bind_ok _ _ (allowed_pattern_loaded name m w H)). cbv beta iota.
  unfold expected_entry, optional_field.
  change (SSMParameter_description (loaded_parameter m))
    with (Dict.get m "Description").
  change (SSMParameter_type (loaded_parameter m)) with (fragment_type m).
  destruct (truthy (Dict.get m "AllowedPattern"));
    rewrite ?bind_assoc;
    rewrite ?(bind_ok _ _ (allowed_pattern_loaded name m w H));
    cbv beta iota; rewrite ?bind_ret; cbv beta iota;
    rewrite (bind_ok _ _ (key_id_loaded name m w H)); cbv beta iota;
    change (SSMParameter_description (loaded_parameter m))
      with (Dict.get m "Description");
    destruct (truthy (Dict.get m "Description"));
    destruct (truthy (Dict.get m "KeyId"));
    rewrite ?(bind_ok _ _ (key_id_loaded name m w H)); reflexivity.
Qed.

Lemma assoc_set_fresh {V} (d : list (string * V)) (k : string) (v : V) :
  ~ In k (map fst d) -> assoc_set d k v = (d ++ [(k, v)])%list.
Proof.
  induction d as [|[k' v'] d IH]; simpl; intros N; [reflexivity|].
  destruct (String.eqb_spec k k') as [E|E].
  - exfalso. apply N. left. symmetry. exact E.
  - rewrite IH; [reflexivity|]. intros I. apply N. right. exact I.
Qed.

Lemma Dict_set_fresh (d : Dict.t) (k : string) (v : pyobj) :
  ~ In k (Dict.keys d) -> Dict.set d k v = (d ++ [(k, v)])%list.
Proof.
  unfold Dict.keys.
  induction d as [|[k' v'] d IH]; simpl; intros N; [reflexivity|].
  destruct (String.eqb_spec k k') as [E|E].
  - exfalso. apply N. left. symmetry. exact E.
  - rewrite IH; [reflexivity|]. intros I. apply N. right. exact I.
Qed.

Lemma loaded_item_keys (common : pyobj) (items : list (string * pyobj)) (k : string) :
  In k (map fst (flat_map (loaded_item common) items)) -> In k (map fst items).
Proof.
  induction items as [|item items IH]; simpl; [tauto|].
  rewrite map_app, in_app_iff. intros [I|I]; [|right; exact (IH I)].
  left. unfold loaded_item in I.
  destruct (parameter_key (fst item)); [|destruct I].
  destruct (entry_fragment _ _ _); [|destruct I].
  destruct I as [I|[]]. exact I.
Qed.

Lemma expected_item_keys (common : pyobj) (items : list (string * pyobj)) (k : string) :
  In k (Dict.keys (flat_map (expected_item common) items)) ->
  In k (map fst items) /\ parameter_key k = true.
Proof.
  unfold Dict.keys.
  induction items as [|item items IH]; simpl; [tauto|].
  rewrite map_app, in_app_iff. intros [I|I].
  - unfold expected_item in I.
    destruct (parameter_key (fst item)) eqn:P; [|destruct I].
    destruct (entry_fragment _ _ _); [|destruct I].
    destruct I as [I|[]]. simpl in I. subst k. split; [left; reflexivity|exact P].
  - destruct (IH I) as [I1 I2]. split; [right; exact I1|exact I2].
Qed.

Lemma parse_plain_entries (common : pyobj) (items : list (string * pyobj)) :
  forall acc w,
    forallb (plain_item common) items = true ->
    NoDup (map fst items) ->
    (forall k, In k (map fst items) -> ~ In k (map fst acc)) ->
    foldM (parse_entry common false) items acc w
    = (Ok (acc ++ flat_map (loaded_item common) items)%list, w).
Proof.
  induction items as [|item items IH]; intros acc w P ND F.
  - simpl. rewrite app_nil_r. reflexivity.
  - simpl in P. apply andb_prop in P. destruct P as [P1 P].
    inversion ND as [|? ? NI ND']; subst.
    assert (E : parse_entry common false acc item w
                = (Ok (acc ++ loaded_item common item)%list, w)).
    { unfold parse_entry, plain_item, loaded_item, parameter_key in *.
      destruct (startswith (fst item) "."); simpl in *.
      - rewrite app_nil_r. reflexivity.
      - destruct (entry_fragment (fst item) common (snd item)) as [m|];
          [|discriminate P1].
        rewrite bind_lift.
        rewrite (bind_ok _ _ (load_plain_fragment _ m w P1)).
        unfold ret. rewrite assoc_set_fresh; [reflexivity|].
        apply F. left. reflexivity. }
    simpl foldM. rewrite (bind_ok _ _ E).
    rewrite IH; trivial.
    + simpl. rewrite app_assoc. reflexivity.
    + intros k I. rewrite map_app, in_app_iff. intros [I'|I'].
      * exact (F k (or_intror I) I').
      * assert (I2 : In k (map fst (flat_map (loaded_item common) [item])))
          by (simpl; rewrite app_nil_r; exact I').
        apply loaded_item_keys in I2.
        destruct I2 as [I2|[]]. apply NI. rewrite I2. exact I.
Qed.

Lemma compile_plain_entries (ignore_disabled : bool) (common : pyobj)
      (items : list (string * pyobj)) :
  forall doc seen w,
    forallb (plain_item common) items = true ->
    NoDup (map fst items) ->
    (forall k, In k (map fst items) -> parameter_key k = true ->
               ~ In k (Dict.keys doc)) ->
    foldM (compile_entry decrypt ignore_disabled)
          (map snd (flat_map (loaded_item common) items)) (doc, seen) w
    = (Ok ((doc ++ flat_map (expected_item common) items)%list,
           (seen ++ map snd (flat_map (loaded_item common) items))%list), w).
Proof.
  induction items as [|item items IH]; intros doc seen w P ND F.
  - simpl. rewrite !app_nil_r. reflexivity.
  - simpl in P. apply andb_prop in P. destruct P as [P1 P].
    inversion ND as [|? ? NI ND']; subst.
    simpl flat_map. rewrite map_app.
    unfold plain_item in P1. unfold loaded_item at 1 3. unfold expected_item at 1.
    destruct (parameter_key (fst item)) eqn:PK.
    + destruct (entry_fragment (fst item) common (snd item)) as [m|];
        [|discriminate P1].
      simpl app. simpl map. simpl foldM.
      assert (E : compile_entry decrypt ignore_disabled (doc, seen)
                    (loaded_parameter m) w
                  = (Ok ((doc ++ [(fst item, ODict (expected_entry m))])%list,
                         (seen ++ [loaded_parameter m])%list), w)).
      { unfold compile_entry.
        rewrite (bind_ok _ _ (disable_loaded m w)). cbv beta iota.
        change (false && ignore_disabled) with false. cbv beta iota.
        rewrite (bind_ok _ _ (dump_loaded (fst item) m w P1)). cbv beta iota.
        change (Dict.get (("Name", OStr (fst item)) :: expected_entry m) "Name")
          with (OStr (fst item)).
        cbv beta iota.
        change (Dict.remove (("Name", OStr (fst item)) :: expected_entry m) "Name")
          with (expected_entry m).
        unfold ret. rewrite Dict_set_fresh; [reflexivity|].
        apply F; [left; reflexivity|exact PK]. }
      rewrite (bind_ok _ _ E).
      rewrite IH; trivial.
      * rewrite <- !app_assoc. reflexivity.
      * intros k I K. unfold Dict.keys. rewrite map_app, in_app_iff.
        intros [I'|[I'|[]]].
        -- exact (F k (or_intror I) K I').
        -- simpl in I'. apply NI. rewrite I'. exact I.
    + simpl app. apply IH; trivial.
      intros k I K. apply F; [right; exact I|exact K].
Qed.

Lemma Dict_lookup_app (a b : Dict.t) (k : string) :
  Dict.lookup (a ++ b)%list k
  = match Dict.lookup a k with Some v => Some v | None => Dict.lookup b k end.
Proof.
  induction a as [|[k' v'] a IH]; simpl; [reflexivity|].
  destruct (k =? k'); [reflexivity|exact IH].
Qed.

Lemma expected_item_lookup_other (common : pyobj) (item : string * pyobj)
      (k : string) :
  k <> fst item -> Dict.lookup (expected_item common item) k = None.
Proof.
  intros N. unfold expected_item.
  destruct (parameter_key (fst item)); [|reflexivity].
  destruct (entry_fragment _ _ _); [|reflexivity].
  simpl. destruct (String.eqb_spec k (fst item)); [contradiction|reflexivity].
Qed.

Lemma expected_document_lookup (common : pyobj) (items : list (string * pyobj))
      (name : string) (entry : pyobj) (m : Dict.t) :
  NoDup (map fst items) ->
  In (name, entry) items ->
  parameter_key name = true ->
  entry_fragment name common entry = Ok m ->
  Dict.lookup (flat_map (expected_item common) items) name
  = Some (ODict (expected_entry m)).
Proof.
  induction items as [|item items IH]; intros ND I K E; [destruct I|].
  inversion ND as [|? ? NI ND']; subst.
  simpl flat_map. rewrite Dict_lookup_app.
  destruct I as [I|I].
  - subst item. unfold expected_item. simpl fst. simpl snd.
    rewrite K, E. simpl. rewrite String.eqb_refl. reflexivity.
  - rewrite expected_item_lookup_other.
    + apply IH; assumption.
    + intros N. apply NI. rewrite <- N.
      apply (in_map fst) in I. exact I.
Qed.

Lemma expected_document_keys (common : pyobj) (items : list (string * pyobj)) :
  forallb (plain_item common) items = true ->
  Dict.keys (flat_map (expected_item common) items)
  = filter parameter_key (map fst items).
Proof.
  unfold Dict.keys.
  induction items as [|item items IH]; intros P; [reflexivity|].
  simpl in P. apply andb_prop in P. destruct P as [P1 P].
  simpl. rewrite map_app, (IH P).
  unfold plain_item in P1. unfold expected_item.
  destruct (parameter_key (fst item)); [|reflexivity].
  destruct (entry_fragment _ _ _); [reflexivity|discriminate P1].
Qed.

Lemma expected_entry_fields (m : Dict.t) :
  Dict.get (expected_entry m) "Type" = fragment_type m /\
  Dict.get (expected_entry m) "Value" = wire_value m /\
  forall field,
    In field ["KeyId"; "AllowedPattern"; "Description"] ->
    Dict.get (expected_entry m) field
    = if truthy (Dict.get m field) then Dict.get m field else ONone.
Proof.
  unfold expected_entry, optional_field.
  split; [reflexivity|]. split; [reflexivity|].
  intros field [F|[F|[F|[]]]]; subst field;
    destruct (truthy (Dict.get m "AllowedPattern"));
    destruct (truthy (Dict.get m "Description"));
    destruct (truthy (Dict.get m "KeyId")) eqn:K; reflexivity.
Qed.

(** C6 as amended.  Take a document (a dictionary, so its keys are distinct)
    whose [.INPUT] section loads and each of whose parameter entries, once
    the sugar and the common defaults are applied, is plain
    ([plain_fragment]):
    - its [Name] is the key of the entry: no [Name] field of the entry or of
      [.COMMON] says otherwise;
    - the key holds no variable reference, nor does any of the strings
      below;
    - it has no [Disable] and no [Disabled] field;
    - [Type] is absent, [None] or a string, and [AllowedPattern] is absent,
      [None] or a string;
    - when its type is [SecureString] (declared, or not declared next to a
      [KeyId]), [KeyId] and [EncryptedValue] are strings; otherwise it has
      no [KeyId] and its [Value] is a string, or a list of strings under a
      declared [Type].
    Parsing succeeds and leaves the state as it was, and compiling the
    parsed parameters yields the flush paths (when given) followed by
    exactly one entry per parameter key (the keys that do not start with a
    dot), in document order.  In each entry [Type] is the declared type, or
    [SecureString] or [String] when none is declared; [Value] is the string
    [Value] unchanged, the comma-joined text of a list [Value], or the
    [EncryptedValue] of a [SecureString]; [KeyId], [AllowedPattern] and
    [Description] are those of the entry when set and absent otherwise; and
    there is no [Overwrite]. *)
Theorem compile_parse_plain_document
        (obj : Dict.t) (flush : pyobj) (ignore_disabled : bool) (w : World) :
  NoDup (Dict.keys obj) ->
  plain_document obj = true ->
  exists data compiled,
    parse_parameter_file (ODict obj) false w = (Ok data, w) /\
    compile_parameter_file decrypt (map snd (parameters data)) flush
                           ignore_disabled w
    = (Ok (compiled, map snd (parameters data)), w) /\
    compiled
    = ((if truthy flush then [(FLUSH_KEY, flush)] else [])
       ++ expected_document obj)%list /\
    Dict.keys (expected_document obj) = filter parameter_key (Dict.keys obj) /\
    forall name entry,
      In (name, entry) obj -> parameter_key name = true ->
      exists m e,
        entry_fragment name (common_of obj) entry = Ok m /\
        Dict.lookup compiled name = Some (ODict e) /\
        Dict.get e "Type" = fragment_type m /\
        Dict.get e "Value" = wire_value m /\
        (forall field,
            In field ["KeyId"; "AllowedPattern"; "Description"] ->
            Dict.get e field
            = if truthy (Dict.get m field) then Dict.get m field else ONone) /\
        Dict.mem e "Overwrite" = false.
Proof.
  intros ND P. unfold plain_document in P.
  apply andb_prop in P. destruct P as [PI P].
  destruct (Input_load (Dict.get_default obj INPUT_KEY (ODict []))) as [i|] eqn:I;
    [|discriminate PI].
  exists (mkParameterFileData i (flat_map (loaded_item (common_of obj)) obj)
            (let flush := Dict.get_default obj FLUSH_KEY (OList []) in
             if is_str flush then OList [flush] else flush)).
  eexists. split; [|split; [|split; [reflexivity|split]]].
  - unfold parse_parameter_file. rewrite I, bind_lift.
    fold (common_of obj).
    rewrite (bind_ok _ _ (parse_plain_entries (common_of obj) obj [] w P ND
                            (fun k _ (F : In k []) => F))).
    reflexivity.
  - unfold compile_parameter_file. simpl parameters.
    rewrite (compile_plain_entries ignore_disabled (common_of obj) obj _ [] w P ND).
    + reflexivity.
    + intros k _ K. destruct (truthy flush); [|intros []].
      intros [F|[]]. simpl in F. subst k. discriminate K.
  - apply expected_document_keys. exact P.
  - intros name entry IN K.
    assert (PE : plain_item (common_of obj) (name, entry) = true)
      by (rewrite forallb_forall in P; exact (P _ IN)).
    unfold plain_item in PE. simpl in PE. rewrite K in PE.
    destruct (entry_fragment name (common_of obj) entry) as [m|] eqn:E;
      [|discriminate PE].
    exists m, (expected_entry m).
    split; [reflexivity|]. split.
    + rewrite Dict_lookup_app.
      assert (L : Dict.lookup (expected_document obj) name
                  = Some (ODict (expected_entry m)))
        by (apply (expected_document_lookup _ _ _ entry); assumption).
      destruct (truthy flush); [|exact L].
      change (Dict.lookup [(FLUSH_KEY, flush)] name)
        with (if name =? FLUSH_KEY then Some flush else None).
      destruct (String.eqb_spec name FLUSH_KEY) as [X|X]; [|exact L].
      subst name. discriminate K.
    + destruct (expected_entry_fields m) as [T [V F]].
      split; [exact T|]. split; [exact V|]. split; [exact F|].
      unfold expected_entry, optional_field.
      destruct (truthy (Dict.get m "AllowedPattern"));
        destruct (truthy (Dict.get m "Description"));
        destruct (truthy (Dict.get m "KeyId")); reflexivity.
Qed.

End Compile.

(** The field [field] of the entry [name] of a document. *)
Definition entry_field (doc : Dict.t) (name field : string) : pyobj :=
  match Dict.get doc name with
  | ODict e => Dict.get e field
  | _ => ONone
  end.

(** C6, the claim as stated fails, in two ways.  Neither document below has
    a variable reference, a disabled field or an [Overwrite] field.  The
    only entry of [list_document] has the list [a, b] as [Value]; the
    compiled document has the same key, but there [Value] is the string
    [a,b].  The only entry of [renamed_document], filed under [/a], carries
    the [Name] [/b]; parsing files the parameter under [/a], and the
    compiled document has the key [/b] and no key [/a]. *)
Lemma compile_parse_changes_value_or_key :
  (plain_document list_document = true /\
   exists data compiled,
     parse_parameter_file (ODict list_document) false sample_world
     = (Ok data, sample_world) /\
     compile_parameter_file decrypt_const (map snd (parameters data)) ONone
                            false sample_world
     = (Ok (compiled, map snd (parameters data)), sample_world) /\
     Dict.keys compiled = Dict.keys list_document /\
     entry_field list_document "/app/hosts" "Value"
     = OList [OStr "a"; OStr "b"] /\
     entry_field compiled "/app/hosts" "Value" = OStr "a,b") /\
  (exists data compiled,
      parse_parameter_file (ODict renamed_document) false sample_world
      = (Ok data, sample_world) /\
      compile_parameter_file decrypt_const (map snd (parameters data)) ONone
                             false sample_world
      = (Ok (compiled, map snd (parameters data)), sample_world) /\
      Dict.keys renamed_document = ["/a"] /\
      map fst (parameters data) = ["/a"] /\
      Dict.keys compiled = ["/b"] /\
      entry_field renamed_document "/a" "Value" = OStr "x" /\
      entry_field compiled "/b" "Value" = OStr "x").
Proof.
  split.
  - split; [reflexivity|].
    eexists. eexists. split; [vm_compute; reflexivity|].
    split; [vm_compute; reflexivity|].
    repeat split.
  - eexists. eexists. split; [vm_compute; reflexivity|].
    split; [vm_compute; reflexivity|].
    repeat split.
Qed.

(** C6 as amended, on a document with a flush path, common defaults and one
    entry of each kind. *)
Lemma compile_parse_plain_document_witness :
  exists data,
    parse_parameter_file (ODict plain_sample_document) false sample_world
    = (Ok data, sample_world) /\
    compile_parameter_file decrypt_const (map snd (parameters data))
                           (OList [OStr "/app"]) true sample_world
    = (Ok ([(".FLUSH", OList [OStr "/app"]);
            ("/app/name",
             ODict [("Type", OStr "String"); ("Value", OStr "demo");
                    ("Description", OStr "demo application")]);
            ("/app/hosts",
             ODict [("Type", OStr "StringList"); ("Value", OStr "a,b");
                    ("Description", OStr "demo application")]);
            ("/app/port",
             ODict [("Type", OStr "String"); ("Value", OStr "8080");
                    ("AllowedPattern", OStr "^[0-9]+$");
                    ("Description", OStr "listening port")]);
            ("/app/secret",
             ODict [("Type", OStr "SecureString"); ("Value", OStr "AQICAHh");
                    ("Description", OStr "demo application");
                    ("KeyId", OStr "alias/app")])],
           map snd (parameters data)), sample_world).
Proof.
  assert (ND : NoDup (Dict.keys plain_sample_document)).
  { unfold Dict.keys. simpl.
    repeat (constructor; [simpl; intuition discriminate|]). constructor. }
  destruct (compile_parse_plain_document decrypt_const plain_sample_document
              (OList [OStr "/app"]) true sample_world ND eq_refl)
    as [data [compiled [P [C [E _]]]]].
  exists data. split; [exact P|].
  rewrite C, E. reflexivity.
Defined.

(** *** What [batch_put] sends for parameters without references *)

(** The [overwrite] property of the parameter loaded from [m]. *)
Definition fragment_overwrite (default : bool) (m : Dict.t) : bool :=
  if negb (is_none (Dict.get m "Overwrite"))
  then truthy (Dict.get m "Overwrite")
  else default.

(** The request for the parameter loaded from the plain fragment [m] of the
    entry [name]: the dumped fields, and [Overwrite] when it is true. *)
Definition plain_request (default : bool) (item : string * Dict.t) : Dict.t :=
  ((("Name", OStr (fst item)) :: expected_entry (snd item))
   ++ (if fragment_overwrite default (snd item)
       then [("Overwrite", OBool true)] else []))%list.

(** Every item is a plain fragment under its name. *)
Definition plain_items (items : list (string * Dict.t)) : bool :=
  forallb (fun item => plain_fragment (fst item) (snd item)) items.

(** The parameters loaded from the items. *)
Definition loaded_items (items : list (string * Dict.t))
  : list ParameterObj.t :=
  map (fun item => loaded_parameter (snd item)) items.

Section BatchPut.
Variable decrypt : pyobj -> pyobj -> outcome pyobj.

Lemma put_one_loaded (name : string) (m : Dict.t) (w : World) :
  plain_fragment name m = true ->
  put_one decrypt (loaded_parameter m) w
  = (Ok (loaded_parameter m),
     with_put_requests w
       (put_requests w ++ [plain_request (OVERWRITE_DEFAULT w) (name, m)])%list).
Proof.
  intros H. unfold put_one.
  rewrite (bind_ok _ _ (disable_loaded decrypt m w)). cbv beta iota.
  rewrite (bind_ok _ _ (name_loaded decrypt name m w H)). cbv beta iota.
  rewrite (bind_ok _ _ (value_loaded decrypt name m w H)). cbv beta iota.
  rewrite (bind_ok _ _ (allowed_pattern_loaded decrypt name m w H)).
  cbv beta iota.
  unfold plain_request, expected_entry, optional_field, fragment_overwrite.
  simpl fst. simpl snd.
  assert (O : SSMParameter_overwrite (loaded_parameter m) w
              = (Ok (if negb (is_none (Dict.get m "Overwrite"))
                     then truthy (Dict.get m "Overwrite")
                     else OVERWRITE_DEFAULT w), w)).
  { unfold SSMParameter_overwrite.
    change (ParameterObj._overwrite (loaded_parameter m))
      with (Dict.get m "Overwrite").
    destruct (negb (is_none (Dict.get m "Overwrite"))); reflexivity. }
  destruct (truthy (Dict.get m "AllowedPattern"));
    rewrite ?bind_assoc;
    rewrite ?(bind_ok _ _ (allowed_pattern_loaded decrypt name m w H));
    cbv beta iota; rewrite ?bind_ret; cbv beta iota;
    rewrite (bind_ok _ _ (key_id_loaded decrypt name m w H)); cbv beta iota;
    change (SSMParameter_description (loaded_parameter m))
      with (Dict.get m "Description");
    change (SSMParameter_type (loaded_parameter m)) with (fragment_type m);
    destruct (truthy (Dict.get m "Description"));
    destruct (truthy (Dict.get m "KeyId"));
    rewrite ?bind_assoc;
    rewrite ?(bind_ok _ _ (key_id_loaded decrypt name m w H));
    cbv beta iota; rewrite ?bind_ret; cbv beta iota;
    rewrite (bind_ok _ _ O);
    destruct (if negb (is_none (Dict.get m "Overwrite"))
              then truthy (Dict.get m "Overwrite") else OVERWRITE_DEFAULT w);
    rewrite ?bind_assoc, ?(bind_ok _ _ O); reflexivity.
Qed.

Lemma with_put_requests_twice (w : World) (a b : list Dict.t) :
  with_put_requests (with_put_requests w a) b = with_put_requests w b.
Proof. reflexivity. Qed.

Lemma put_pass_loaded (items : list (string * Dict.t)) :
  forall w,
    plain_items items = true ->
    mapM (put_one decrypt) (loaded_items items) w
    = (Ok (loaded_items items),
       with_put_requests w
         (put_requests w
          ++ map (plain_request (OVERWRITE_DEFAULT w)) items)%list).
Proof.
  induction items as [|[name m] items IH]; intros w P.
  - simpl. rewrite app_nil_r. destruct w; reflexivity.
  - simpl in P. apply andb_prop in P. destruct P as [P1 P].
    simpl loaded_items. simpl mapM.
    rewrite (bind_ok _ _ (put_one_loaded name m w P1)).
    rewrite (bind_ok _ _ (IH _ P)).
    unfold ret. simpl. rewrite <- app_assoc. reflexivity.
Qed.

Lemma put_batches_loaded (items : list (string * Dict.t))
      (batches : list (list ParameterObj.t)) :
  forall w,
    plain_items items = true ->
    put_batches decrypt batches (loaded_items items) w
    = (Ok (loaded_items items),
       with_put_requests w
         (put_requests w
          ++ List.concat (repeat (map (plain_request (OVERWRITE_DEFAULT w)) items)
                            (List.length batches)))%list).
Proof.
  induction batches as [|b batches IH]; intros w P.
  - simpl. rewrite app_nil_r. destruct w; reflexivity.
  - simpl put_batches.
    rewrite (bind_ok _ _ (put_pass_loaded items w P)).
    rewrite (IH _ P). simpl. rewrite <- app_assoc. reflexivity.
Qed.

Lemma batch_count {A} (l : list A) :
  List.length (_batch l 10) = (List.length l + 9) / 10.
Proof.
  unfold _batch, range. rewrite !length_map, length_seq.
  rewrite Nat.sub_0_r. f_equal. lia.
Qed.

(** What [batch_put] sends for parameters loaded from plain fragments: the
    requests of all the parameters, once per chunk of ten. *)
Lemma batch_put_loaded (items : list (string * Dict.t)) (w : World) :
  plain_items items = true ->
  SSMClient_batch_put decrypt (loaded_items items) w
  = (Ok (loaded_items items),
     with_put_requests w
       (put_requests w
        ++ List.concat (repeat (map (plain_request (OVERWRITE_DEFAULT w)) items)
                          ((List.length items + 9) / 10)))%list).
Proof.
  intros P. unfold SSMClient_batch_put.
  rewrite (put_batches_loaded items _ w P), batch_count.
  unfold loaded_items. rewrite length_map. reflexivity.
Qed.

End BatchPut.

(* ------------------------------------------------------------------ *)
(** ** Further properties of the code *)

(** *** [_batch] and [SSMClient.delete] *)

Lemma chunk_count_step (len n : nat) :
  0 < n -> 0 < len -> (len + n - 1) / n = S ((len - n + n - 1) / n).
Proof.
  intros N L. destruct (Nat.le_gt_cases n len) as [G|G].
  - replace (len + n - 1) with ((len - 1) + 1 * n) by lia.
    rewrite Nat.div_add by lia.
    replace (len - n + n - 1) with (len - 1) by lia. lia.
  - replace (len - n + n - 1) with (n - 1) by lia.
    rewrite (Nat.div_small (n - 1)) by lia.
    replace (len + n - 1) with ((len - 1) + 1 * n) by lia.
    rewrite Nat.div_add by lia. rewrite Nat.div_small by lia. reflexivity.
Qed.

Lemma batch_unfold {A} (l : list A) (n : nat) :
  0 < n -> l <> [] -> _batch l n = firstn n l :: _batch (skipn n l) n.
Proof.
  intros N NE. unfold _batch, range.
  assert (L : 0 < List.length l) by (destruct l; [contradiction|simpl; lia]).
  rewrite !Nat.sub_0_r, length_skipn.
  rewrite (chunk_count_step _ _ N L).
  rewrite <- cons_seq, <- seq_shift. simpl map.
  f_equal.
  - unfold slice. simpl. rewrite Nat.sub_0_r.
    destruct (Nat.le_gt_cases n (List.length l)).
    + rewrite Nat.min_l by lia. reflexivity.
    + rewrite Nat.min_r by lia. rewrite !firstn_all2 by lia. reflexivity.
  - rewrite !map_map. apply map_ext_in. intros j J. apply in_seq in J.
    unfold slice. rewrite skipn_skipn.
    change (0 + S j * n) with (n + j * n).
    change (0 + j * n) with (j * n).
    replace (j * n + n) with (n + j * n) by lia.
    destruct (Nat.le_gt_cases n (List.length l)) as [G|G].
    + f_equal. lia.
    + replace (List.length l - n + n - 1) with (n - 1) in J by lia.
      rewrite Nat.div_small in J by lia. lia.
Qed.

Lemma batch_nil {A} (n : nat) : _batch (@nil A) n = [].
Proof.
  unfold _batch, range. cbn [List.length].
  destruct n as [|n]; [reflexivity|].
  rewrite Nat.div_small by lia. reflexivity.
Qed.

Lemma batch_chunks {A} (n : nat) :
  0 < n ->
  forall (k : nat) (l : list A),
    List.length l <= k ->
    List.concat (_batch l n) = l /\
    Forall (fun chunk => 1 <= List.length chunk <= n) (_batch l n).
Proof.
  intros N. induction k as [|k IH]; intros l L.
  - destruct l; [|simpl in L; lia]. rewrite batch_nil. split; [reflexivity|constructor].
  - destruct l as [|x l]; [rewrite batch_nil; split; [reflexivity|constructor]|].
    rewrite batch_unfold by (trivial; discriminate).
    destruct (IH (skipn n (x :: l))) as [C F].
    { rewrite length_skipn. cbn [List.length] in *. lia. }
    split.
    + simpl List.concat. rewrite C. apply firstn_skipn.
    + constructor; [|exact F].
      rewrite length_firstn. cbn [List.length]. lia.
Qed.

(** X1.  For a positive chunk size, the chunks that [_batch] yields,
    concatenated, are the sequence it was given, and every chunk holds at
    least one and at most [n] elements. *)
Theorem batch_partitions_its_input {A} (l : list A) (n : nat) :
  0 < n ->
  List.concat (_batch l n) = l /\
  Forall (fun chunk => 1 <= List.length chunk <= n) (_batch l n).
Proof. intros N. exact (batch_chunks n N (List.length l) l (Nat.le_refl _)). Qed.

(** X1 at twenty-five numbers in chunks of ten. *)
Lemma batch_partitions_its_input_witness :
  List.concat (_batch (seq 0 25) 10) = seq 0 25 /\
  Forall (fun chunk => 1 <= List.length chunk <= 10) (_batch (seq 0 25) 10).
Proof. apply (batch_partitions_its_input (seq 0 25) 10). lia. Defined.

(** X2.  [SSMClient.delete] sends every name exactly once, in the order
    given, in requests of one to ten names; without names it sends no
    request. *)
Theorem delete_sends_each_name_once {A} (args : list A) :
  List.concat (SSMClient_delete args) = args /\
  Forall (fun names => 1 <= List.length names <= 10) (SSMClient_delete args) /\
  List.length (SSMClient_delete args) = (List.length args + 9) / 10.
Proof.
  unfold SSMClient_delete.
  destruct (batch_chunks 10 (Nat.lt_0_succ 9) (List.length args) args
                         (Nat.le_refl _)) as [C F].
  split; [exact C|]. split; [exact F|].
  apply batch_count.
Qed.

(** *** The references of a template *)

Lemma all_chars_app (p : ascii -> bool) (s t : string) :
  Re.all_chars p (s ++ t) = Re.all_chars p s && Re.all_chars p t.
Proof.
  induction s as [|c s IH]; simpl; [reflexivity|].
  rewrite IH, Bool.andb_assoc. reflexivity.
Qed.

Lemma append_nonempty (s : string) (c : ascii) : (s ++ String c "" =? "") = false.
Proof. destruct s; reflexivity. Qed.

(** In the scan, the characters gathered after [$(] are word characters. *)
Definition scan_ok (st : Re.scan) : Prop :=
  match st with
  | Re.Name acc => Re.all_chars Re.is_word acc = true
  | _ => True
  end.

Lemma findall_from_names (s : string) :
  forall st n,
    scan_ok st -> In n (Re.findall_from st s) -> Re.fullmatch_var_name n = true.
Proof.
  induction s as [|c s IH]; intros st n OK IN; [destruct IN|].
  assert (R : scan_ok (Re.restart c))
    by (unfold Re.restart; destruct (Ascii.eqb c "$"); exact I).
  destruct st as [| |acc]; simpl in IN.
  - exact (IH _ _ R IN).
  - destruct (Ascii.eqb c "(");
      [exact (IH (Re.Name "") _ eq_refl IN)|exact (IH _ _ R IN)].
  - destruct (Re.is_word c) eqn:W.
    + apply (IH (Re.Name (acc ++ String c "")) _); [|exact IN].
      simpl. rewrite all_chars_app. simpl in OK. rewrite OK. simpl.
      rewrite W. reflexivity.
    + destruct (Ascii.eqb c ")" && negb (acc =? "")) eqn:C.
      * destruct IN as [IN|IN]; [|exact (IH Re.Idle _ I IN)].
        subst n. apply andb_prop in C. destruct C as [_ C].
        unfold Re.fullmatch_var_name. rewrite C. exact OK.
      * exact (IH _ _ R IN).
Qed.

(** X3.  Every name that [findall] extracts from a template is a non-empty
    run of word characters: the names a [VarString] holds (and registers)
    all match [_VAR_NAME_PATTERN]. *)
Theorem findall_reference_names_are_identifiers (s n : string) :
  In n (Re.findall_reference s) -> Re.fullmatch_var_name n = true.
Proof. apply findall_from_names. exact I. Qed.

(** X3 at a template with two references and some near misses. *)
Lemma findall_reference_names_are_identifiers_witness :
  Re.findall_reference "$(a) $() $(b_2)$(c d)" = ["a"; "b_2"] /\
  Re.fullmatch_var_name "b_2" = true.
Proof.
  split; [reflexivity|].
  apply (findall_reference_names_are_identifiers "$(a) $() $(b_2)$(c d)").
  right. left. reflexivity.
Defined.

Lemma word_not_special (c : ascii) :
  Re.is_word c = true ->
  Ascii.eqb c ")" = false /\ Ascii.eqb c "$" = false.
Proof.
  intros W. split.
  - destruct (Ascii.eqb_spec c ")") as [E|E]; [subst; discriminate W|reflexivity].
  - destruct (Ascii.eqb_spec c "$") as [E|E]; [subst; discriminate W|reflexivity].
Qed.

Lemma append_empty (s : string) : s ++ "" = s.
Proof. induction s as [|a s IH]; simpl; [|rewrite IH]; reflexivity. Qed.

Lemma append_single (s t : string) (c : ascii) :
  (s ++ String c "") ++ t = s ++ String c t.
Proof. induction s as [|a s IH]; simpl; [|rewrite IH]; reflexivity. Qed.

Lemma findall_name_run (s : string) :
  forall acc rest,
    Re.all_chars Re.is_word s = true ->
    (acc ++ s =? "") = false ->
    Re.findall_from (Re.Name acc) (s ++ String ")" rest)
    = (acc ++ s) :: Re.findall_from Re.Idle rest.
Proof.
  induction s as [|c s IH]; intros acc rest W NE.
  - simpl. change (Re.is_word ")") with false. cbv beta iota.
    rewrite append_empty in *. rewrite NE. reflexivity.
  - simpl in W. apply andb_prop in W. destruct W as [Wc W].
    simpl. rewrite Wc.
    rewrite IH; [rewrite append_single; reflexivity|exact W|].
    rewrite append_single. destruct acc; reflexivity.
Qed.

Lemma word_run_close (s : string) :
  Re.all_chars Re.is_word s = true -> Re.word_run_then_close (s ++ ")") = true.
Proof.
  induction s as [|c s IH]; intros W; [reflexivity|].
  simpl in W. apply andb_prop in W. destruct W as [Wc W].
  simpl. destruct (word_not_special c Wc) as [N _]. rewrite N, Wc. exact (IH W).
Qed.

Lemma identifier_is_no_reference (s : string) :
  Re.fullmatch_var_name s = true -> Re.fullmatch_reference s = false.
Proof.
  unfold Re.fullmatch_var_name. intros H. apply andb_prop in H. destruct H as [_ W].
  destruct s as [|c s]; [reflexivity|].
  simpl in W. apply andb_prop in W. destruct W as [Wc _].
  destruct (word_not_special c Wc) as [_ N].
  destruct (Ascii.eqb_spec c "$") as [E|E]; [discriminate N|].
  destruct c as [[] [] [] [] [] [] [] []]; try reflexivity.
  exfalso. apply E. reflexivity.
Qed.

Lemma reference_text_is_reference (s : string) :
  Re.fullmatch_var_name s = true ->
  Re.fullmatch_reference (Re.reference_text s) = true.
Proof.
  unfold Re.fullmatch_var_name. intros H. apply andb_prop in H.
  destruct H as [NE W].
  destruct s as [|c s]; [discriminate NE|].
  simpl in W. apply andb_prop in W. destruct W as [Wc W].
  unfold Re.reference_text. simpl. rewrite Wc. exact (word_run_close s W).
Qed.

(** X4.  For a bare identifier [s], [single_reference] wraps it as [$(s)];
    the result is accepted unchanged by [single_reference], and its only
    reference is [s]. *)
Theorem single_reference_wraps_identifier (s : string) :
  Re.fullmatch_var_name s = true ->
  VarString_single_reference (OStr s) = Ok (OStr (Re.reference_text s)) /\
  VarString_single_reference (OStr (Re.reference_text s))
  = Ok (OStr (Re.reference_text s)) /\
  Re.findall_reference (Re.reference_text s) = [s].
Proof.
  intros H. pose proof (identifier_is_no_reference s H) as NR.
  pose proof (reference_text_is_reference s H) as FR.
  unfold Re.fullmatch_var_name in H. apply andb_prop in H. destruct H as [NE W].
  split; [|split].
  - unfold VarString_single_reference, Re.fullmatch_var_name.
    rewrite NR, NE, W. reflexivity.
  - unfold VarString_single_reference. rewrite FR. reflexivity.
  - unfold Re.findall_reference, Re.reference_text. simpl.
    rewrite (findall_name_run s "" ""); [reflexivity|exact W|].
    simpl. destruct (s =? ""); [discriminate NE|reflexivity].
Qed.

(** X4 at the identifier [Foo]. *)
Lemma single_reference_wraps_identifier_witness :
  VarString_single_reference (OStr "Foo") = Ok (OStr "$(Foo)") /\
  VarString_single_reference (OStr "$(Foo)") = Ok (OStr "$(Foo)") /\
  Re.findall_reference "$(Foo)" = ["Foo"].
Proof. apply (single_reference_wraps_identifier "Foo"). reflexivity. Defined.

(** *** [VarString]: registration *)

(** The names a [VarString] object holds. *)
Definition names_of (v : pyobj) : list string :=
  match v with
  | OVar _ names _ _ => names
  | _ => []
  end.

Lemma set_add_in (x n : string) (l : list string) :
  In n (set_add x l) <-> In n l \/ n = x.
Proof.
  unfold set_add. destruct (existsb (String.eqb x) l) eqn:E.
  - split; [tauto|]. intros [H|H]; [exact H|]. subst n.
    apply existsb_exists in E. destruct E as [y [Y E]].
    apply String.eqb_eq in E. subst y. exact Y.
  - rewrite in_app_iff. simpl. intuition.
Qed.

Lemma set_add_nodup (x : string) (l : list string) :
  NoDup l -> NoDup (set_add x l).
Proof.
  intros ND. unfold set_add. destruct (existsb (String.eqb x) l) eqn:E;
    [exact ND|].
  assert (NI : ~ In x l).
  { intros IN. assert (T : existsb (String.eqb x) l = true).
    { apply existsb_exists. exists x. split; [exact IN|apply String.eqb_refl]. }
    rewrite T in E. discriminate E. }
  clear E. induction ND as [|y l NY ND IH]; simpl.
  - constructor; [intros []|constructor].
  - constructor.
    + rewrite in_app_iff. simpl. intros [H|[H|[]]]; [exact (NY H)|].
      apply NI. left. symmetry. exact H.
    + apply IH. intros H. apply NI. right. exact H.
Qed.

Lemma register_names (names : list string) :
  forall l,
    (forall n, In n (fold_left (fun acc n => set_add n acc) names l)
               <-> In n l \/ In n names) /\
    (NoDup l -> NoDup (fold_left (fun acc n => set_add n acc) names l)).
Proof.
  induction names as [|x names IH]; intros l; simpl.
  - split; [intros n; tauto|trivial].
  - destruct (IH (set_add x l)) as [I N]. split.
    + intros n. rewrite I, set_add_in. intuition.
    + intros ND. apply N. apply set_add_nodup. exact ND.
Qed.

(** X5.  [VarString.load] of a string builds a [VarString] whose names are
    the references of the string; afterwards the registry [NAMES] holds what
    it held before and those names, nothing else.  Any other object is
    returned as it is and the state stays as it was.  In both cases the
    registry keeps having no duplicate and the bindings are untouched. *)
Theorem VarString_load_registers_names (obj key_id v : pyobj) (w w' : World) :
  VarString_load obj key_id w = (Ok v, w') ->
  (NoDup (NAMES w) -> NoDup (NAMES w')) /\
  _VAR_VALUES w' = _VAR_VALUES w /\
  match obj with
  | OStr s =>
      names_of v = Re.findall_reference s /\
      forall n, In n (NAMES w') <-> In n (NAMES w) \/ In n (Re.findall_reference s)
  | _ => v = obj /\ w' = w
  end.
Proof.
  intros H. destruct obj; try (inversion H; subst; simpl; tauto).
  unfold VarString_load, VarString_init, bind, modify, ret in H.
  inversion H; subst. simpl.
  destruct (register_names (Re.findall_reference s) (NAMES w)) as [I N].
  split; [exact N|]. split; [reflexivity|]. split; [reflexivity|exact I].
Qed.

(** X5 at a template that repeats a name. *)
Lemma VarString_load_registers_names_witness :
  NAMES (snd (VarString_load (OStr "$(b)/$(a)/$(b)") ONone
                             (with_NAMES sample_world ["a"])))
  = ["a"; "b"] /\
  NoDup (NAMES (snd (VarString_load (OStr "$(b)/$(a)/$(b)") ONone
                                    (with_NAMES sample_world ["a"])))).
Proof.
  split; [reflexivity|].
  refine (proj1 (VarString_load_registers_names
                   (OStr "$(b)/$(a)/$(b)") ONone _
                   (with_NAMES sample_world ["a"]) _ eq_refl) _).
  simpl. constructor; [intros []|constructor].
Defined.

(** *** [VarString.value] *)

Section ValueProperties.
Variable decrypt : pyobj -> pyobj -> outcome pyobj.

(** X6.  A string without [$(name)] references loads, in any state and
    without changing it, as a [VarString] that reads as that very string in
    every state, whatever the bindings are. *)
Theorem VarString_without_references_is_literal
        (s : string) (key_id : pyobj) (w : World) :
  ref_free s = true ->
  exists v,
    VarString_load (OStr s) key_id w = (Ok v, w) /\
    forall w2, VarString_value decrypt v w2 = (Ok (s, v), w2).
Proof.
  intros R. exists (OVar s [] key_id (Some s)). split.
  - apply VarString_load_plain. exact R.
  - intros w2. apply value_at_resolved.
Qed.

(** X7.  Once a read of [value] has returned a non-empty string, every
    later read of the object returns that string and leaves the state
    alone, whatever has become of the bindings. *)
Theorem VarString_value_is_cached
        (self self' : pyobj) (v : string) (w w1 : World) :
  VarString_value decrypt self w = (Ok (v, self'), w1) ->
  v <> "" ->
  forall w2, VarString_value decrypt self' w2 = (Ok (v, self'), w2).
Proof.
  unfold VarString_value. intros H NE w2.
  destruct self as [| | | | | |template names key cached];
    try discriminate H.
  rewrite value_at_unfold in H.
  assert (C : cache_hit (Some v) = Some v).
  { unfold cache_hit. destruct (String.eqb_spec v ""); [contradiction|reflexivity]. }
  destruct (cache_hit cached) as [c|] eqn:CH.
  - inversion H; subst. rewrite value_at_unfold, CH. reflexivity.
  - unfold bind in H.
    destruct (substitute _ _ names template key w) as [[[v1 k1]|e] w0];
      [|discriminate H].
    inversion H; subst. rewrite value_at_unfold, C. reflexivity.
Qed.

End ValueProperties.

(** X6 at a plain path. *)
Lemma VarString_without_references_is_literal_witness :
  exists v,
    VarString_load (OStr "/app/name") ONone sample_world = (Ok v, sample_world) /\
    VarString_value decrypt_const v path_world = (Ok ("/app/name", v), path_world).
Proof.
  destruct (VarString_without_references_is_literal decrypt_const "/app/name"
              ONone sample_world eq_refl) as [v [L V]].
  exists v. split; [exact L|exact (V path_world)].
Defined.

(** X7: the template of [dir_varstring], read once while [path] is bound,
    reads the same in a state without any binding. *)
Lemma VarString_value_is_cached_witness :
  VarString_value decrypt_const
    (OVar "dir=$(path)" ["path"] ONone (Some ("dir=C:" ++ LF ++ "ews")))
    sample_world
  = (Ok ("dir=C:" ++ LF ++ "ews",
         OVar "dir=$(path)" ["path"] ONone (Some ("dir=C:" ++ LF ++ "ews"))),
     sample_world).
Proof.
  refine (VarString_value_is_cached decrypt_const dir_varstring _ _
            path_world _ _ _ sample_world).
  - vm_compute. reflexivity.
  - discriminate.
Defined.

(** The text bound to [name] when [_VAR_VALUES] maps it to an Input whose
    plain value is a string without a backslash. *)
Definition plain_binding (w : World) (name : string) : option string :=
  match assoc_lookup (_VAR_VALUES w) name with
  | Some (BoundInput i) =>
      match InputObj._value i with
      | OStr v => if contains_char "\" v then None else Some v
      | _ => None
      end
  | _ => None
  end.

(** The template after replacing, name by name in the order of [names],
    every occurrence of the reference by the text bound to the name. *)
Definition substituted (w : World) (names : list string) (template : string)
  : string :=
  fold_left
    (fun text name =>
       match plain_binding w name with
       | Some v => Re.replace_all (Re.reference_text name) v text
       | None => text
       end)
    names template.

Lemma assoc_set_same {V} (d : list (string * V)) (k : string) (v : V) :
  assoc_lookup d k = Some v -> assoc_set d k v = d.
Proof.
  induction d as [|[k' v'] d IH]; simpl; [discriminate|].
  destruct (String.eqb_spec k k') as [E|E].
  - intros H. inversion H. reflexivity.
  - intros H. rewrite (IH H). reflexivity.
Qed.

Lemma with_VAR_VALUES_same (w : World) : with_VAR_VALUES w (_VAR_VALUES w) = w.
Proof. destruct w; reflexivity. Qed.

Lemma bind_ret_world {B} (k : World -> M B) (w : World) :
  bind (fun w0 => (Ok w0, w0)) k w = k w w.
Proof. reflexivity. Qed.

Section Substitution.
Variable decrypt : pyobj -> pyobj -> outcome pyobj.

Lemma substitute_plain (fuel : nat) (names : list string) (w : World) :
  (forall n, In n names -> plain_binding w n <> None) ->
  forall text,
    substitute decrypt (dump_key_at decrypt fuel) names text ONone w
    = (Ok (substituted w names text, ONone), w).
Proof.
  induction names as [|name names IH]; intros B text; [reflexivity|].
  assert (Bn := B name (or_introl eq_refl)).
  unfold substituted. cbn [fold_left]. fold (substituted w names).
  unfold plain_binding in *.
  destruct (assoc_lookup (_VAR_VALUES w) name) as [[| |i]|] eqn:L;
    try (exfalso; apply Bn; reflexivity).
  destruct (InputObj._value i) as [| | |v| | |] eqn:V;
    try (exfalso; apply Bn; reflexivity).
  destruct (contains_char "\" v) eqn:C; [exfalso; apply Bn; reflexivity|].
  assert (G : binding_get_value decrypt (BoundInput i) ONone w
              = (Ok (OStr v, BoundInput i), w)).
  { unfold binding_get_value, Input_get_value, bind, lift, ret. simpl truthy.
    cbv beta iota. rewrite V. reflexivity. }
  assert (S : Re.sub name v text
              = Ok (Re.replace_all (Re.reference_text name) v text)).
  { unfold Re.sub. rewrite (expand_without_backslash _ v C). reflexivity. }
  assert (K : dump_key_at decrypt fuel ONone w = (Ok (ONone, ONone), w))
    by reflexivity.
  cbn [substitute]. rewrite (bind_ok _ _ K).
  cbv beta iota. unfold get_world at 1. rewrite bind_ret_world.
  rewrite L. rewrite (bind_ok _ _ G). cbv beta iota.
  unfold bind at 1, modify at 1.
  rewrite (assoc_set_same _ _ _ L), with_VAR_VALUES_same.
  rewrite S, bind_lift.
  apply IH. intros n IN. apply B. right. exact IN.
Qed.

(** X8.  Take a [VarString] without key-id whose value is not cached and
    whose names are all bound to Inputs holding plain strings without a
    backslash.  Reading [value] yields the template in which, name by name
    in the order of [names], each [$(name)] is replaced by the bound text
    (so a bound text that itself contains a later reference is replaced in
    turn); the state is unchanged and the result is stored in the object. *)
Theorem VarString_value_substitutes_bound_texts
        (template : string) (names : list string) (cached : option string)
        (w : World) :
  cache_hit cached = None ->
  (forall n, In n names -> plain_binding w n <> None) ->
  VarString_value decrypt (OVar template names ONone cached) w
  = (Ok (substituted w names template,
         OVar template names ONone (Some (substituted w names template))),
     w).
Proof.
  intros C B. unfold VarString_value. rewrite value_at_unfold, C.
  unfold bind. rewrite (substitute_plain _ names w B). reflexivity.
Qed.

End Substitution.

(** A state in which [host] is bound to [db.local] and [port] to [5432]. *)
Definition endpoint_world : World :=
  with_VAR_VALUES sample_world
    [("host", BoundInput (Input_set_value
                            (Input_init "host" ONone ONone ONone ONone)
                            (OStr "db.local") ONone));
     ("port", BoundInput (Input_set_value
                            (Input_init "port" ONone ONone ONone ONone)
                            (OStr "5432") ONone))].

(** X8 at the template [$(host):$(port)/$(host)]. *)
Lemma VarString_value_substitutes_bound_texts_witness :
  VarString_value decrypt_const
    (OVar "$(host):$(port)/$(host)" ["host"; "port"; "host"] ONone None)
    endpoint_world
  = (Ok ("db.local:5432/db.local",
         OVar "$(host):$(port)/$(host)" ["host"; "port"; "host"] ONone
              (Some "db.local:5432/db.local")),
     endpoint_world).
Proof.
  apply (VarString_value_substitutes_bound_texts decrypt_const
           "$(host):$(port)/$(host)" ["host"; "port"; "host"] None
           endpoint_world eq_refl).
  intros n [E|[E|[E|[]]]]; subst n; discriminate.
Defined.

(** The names that have a binding. *)
Definition bound_names (w : World) : list string := map fst (_VAR_VALUES w).

Lemma assoc_lookup_none {V} (d : list (string * V)) (k : string) :
  assoc_lookup d k = None <-> ~ In k (map fst d).
Proof.
  induction d as [|[k' v'] d IH]; simpl; [tauto|].
  destruct (String.eqb_spec k k') as [E|E].
  - split; [discriminate|]. intros N. exfalso. apply N. left. symmetry. exact E.
  - rewrite IH. split.
    + intros N [H|H]; [apply E; symmetry; exact H|exact (N H)].
    + intros N H. apply N. right. exact H.
Qed.

Lemma assoc_set_keys_bound {V} (d : list (string * V)) (k : string) (x v : V) :
  assoc_lookup d k = Some x -> map fst (assoc_set d k v) = map fst d.
Proof.
  induction d as [|[k' v'] d IH]; simpl; [discriminate|].
  destruct (String.eqb_spec k k') as [E|E]; intros H; simpl.
  - reflexivity.
  - rewrite (IH H). reflexivity.
Qed.

Section Unbound.
Variable decrypt : pyobj -> pyobj -> outcome pyobj.

Lemma binding_get_value_bound (b : binding) (key_id : pyobj) (w : World) :
  bound_names (snd (binding_get_value decrypt b key_id w)) = bound_names w.
Proof.
  destruct b as [| |i]; simpl.
  - unfold SSMClient_get_region, bind, get_world, modify, ret.
    destruct (negb (truthy (_REGION w))); reflexivity.
  - unfold SSMClient_get_account, bind, get_world, modify, ret.
    destruct (negb (truthy (_ACCOUNT w))); reflexivity.
  - unfold bind, lift. destruct (Input_get_value decrypt i key_id) as [[v i']|];
      reflexivity.
Qed.

(** Reading with [dump_key] keeps the set of bound names. *)
Definition keeps_bound (dump_key : pyobj -> M (pyobj * pyobj)) : Prop :=
  forall k w, bound_names (snd (dump_key k w)) = bound_names w.

Lemma substitute_bound (dump_key : pyobj -> M (pyobj * pyobj)) :
  keeps_bound dump_key ->
  forall names text key w,
    bound_names (snd (substitute decrypt dump_key names text key w))
    = bound_names w.
Proof.
  intros K. induction names as [|name names IH]; intros text key w;
    [reflexivity|].
  cbn [substitute]. unfold bind at 1.
  pose proof (K key w) as K1.
  destruct (dump_key key w) as [[[key_id key']|e] w1]; simpl in K1;
    [|exact K1].
  rewrite <- K1. unfold get_world at 1. rewrite bind_ret_world.
  destruct (assoc_lookup (_VAR_VALUES w1) name) as [b|] eqn:L; [|reflexivity].
  unfold bind at 1.
  pose proof (binding_get_value_bound b key_id w1) as K2.
  destruct (binding_get_value decrypt b key_id w1) as [[[vv b']|e] w2];
    simpl in K2; [|exact K2].
  rewrite <- K2. unfold bind at 1, modify at 1.
  assert (L2 : exists x, assoc_lookup (_VAR_VALUES w2) name = Some x).
  { destruct (assoc_lookup (_VAR_VALUES w2) name) as [x|] eqn:L2;
      [exists x; reflexivity|].
    apply assoc_lookup_none in L2. fold (bound_names w2) in L2.
    rewrite K2 in L2. apply assoc_lookup_none in L2. congruence. }
  destruct L2 as [x L2].
  assert (K3 : bound_names
                 (with_VAR_VALUES w2 (assoc_set (_VAR_VALUES w2) name b'))
               = bound_names w2).
  { unfold bound_names. simpl. exact (assoc_set_keys_bound _ _ x _ L2). }
  rewrite <- K3.
  destruct vv; try reflexivity.
  unfold bind at 1, lift at 1.
  destruct (Re.sub name s text) as [text'|]; [|reflexivity].
  apply IH.
Qed.

Lemma value_at_bound (fuel : nat) :
  forall self w,
    bound_names (snd (value_at decrypt fuel self w)) = bound_names w.
Proof.
  induction fuel as [|f IH]; intros self w;
    (destruct self as [| | | | | |template names key cached];
     try reflexivity);
    rewrite value_at_unfold;
    (destruct (cache_hit cached); [reflexivity|]);
    unfold bind;
    match goal with
    | |- context [substitute decrypt ?dk names template key w] =>
        assert (K : keeps_bound dk);
        [|pose proof (substitute_bound dk K names template key w) as S;
          destruct (substitute decrypt dk names template key w)
            as [[[v k1]|e] w1]; exact S]
    end.
  - intros k w0. destruct k; reflexivity.
  - intros k w0. destruct k; try reflexivity.
    cbn [dump_key_at]. unfold bind.
    pose proof (IH (OVar template0 names0 k cached0) w0) as S.
    destruct (value_at decrypt f _ w0) as [[[v k1]|e] w1]; exact S.
Qed.

Lemma substitute_unbound (dump_key : pyobj -> M (pyobj * pyobj)) (n : string) :
  keeps_bound dump_key ->
  forall names text key w,
    In n names -> ~ In n (bound_names w) ->
    exists e w', substitute decrypt dump_key names text key w = (Raise e, w').
Proof.
  intros K. induction names as [|name names IH]; intros text key w IN U;
    [destruct IN|].
  cbn [substitute]. unfold bind at 1.
  pose proof (K key w) as K1.
  destruct (dump_key key w) as [[[key_id key']|e] w1]; simpl in K1;
    [|eauto].
  unfold get_world at 1. rewrite bind_ret_world.
  destruct (assoc_lookup (_VAR_VALUES w1) name) as [b|] eqn:L;
    [|unfold raise; eauto].
  destruct IN as [E|IN].
  { subst name. exfalso. rewrite <- K1 in U.
    apply assoc_lookup_none in U. congruence. }
  unfold bind at 1.
  pose proof (binding_get_value_bound b key_id w1) as K2.
  destruct (binding_get_value decrypt b key_id w1) as [[[vv b']|e] w2];
    simpl in K2; [|eauto].
  unfold bind at 1, modify at 1.
  destruct vv; try (unfold raise; eauto).
  unfold bind at 1, lift at 1.
  destruct (Re.sub name s text) as [text'|]; [|eauto].
  apply IH; [exact IN|].
  assert (L2 : exists x, assoc_lookup (_VAR_VALUES w2) name = Some x).
  { destruct (assoc_lookup (_VAR_VALUES w2) name) as [x|] eqn:L2;
      [exists x; reflexivity|].
    apply assoc_lookup_none in L2. fold (bound_names w2) in L2.
    rewrite K2 in L2. apply assoc_lookup_none in L2. congruence. }
  destruct L2 as [x L2].
  unfold bound_names. simpl.
  rewrite (assoc_set_keys_bound _ _ x _ L2).
  fold (bound_names w2). rewrite K2, K1. exact U.
Qed.

(** X9.  When one of the names of a [VarString] has no binding in
    [_VAR_VALUES] and no value is cached, reading [value] raises: it never
    returns a partly substituted text. *)
Theorem VarString_value_needs_every_binding
        (template : string) (names : list string) (key : pyobj)
        (cached : option string) (n : string) (w : World) :
  cache_hit cached = None ->
  In n names ->
  assoc_lookup (_VAR_VALUES w) n = None ->
  exists e w',
    VarString_value decrypt (OVar template names key cached) w = (Raise e, w').
Proof.
  intros C IN U. unfold VarString_value. rewrite value_at_unfold, C.
  destruct (substitute_unbound
              (dump_key_at decrypt (VarString_depth (OVar template names key cached)))
              n) with (names := names) (text := template) (key := key) (w := w)
    as [e [w' E]]; trivial.
  - intros k w0. destruct k; try reflexivity.
    cbn [VarString_depth dump_key_at]. unfold bind.
    pose proof (value_at_bound (VarString_depth key)
                               (OVar template0 names0 k cached0) w0) as S.
    destruct (value_at decrypt _ _ w0) as [[[v k1]|x] w1]; exact S.
  - apply assoc_lookup_none. exact U.
  - exists e, w'. unfold bind. rewrite E. reflexivity.
Qed.

End Unbound.

(** X9 at a template whose second name is not bound: the read raises the
    [KeyError] of that name. *)
Lemma VarString_value_needs_every_binding_witness :
  VarString_value decrypt_const
    (OVar "$(host)/$(user)" ["host"; "user"] ONone None) endpoint_world
  = (Raise (KeyError (OStr "user")), endpoint_world).
Proof.
  destruct (VarString_value_needs_every_binding decrypt_const
              "$(host)/$(user)" ["host"; "user"] ONone None "user"
              endpoint_world eq_refl (or_intror (or_introl eq_refl)) eq_refl)
    as [e [w' E]].
  rewrite E. vm_compute in E. inversion E. reflexivity.
Defined.

(** *** [SSMParameter.load] *)

Lemma bind_inv {A B} (c : M A) (k : A -> M B) (w : World) (b : B) (w' : World) :
  bind c k w = (Ok b, w') ->
  exists a w1, c w = (Ok a, w1) /\ k a w1 = (Ok b, w').
Proof.
  unfold bind. destruct (c w) as [[a|e] w1]; intros H; [|discriminate H].
  exists a, w1. split; [reflexivity|exact H].
Qed.

Lemma Dict_lookup_set_same (d : Dict.t) (k : string) (v : pyobj) :
  Dict.lookup (Dict.set d k v) k = Some v.
Proof.
  induction d as [|[k' v'] d IH]; simpl.
  - rewrite String.eqb_refl. reflexivity.
  - destruct (k =? k') eqn:E; simpl; rewrite E; [reflexivity|exact IH].
Qed.

Lemma Dict_lookup_set_other (d : Dict.t) (k k' : string) (v : pyobj) :
  (k' =? k) = false ->
  Dict.lookup (Dict.set d k v) k' = Dict.lookup d k'.
Proof.
  intros N. induction d as [|[k0 v0] d IH]; simpl.
  - rewrite N. reflexivity.
  - destruct (String.eqb_spec k k0) as [E|E]; simpl.
    + subst k0. rewrite N. reflexivity.
    + rewrite IH. reflexivity.
Qed.

(** X10.  A parameter that [SSMParameter.load] returns holds a key id
    exactly when its type is [SecureString]; and when it is a
    [SecureString] loaded from a mapping with neither [EncryptedValue] nor
    [Input], the mapping has no [Value] either and the parameter has no
    value: a [SecureString] never takes its value from [Value]. *)
Theorem SSMParameter_load_secure_value
        (obj : Dict.t) (vars_in_name_only : bool) (p : ParameterObj.t)
        (w w' : World) :
  SSMParameter_load obj vars_in_name_only w = (Ok p, w') ->
  truthy (ParameterObj._key_id p)
  = is_lit (ParameterObj._type p) "SecureString" /\
  (is_lit (ParameterObj._type p) "SecureString" = true ->
   Dict.mem obj "EncryptedValue" = false ->
   Dict.mem obj "Input" = false ->
   Dict.mem obj "Value" = false /\ ParameterObj._value p = ONone).
Proof.
  intros L. unfold SSMParameter_load in L.
  apply bind_inv in L. destruct L as (name0 & w1 & N0 & L).
  apply bind_inv in L. destruct L as (name & w2 & N & L).
  apply bind_inv in L. destruct L as (type & w3 & T & L).
  apply bind_inv in L. destruct L as (key_id & w4 & K & L).
  apply bind_inv in L. destruct L as (value & w5 & V & L).
  apply bind_inv in L. destruct L as (ap & w6 & AP & L).
  apply bind_inv in L. destruct L as (disable & w7 & D & L).
  apply bind_inv in L. destruct L as (parameter & w8 & P & L).
  unfold ret in L. inversion L; subst p w'. clear L.
  unfold lift, SSMParameter_init in P.
  destruct (truthy key_id) eqn:TK;
    destruct (is_lit type "SecureString") eqn:TS;
    simpl in P; inversion P; subst parameter w8; simpl; rewrite ?TK, ?TS;
    (split; [reflexivity|]); intros S NE NI; try discriminate S.
  unfold load_value in V. rewrite TS, TK, NE, NI in V. simpl in V.
  destruct (Dict.mem obj "Value"); [discriminate V|].
  inversion V. split; reflexivity.
Qed.

(** X10 at a [SecureString] fragment with a key id and no value. *)
Lemma SSMParameter_load_secure_value_witness :
  exists p w',
    SSMParameter_load [("Name", OStr "/app/secret"); ("KeyId", OStr "alias/app")]
                      false sample_world = (Ok p, w') /\
    truthy (ParameterObj._key_id p) = true /\
    ParameterObj._value p = ONone.
Proof.
  destruct (SSMParameter_load
              [("Name", OStr "/app/secret"); ("KeyId", OStr "alias/app")]
              false sample_world) as [[p|e] w'] eqn:L;
    [|vm_compute in L; discriminate L].
  exists p, w'. split; [reflexivity|].
  destruct (SSMParameter_load_secure_value _ _ _ _ _ L) as [H1 H2].
  assert (S : is_lit (ParameterObj._type p) "SecureString" = true).
  { vm_compute in L. inversion L. reflexivity. }
  split.
  - rewrite H1. exact S.
  - destruct (H2 S eq_refl eq_refl) as [_ H]. exact H.
Defined.

(** The mapping without the [Input] field is read alike whatever that field
    holds. *)
Lemma load_type_Input (obj : Dict.t) (x : pyobj) :
  load_type (Dict.set obj "Input" x) = load_type obj.
Proof.
  unfold load_type, Dict.get, Dict.mem, subscript.
  rewrite !Dict_lookup_set_other by reflexivity. reflexivity.
Qed.

(** X11.  In the [Input] field of a fragment a bare identifier [i] stands
    for the reference [$(i)]: both fragments load alike, to the same
    parameter or the same error, in the same state. *)
Theorem SSMParameter_load_Input_shorthand
        (obj : Dict.t) (i : string) (vars_in_name_only : bool) (w : World) :
  Re.fullmatch_var_name i = true ->
  SSMParameter_load (Dict.set obj "Input" (OStr i)) vars_in_name_only w
  = SSMParameter_load (Dict.set obj "Input" (OStr (Re.reference_text i)))
                      vars_in_name_only w.
Proof.
  intros H.
  assert (V : forall type key_id,
             load_value vars_in_name_only (Dict.set obj "Input" (OStr i))
                        type key_id
             = load_value vars_in_name_only
                          (Dict.set obj "Input" (OStr (Re.reference_text i)))
                          type key_id).
  { intros type key_id. unfold load_value, Dict.mem, Dict.get.
    rewrite !Dict_lookup_set_same.
    rewrite !Dict_lookup_set_other by reflexivity.
    unfold VarString_single_reference.
    rewrite (identifier_is_no_reference i H), H,
      (reference_text_is_reference i H).
    reflexivity. }
  unfold SSMParameter_load. rewrite !load_type_Input.
  unfold subscript, Dict.get_default, Dict.get.
  rewrite !Dict_lookup_set_other by reflexivity.
  unfold bind. destruct (lift _ w) as [[name0|e] w1]; [|reflexivity].
  destruct (VarString_load name0 ONone w1) as [[name|e] w2]; [|reflexivity].
  destruct (lift (load_type obj) w2) as [[type|e] w3]; [|reflexivity].
  destruct (load_varstring vars_in_name_only _ ONone w3) as [[key_id|e] w4];
    [|reflexivity].
  rewrite V. reflexivity.
Qed.

(** X11 at a [SecureString] fragment whose [Input] is [Token]: the loaded
    value is the [VarString] of [$(Token)]. *)
Lemma SSMParameter_load_Input_shorthand_witness :
  let obj := [("Name", OStr "/app/token"); ("KeyId", OStr "alias/app")] in
  SSMParameter_load (Dict.set obj "Input" (OStr "Token")) false sample_world
  = SSMParameter_load (Dict.set obj "Input" (OStr "$(Token)")) false
                      sample_world.
Proof.
  intros obj.
  apply (SSMParameter_load_Input_shorthand obj "Token" false sample_world).
  reflexivity.
Defined.

(** *** [SSMParameter.dump] *)

Section DumpProperties.
Variable decrypt : pyobj -> pyobj -> outcome pyobj.

(** Two states of a parameter with the same type and description. *)
Definition same_kind (p q : ParameterObj.t) : Prop :=
  ParameterObj._type q = ParameterObj._type p /\
  ParameterObj._description q = ParameterObj._description p.

Ltac bind_inv_in H :=
  apply bind_inv in H;
  let a := fresh "a" in
  let w := fresh "w" in
  let E := fresh "E" in
  destruct H as (a & w & E & H).

Lemma name_same_kind (self self' : ParameterObj.t) (v : pyobj) (w w' : World) :
  SSMParameter_name decrypt self w = (Ok (v, self'), w') -> same_kind self self'.
Proof.
  unfold SSMParameter_name. intros H. bind_inv_in H. destruct a as [x o].
  inversion H. split; reflexivity.
Qed.

Lemma allowed_pattern_same_kind (self self' : ParameterObj.t) (v : pyobj)
      (w w' : World) :
  SSMParameter_allowed_pattern decrypt self w = (Ok (v, self'), w') ->
  same_kind self self'.
Proof.
  unfold SSMParameter_allowed_pattern. intros H. bind_inv_in H.
  destruct a as [x o]. inversion H. split; reflexivity.
Qed.

Lemma key_id_same_kind (self self' : ParameterObj.t) (v : pyobj) (w w' : World) :
  SSMParameter_key_id decrypt self w = (Ok (v, self'), w') -> same_kind self self'.
Proof.
  unfold SSMParameter_key_id. intros H. bind_inv_in H. destruct a as [x o].
  inversion H. split; reflexivity.
Qed.

Lemma disable_same_kind (self self' : ParameterObj.t) (d : bool) (w w' : World) :
  SSMParameter_disable decrypt self w = (Ok (d, self'), w') -> same_kind self self'.
Proof.
  unfold SSMParameter_disable. intros H.
  destruct (is_none (ParameterObj._disable self)).
  - inversion H. split; reflexivity.
  - bind_inv_in H. destruct a as [x o]. inversion H. split; reflexivity.
Qed.

Lemma value_same_kind (self self' : ParameterObj.t) (v : pyobj) (w w' : World) :
  SSMParameter_value decrypt self w = (Ok (v, self'), w') -> same_kind self self'.
Proof.
  unfold SSMParameter_value. intros H.
  destruct (is_none (ParameterObj._value self)).
  - bind_inv_in H. destruct a as [d s1].
    apply disable_same_kind in E.
    destruct d.
    + inversion H. subst. exact E.
    + bind_inv_in H. destruct a as [n s2]. discriminate H.
  - bind_inv_in H. destruct a as [value o]. cbv beta iota zeta in H.
    destruct (negb (is_str value)).
    + cbn [ParameterObj._value ParameterObj.set__value] in H.
      destruct o; try discriminate H.
      * bind_inv_in H. destruct a as [items l']. bind_inv_in H.
        inversion H. split; reflexivity.
      * bind_inv_in H. inversion H. split; reflexivity.
    + inversion H. split; reflexivity.
Qed.

Lemma same_kind_trans (p q r : ParameterObj.t) :
  same_kind p q -> same_kind q r -> same_kind p r.
Proof. unfold same_kind. intros [A B] [C D]. split; congruence. Qed.

(** X12.  The mapping that [SSMParameter.dump] returns has the keys [Name],
    [Type] and [Value], then [AllowedPattern], [Description] and [KeyId]
    where present, in this order, and no other key: [Overwrite] and
    [Disable] are never dumped.  [Type] is the type of the parameter, and
    [Description] is present exactly when the description is neither [None]
    nor empty. *)
Theorem SSMParameter_dump_fields
        (self self' : ParameterObj.t) (data : Dict.t) (w w' : World) :
  SSMParameter_dump decrypt self w = (Ok (data, self'), w') ->
  (exists a k : bool,
      Dict.keys data
      = (["Name"; "Type"; "Value"]
         ++ (if a then ["AllowedPattern"] else [])
         ++ (if truthy (ParameterObj._description self)
             then ["Description"] else [])
         ++ (if k then ["KeyId"] else []))%list) /\
  Dict.lookup data "Type" = Some (ParameterObj._type self) /\
  Dict.lookup data "Description"
  = (if truthy (ParameterObj._description self)
     then Some (ParameterObj._description self) else None) /\
  Dict.mem data "Overwrite" = false /\
  Dict.mem data "Disable" = false.
Proof.
  unfold SSMParameter_dump. intros H.
  bind_inv_in H. destruct a as [name s1]. pose proof (name_same_kind _ _ _ _ _ E) as K1.
  bind_inv_in H. destruct a as [value s2].
  pose proof (same_kind_trans _ _ _ K1 (value_same_kind _ _ _ _ _ E0)) as K2.
  bind_inv_in H. destruct a as [ap s3].
  pose proof (same_kind_trans _ _ _ K2 (allowed_pattern_same_kind _ _ _ _ _ E1))
    as K3.
  bind_inv_in H. destruct a as [data1 s4].
  bind_inv_in H. destruct a as [k s5].
  assert (D1 : same_kind self s4 /\
               exists a : bool,
                 data1 = ([("Name", name);
                           ("Type", ParameterObj._type self);
                           ("Value", value)]
                          ++ (if a then [("AllowedPattern",
                                           Dict.get data1 "AllowedPattern")]
                              else []))%list).
  { destruct K2 as [T2 _]. unfold SSMParameter_type in E2. rewrite T2 in E2.
    destruct (truthy ap).
    - bind_inv_in E2. destruct a as [ap' s3'].
      pose proof (same_kind_trans _ _ _ K3
                    (allowed_pattern_same_kind _ _ _ _ _ E4)) as K4.
      inversion E2. subst. split; [exact K4|]. exists true. reflexivity.
    - inversion E2. subst. split; [exact K3|]. exists false.
      simpl. reflexivity. }
  destruct D1 as [K4 [a D1]].
  destruct K4 as [T4 DE4]. unfold SSMParameter_description in H.
  rewrite DE4 in H.
  assert (F : exists b : bool,
             data
             = (if b
                then Dict.set
                       (if truthy (ParameterObj._description self)
                        then Dict.set data1 "Description"
                                      (ParameterObj._description self)
                        else data1) "KeyId" (Dict.get data "KeyId")
                else if truthy (ParameterObj._description self)
                     then Dict.set data1 "Description"
                                   (ParameterObj._description self)
                     else data1)).
  { destruct (truthy k).
    - bind_inv_in H. destruct a0 as [k' s6]. inversion H. subst data.
      exists true. unfold Dict.get. rewrite Dict_lookup_set_same.
      reflexivity.
    - inversion H. exists false. reflexivity. }
  destruct F as [b F]. rewrite F. rewrite D1.
  split; [exists a, b|];
    destruct a, b, (truthy (ParameterObj._description self));
    repeat split; reflexivity.
Qed.

End DumpProperties.

(** A [SecureString] parameter with every optional attribute set, to be
    overwritten and not disabled. *)
Definition full_parameter : ParameterObj.t :=
  ParameterObj.mk (OVar "/app/secret" [] ONone (Some "/app/secret"))
                  (OStr "SecureString")
                  (OVar "AQICAHh" [] (OVar "alias/app" [] ONone (Some "alias/app"))
                        (Some "AQICAHh"))
                  (OVar "^A" [] ONone (Some "^A")) (OStr "the secret")
                  (OVar "alias/app" [] ONone (Some "alias/app"))
                  (OBool true) (OBool false) ONone ONone ONone.

(** X12 at [full_parameter]: six keys, without [Overwrite] and [Disable]. *)
Lemma SSMParameter_dump_fields_witness :
  exists data,
    fst (SSMParameter_dump decrypt_const full_parameter sample_world)
    = Ok (data, full_parameter) /\
    Dict.keys data
    = ["Name"; "Type"; "Value"; "AllowedPattern"; "Description"; "KeyId"] /\
    Dict.mem data "Overwrite" = false /\ Dict.mem data "Disable" = false.
Proof.
  destruct (SSMParameter_dump decrypt_const full_parameter sample_world)
    as [[[data p]|e] w'] eqn:D; [|vm_compute in D; discriminate D].
  destruct (SSMParameter_dump_fields decrypt_const _ _ _ _ _ D)
    as [_ [_ [_ [O DI]]]].
  exists data. vm_compute in D. inversion D. subst data.
  split; [reflexivity|]. split; [reflexivity|]. split; [exact O|exact DI].
Defined.

(** *** [compile_parameter_file] with [ignore_disabled] *)

(** The [Disable] attribute holds a plain value, not a [VarString]. *)
Definition literal_disable (p : ParameterObj.t) : bool :=
  match ParameterObj._disable p with OVar _ _ _ _ => false | _ => true end.

Definition disabled (p : ParameterObj.t) : bool :=
  truthy (ParameterObj._disable p).

(** The document of a run of [compile_parameter_file], or its error, and
    the state it leaves. *)
Definition document_of {A} (r : outcome (Dict.t * A) * World)
  : outcome Dict.t * World :=
  (match fst r with Ok (doc, _) => Ok doc | Raise e => Raise e end, snd r).

Section CompileDisabled.
Variable decrypt : pyobj -> pyobj -> outcome pyobj.

Lemma disable_literal (p : ParameterObj.t) (w : World) :
  literal_disable p = true ->
  SSMParameter_disable decrypt p w = (Ok (disabled p, p), w).
Proof.
  unfold literal_disable, disabled, SSMParameter_disable.
  destruct p as [n t v a d k o dis ver date user]. simpl.
  destruct dis; intros L; try discriminate L; reflexivity.
Qed.

Lemma compile_entry_seen (ignore_disabled : bool) (doc : Dict.t)
      (seen : list ParameterObj.t) (p : ParameterObj.t) (w : World) :
  compile_entry decrypt ignore_disabled (doc, seen) p w
  = match compile_entry decrypt ignore_disabled (doc, []) p w with
    | (Ok (d, s), w') => (Ok (d, seen ++ s)%list, w')
    | (Raise e, w') => (Raise e, w')
    end.
Proof.
  unfold compile_entry, bind.
  destruct (SSMParameter_disable decrypt p w) as [[[d p1]|e] w1]; [|reflexivity].
  destruct (d && ignore_disabled); [reflexivity|].
  destruct (SSMParameter_dump decrypt p1 w1) as [[[data p2]|e] w2];
    [|reflexivity].
  destruct (Dict.get data "Name"); reflexivity.
Qed.

Lemma compile_kept_entries (ps : list ParameterObj.t) :
  forall doc seen1 seen2 w,
    forallb literal_disable ps = true ->
    document_of (foldM (compile_entry decrypt true) ps (doc, seen1) w)
    = document_of
        (foldM (compile_entry decrypt false)
               (filter (fun p => negb (disabled p)) ps) (doc, seen2) w).
Proof.
  induction ps as [|p ps IH]; intros doc seen1 seen2 w L; [reflexivity|].
  simpl in L. apply andb_prop in L. destruct L as [Lp L].
  cbn [filter foldM].
  destruct (disabled p) eqn:D; cbn [negb].
  - assert (E : compile_entry decrypt true (doc, seen1) p w
                = (Ok (doc, (seen1 ++ [p])%list), w)).
    { unfold compile_entry. rewrite (bind_ok _ _ (disable_literal p w Lp)).
      rewrite D. reflexivity. }
    rewrite (bind_ok _ _ E). apply IH. exact L.
  - cbn [foldM].
    assert (E : forall ig, compile_entry decrypt ig (doc, []) p w
                           = compile_entry decrypt false (doc, []) p w).
    { intros ig. unfold compile_entry.
      rewrite !(bind_ok _ _ (disable_literal p w Lp)). rewrite D. reflexivity. }
    unfold bind.
    rewrite (compile_entry_seen true doc seen1),
      (compile_entry_seen false doc seen2), (E true).
    destruct (compile_entry decrypt false (doc, []) p w) as [[[d s]|e] w'];
      [|reflexivity].
    apply IH. exact L.
Qed.

(** X13.  For parameters whose [Disable] attribute is a plain value,
    compiling with [ignore_disabled] gives the document, or the error, and
    the state that compiling only the parameters that are not disabled
    gives: a disabled parameter is left out and is not read. *)
Theorem compile_parameter_file_ignores_disabled
        (ps : list ParameterObj.t) (flush : pyobj) (w : World) :
  forallb literal_disable ps = true ->
  document_of (compile_parameter_file decrypt ps flush true w)
  = document_of
      (compile_parameter_file decrypt
         (filter (fun p => negb (disabled p)) ps) flush false w).
Proof.
  intros L. unfold compile_parameter_file. apply compile_kept_entries. exact L.
Qed.

End CompileDisabled.

(** X13 at a disabled parameter without a value next to a plain one: the
    document holds the plain one only. *)
Lemma compile_parameter_file_ignores_disabled_witness :
  document_of
    (compile_parameter_file decrypt_const
       [valueless_parameter "/app/off" (OBool true);
        plain_parameter "/app/name" "demo"] ONone true sample_world)
  = (Ok [("/app/name", ODict [("Type", OStr "String"); ("Value", OStr "demo")])],
     sample_world).
Proof.
  rewrite (compile_parameter_file_ignores_disabled decrypt_const
             [valueless_parameter "/app/off" (OBool true);
              plain_parameter "/app/name" "demo"] ONone sample_world eq_refl).
  reflexivity.
Defined.

(** *** [parse_parameter_file]: the fragment of an entry, and [.FLUSH] *)

Lemma Dict_lookup_none (d : Dict.t) (k : string) :
  Dict.lookup d k = None <-> ~ In k (Dict.keys d).
Proof.
  induction d as [|[k' v'] d IH]; simpl; [tauto|].
  destruct (String.eqb_spec k k') as [E|E].
  - split; [discriminate|]. intros N. exfalso. apply N. left. symmetry. exact E.
  - rewrite IH. split.
    + intros N [H|H]; [apply E; symmetry; exact H|exact (N H)].
    + intros N H. apply N. right. exact H.
Qed.

(** In [d.update(e)] the last value that [e] lists for a key wins. *)
Lemma Dict_lookup_update (e : Dict.t) :
  forall (d : Dict.t) (k : string),
    Dict.lookup (Dict.update d e) k
    = match Dict.lookup (rev e) k with
      | Some v => Some v
      | None => Dict.lookup d k
      end.
Proof.
  unfold Dict.update.
  induction e as [|[k0 v0] e IH]; intros d k; [reflexivity|].
  cbn [fold_left fst snd rev]. rewrite IH, Dict_lookup_app.
  destruct (Dict.lookup (rev e) k); [reflexivity|].
  cbn [Dict.lookup]. destruct (String.eqb_spec k k0) as [E|E].
  - subst k0. apply Dict_lookup_set_same.
  - apply Dict_lookup_set_other. apply String.eqb_neq. exact E.
Qed.

Lemma Dict_lookup_rev (e : Dict.t) (k : string) :
  NoDup (Dict.keys e) -> Dict.lookup (rev e) k = Dict.lookup e k.
Proof.
  induction e as [|[k0 v0] e IH]; intros N; [reflexivity|].
  inversion N as [|x l NI N']. subst.
  cbn [rev]. rewrite Dict_lookup_app, (IH N'). cbn [Dict.lookup].
  destruct (String.eqb_spec k k0) as [E|E].
  - subst k0. apply Dict_lookup_none in NI. rewrite NI. reflexivity.
  - destruct (Dict.lookup e k); reflexivity.
Qed.

(** X14.  The mapping that [parse_parameter_file] hands to
    [SSMParameter.load] for an entry: a field of the entry wins over the
    same field of [.COMMON], which wins over the [Name] that the key of the
    entry supplies; no other field exists. *)
Theorem entry_fragment_precedence (name : string) (common data : Dict.t) :
  NoDup (Dict.keys common) ->
  NoDup (Dict.keys data) ->
  exists m,
    entry_fragment name (ODict common) (ODict data) = Ok m /\
    forall k,
      Dict.lookup m k
      = match Dict.lookup data k with
        | Some v => Some v
        | None =>
            match Dict.lookup common k with
            | Some v => Some v
            | None => if k =? "Name" then Some (OStr name) else None
            end
        end.
Proof.
  intros NC ND. eexists. split; [reflexivity|]. intros k.
  rewrite !Dict_lookup_update, (Dict_lookup_rev _ _ NC), (Dict_lookup_rev _ _ ND).
  reflexivity.
Qed.

(** X14 at an entry that sets [Description] under a [.COMMON] that sets
    [Description] and [Name]. *)
Lemma entry_fragment_precedence_witness :
  exists m,
    entry_fragment "/app/port"
      (ODict [("Description", OStr "demo"); ("Name", OStr "/other")])
      (ODict [("Value", OStr "8080"); ("Description", OStr "port")]) = Ok m /\
    Dict.lookup m "Description" = Some (OStr "port") /\
    Dict.lookup m "Name" = Some (OStr "/other") /\
    Dict.lookup m "Type" = None.
Proof.
  assert (N1 : NoDup (Dict.keys [("Description", OStr "demo");
                                 ("Name", OStr "/other")])).
  { repeat constructor; simpl; intuition discriminate. }
  assert (N2 : NoDup (Dict.keys [("Value", OStr "8080");
                                 ("Description", OStr "port")])).
  { repeat constructor; simpl; intuition discriminate. }
  destruct (entry_fragment_precedence "/app/port" _ _ N1 N2) as [m [E L]].
  exists m. split; [exact E|].
  rewrite !L. repeat split; reflexivity.
Defined.

Lemma parse_entries_dotted (common : pyobj) (v : bool) (k : string)
      (x y : pyobj) (obj : Dict.t) :
  startswith k "." = true ->
  forall acc w,
    foldM (parse_entry common v) (Dict.set obj k x) acc w
    = foldM (parse_entry common v) (Dict.set obj k y) acc w.
Proof.
  intros D. induction obj as [|[k' v'] obj IH]; intros acc w.
  - simpl. unfold parse_entry. simpl fst. rewrite D. reflexivity.
  - cbn [Dict.set]. destruct (String.eqb_spec k k') as [E|E].
    + subst k'. cbn [foldM]. unfold parse_entry at 1 3. simpl fst.
      rewrite D. reflexivity.
    + cbn [foldM]. unfold bind.
      destruct (parse_entry common v acc (k', v') w) as [[a|e] w1];
        [apply IH|reflexivity].
Qed.

(** X15.  A [.FLUSH] field that is one string stands for the list of that
    string: both documents parse alike, and the flush paths of the result
    are the one-element list. *)
Theorem parse_parameter_file_flush_string
        (obj : Dict.t) (path : string) (vars_in_name_only : bool) (w : World) :
  parse_parameter_file (ODict (Dict.set obj FLUSH_KEY (OStr path)))
                       vars_in_name_only w
  = parse_parameter_file (ODict (Dict.set obj FLUSH_KEY (OList [OStr path])))
                         vars_in_name_only w /\
  forall d w',
    parse_parameter_file (ODict (Dict.set obj FLUSH_KEY (OStr path)))
                         vars_in_name_only w = (Ok d, w') ->
    flush d = OList [OStr path].
Proof.
  assert (E : forall x,
             parse_parameter_file (ODict (Dict.set obj FLUSH_KEY x))
                                  vars_in_name_only w
             = bind (lift (Input_load (Dict.get_default obj INPUT_KEY (ODict []))))
                 (fun inputs =>
                    bind (foldM (parse_entry
                                   (Dict.get_default obj COMMON_KEY (ODict []))
                                   vars_in_name_only)
                                (Dict.set obj FLUSH_KEY x) [])
                      (fun parameters =>
                         ret (mkParameterFileData inputs parameters
                                (if is_str x then OList [x] else x)))) w).
  { intros x. unfold parse_parameter_file, Dict.get_default.
    rewrite Dict_lookup_set_same.
    rewrite !Dict_lookup_set_other by reflexivity. reflexivity. }
  split.
  - rewrite !E. unfold bind.
    destruct (lift _ w) as [[inputs|e] w1]; [|reflexivity].
    rewrite (parse_entries_dotted _ _ FLUSH_KEY (OStr path) (OList [OStr path]))
      by reflexivity.
    reflexivity.
  - intros d w'. rewrite E. intros H.
    apply bind_inv in H. destruct H as (inputs & w1 & _ & H).
    apply bind_inv in H. destruct H as (parameters & w2 & _ & H).
    inversion H. reflexivity.
Qed.

(** *** [Input]: loading, merging and reading *)

Lemma assoc_lookup_set_same {V} (d : list (string * V)) (k : string) (v : V) :
  assoc_lookup (assoc_set d k v) k = Some v.
Proof.
  induction d as [|[k' v'] d IH]; simpl.
  - rewrite String.eqb_refl. reflexivity.
  - destruct (k =? k') eqn:E; simpl; rewrite E; [reflexivity|exact IH].
Qed.

Lemma assoc_lookup_set_other {V} (d : list (string * V)) (k k' : string) (v : V) :
  k' <> k -> assoc_lookup (assoc_set d k v) k' = assoc_lookup d k'.
Proof.
  intros N. apply String.eqb_neq in N.
  induction d as [|[k0 v0] d IH]; simpl.
  - rewrite N. reflexivity.
  - destruct (String.eqb_spec k k0) as [E|E]; simpl.
    + subst k0. rewrite N. reflexivity.
    + rewrite IH. reflexivity.
Qed.

(** An invariant of every entry of a dictionary of Inputs that a loop
    maintains. *)
Lemma fold_outcome_invariant {A B} (f : A -> B -> outcome A) (P : A -> Prop) :
  (forall a b a', P a -> f a b = Ok a' -> P a') ->
  forall l a a', P a -> fold_outcome f l a = Ok a' -> P a'.
Proof.
  intros F. induction l as [|b l IH]; intros a a' Pa H; simpl in H.
  - inversion H. subst. exact Pa.
  - destruct (f a b) as [a1|e] eqn:E; simpl in H; [|discriminate H].
    exact (IH a1 a' (F a b a1 Pa E) H).
Qed.



(** X17.  [Input.get_value] with a key id decrypts at most once: when a call
    returns a value that is neither [None] nor empty, every later call with
    a key id, whatever the key id, returns that value without calling the
    provider. *)
Theorem Input_get_value_decrypts_once
        (decrypt : pyobj -> pyobj -> outcome pyobj)
        (i i' : InputObj.t) (key_id v : pyobj) :
  truthy key_id = true ->
  Input_get_value decrypt i key_id = Ok (v, i') ->
  truthy v = true ->
  forall (decrypt' : pyobj -> pyobj -> outcome pyobj) (key_id' : pyobj),
    truthy key_id' = true ->
    Input_get_value decrypt' i' key_id' = Ok (v, i').
Proof.
  intros K G T decrypt' key_id' K'. unfold Input_get_value in *.
  rewrite K in G. rewrite K'.
  destruct (truthy (InputObj._decrypted_value i)) eqn:D; cbn [negb] in G.
  - inversion G. subst. rewrite D. reflexivity.
  - destruct (if truthy (InputObj._encrypted_value i)
              then decrypt (InputObj._encrypted_value i) key_id
              else decrypt (InputObj._value i) key_id) as [plain|e];
      [|discriminate G].
    simpl in G. inversion G. subst. simpl. rewrite T. reflexivity.
Qed.

(** A provider that fails on every call. *)
Definition decrypt_never (ciphertext key_id : pyobj) : outcome pyobj :=
  Raise (ValueError "no provider" ONone).

(** X17 at an Input given as a ciphertext: after a first read the plaintext
    is returned under another key id, by a provider that always fails. *)
Lemma Input_get_value_decrypts_once_witness :
  let token := Input_set_value
                 (Input_init "Token" (OStr "SecureString") ONone ONone ONone)
                 (OStr "AQICAHh") (OBool true) in
  let token' := InputObj.set__decrypted_value token (OStr "plaintext") in
  Input_get_value decrypt_never token' (OStr "alias/other")
  = Ok (OStr "plaintext", token').
Proof.
  intros token token'.
  apply (Input_get_value_decrypts_once decrypt_const token token'
           (OStr "alias/app") (OStr "plaintext")); reflexivity.
Defined.

(** The attributes of an Input that hold its identity and its value. *)
Definition same_value (i i' : InputObj.t) : Prop :=
  InputObj.name i' = InputObj.name i /\
  InputObj.type i' = InputObj.type i /\
  InputObj.default i' = InputObj.default i /\
  InputObj._value i' = InputObj._value i /\
  InputObj._encrypted_value i' = InputObj._encrypted_value i /\
  InputObj._decrypted_value i' = InputObj._decrypted_value i.

Lemma same_value_refl (i : InputObj.t) : same_value i i.
Proof. repeat split. Qed.

Lemma merge_input_keeps (inputs inputs' : list (string * InputObj.t))
      (item : string * InputObj.t) :
  merge_input inputs item = Ok inputs' ->
  forall n i, assoc_lookup inputs n = Some i ->
              exists i', assoc_lookup inputs' n = Some i' /\ same_value i i'.
Proof.
  destruct item as [name j]. unfold merge_input. cbn [fst snd]. intros H n i L.
  destruct (String.eqb_spec n name) as [E|E].
  - subst n. rewrite L in H.
    destruct (negb (py_eqb (InputObj.type i) (InputObj.type j)));
      [discriminate H|].
    destruct (truthy (InputObj.pattern i) && truthy (InputObj.pattern j)
              && negb (py_eqb (InputObj.pattern i) (InputObj.pattern j)));
      [discriminate H|].
    inversion H. subst inputs'. rewrite assoc_lookup_set_same.
    eexists. split; [reflexivity|].
    destruct (truthy (InputObj.pattern j) && negb (truthy (InputObj.pattern i)));
      match goal with
      | |- context [if ?c then _ else _] => destruct c
      end; repeat split.
  - exists i. split; [|apply same_value_refl].
    destruct (assoc_lookup inputs name) as [i0|].
    + destruct (negb (py_eqb (InputObj.type i0) (InputObj.type j)));
        [discriminate H|].
      destruct (truthy (InputObj.pattern i0) && truthy (InputObj.pattern j)
                && negb (py_eqb (InputObj.pattern i0) (InputObj.pattern j)));
        [discriminate H|].
      inversion H. rewrite assoc_lookup_set_other by exact E. exact L.
    + inversion H. rewrite assoc_lookup_set_other by exact E. exact L.
Qed.

Lemma same_value_trans (i j k : InputObj.t) :
  same_value i j -> same_value j k -> same_value i k.
Proof.
  unfold same_value. intros (A1 & A2 & A3 & A4 & A5 & A6)
                            (B1 & B2 & B3 & B4 & B5 & B6).
  repeat split; congruence.
Qed.

(** X18.  [Input.merge_inputs] keeps every Input that the first dictionary
    holds, under the same name and with the same name, type, default and
    values: merging the declarations of a file into the Inputs given on the
    command line never discards a given value. *)
Theorem merge_inputs_keeps_values
        (inputs inputs_to_merge merged : list (string * InputObj.t))
        (n : string) (i : InputObj.t) :
  Input_merge_inputs inputs inputs_to_merge = Ok merged ->
  assoc_lookup inputs n = Some i ->
  exists i', assoc_lookup merged n = Some i' /\ same_value i i'.
Proof.
  unfold Input_merge_inputs. intros H L.
  apply (fold_outcome_invariant merge_input
           (fun a => exists i', assoc_lookup a n = Some i' /\ same_value i i'))
    with (l := inputs_to_merge) (a := inputs); [| |exact H].
  - intros a b a' [i1 [L1 S1]] M.
    destruct (merge_input_keeps a a' b M n i1 L1) as [i2 [L2 S2]].
    exists i2. split; [exact L2|exact (same_value_trans _ _ _ S1 S2)].
  - exists i. split; [exact L|apply same_value_refl].
Qed.

(** X18 at the Input [path] given on the command line, merged with a file
    that declares [path] with a description. *)
Lemma merge_inputs_keeps_values_witness :
  exists i',
    Input_merge_inputs
      [("path", path_input)]
      [("path", Input_init "path" ONone ONone (OStr "install dir") ONone)]
    = Ok [("path", i')] /\
    InputObj._value i' = OStr windows_path /\
    InputObj.description i' = OStr "install dir".
Proof.
  destruct (merge_inputs_keeps_values
              [("path", path_input)]
              [("path", Input_init "path" ONone ONone (OStr "install dir") ONone)]
              _ "path" path_input eq_refl eq_refl) as [i' [L S]].
  exists i'. simpl in L. inversion L. subst i'.
  split; [reflexivity|]. split; reflexivity.
Defined.

(** *** Resolution without prompting *)



Section NoPrompt.
Variable re_search : pyobj -> pyobj -> outcome bool.





End NoPrompt.

(** *** Prompting *)

Lemma is_lit_SecureString_not_String (x : pyobj) :
  is_lit x "SecureString" = true -> is_lit x "String" = false.
Proof.
  unfold is_lit.
  destruct x as [| | |s| | |s names k c]; simpl; try discriminate;
    try (destruct b; discriminate);
    intros H; apply String.eqb_eq in H; subst s; reflexivity.
Qed.

Section Prompting.
Variable re_search : pyobj -> pyobj -> outcome bool.

(** What a successful [_prompt_for_string] did: it took the next line
    from the terminal, and its answer is the default when the line is empty
    and there is a default, else the line. *)
Lemma prompt_for_string_answer
      (self : InputObj.t) (echo v : pyobj) (w w' : World) :
  Input__prompt_for_string re_search self echo w = (Ok v, w') ->
  exists line rest,
    stdin w = line :: rest /\
    w' = with_terminal w rest
           (terminal w
            ++ [ReadLine (truthy echo)
                         (EnterPrompt (InputObj.name self) (InputObj.type self)
                                      (InputObj.description self))])%list /\
    v = (if (line =? "") && truthy (InputObj.default self)
         then InputObj.default self else OStr line).
Proof.
  unfold Input__prompt_for_string, bind, read_line. intros H.
  destruct (stdin w) as [|line rest]; [discriminate H|].
  exists line, rest. split; [reflexivity|].
  change (truthy (OStr line)) with (negb (line =? "")) in H.
  rewrite Bool.negb_involutive in H.
  destruct ((line =? "") && truthy (InputObj.default self)).
  - inversion H. split; reflexivity.
  - unfold lift in H.
    destruct (pattern_rejects re_search self (OStr line)) as [[]|];
      try discriminate H.
    inversion H. split; reflexivity.
Qed.

(** X20.  [set_value_from_prompt] on a [SecureString] Input takes one line
    from the terminal, with echo only when an [echo] setting asks for it
    (getpass when [echo] is [None]), and stores the answer (the line, or the
    default when the line is empty and there is a default) as the decrypted
    value, changing nothing else of the Input or of the state: [_value] and
    [_encrypted_value] are untouched, so [value_is_set()] answers as before,
    and an answer that is not empty is what [get_value] returns for any key
    id, without a call to the provider. *)
Theorem secure_prompt_stores_plaintext
        (i i' : InputObj.t) (echo : pyobj) (w w' : World) :
  is_lit (InputObj.type i) "SecureString" = true ->
  Input_set_value_from_prompt re_search i echo w = (Ok i', w') ->
  (exists line rest,
      stdin w = line :: rest /\
      w' = with_terminal w rest
             (terminal w
              ++ [ReadLine (if is_none echo then false else truthy echo)
                           (EnterPrompt (InputObj.name i) (InputObj.type i)
                                        (InputObj.description i))])%list /\
      i' = InputObj.set__decrypted_value i
             (if (line =? "") && truthy (InputObj.default i)
              then InputObj.default i else OStr line)) /\
  terminal w'
  = (terminal w
     ++ [ReadLine (if is_none echo then false else truthy echo)
                  (EnterPrompt (InputObj.name i) (InputObj.type i)
                               (InputObj.description i))])%list /\
  InputObj._value i' = InputObj._value i /\
  Input_value_is_set i' = Input_value_is_set i /\
  InputObj._encrypted_value i' = InputObj._encrypted_value i /\
  (truthy (InputObj._decrypted_value i') = true ->
   forall (decrypt : pyobj -> pyobj -> outcome pyobj) (key_id : pyobj),
     truthy key_id = true ->
     Input_get_value decrypt i' key_id
     = Ok (InputObj._decrypted_value i', i')).
Proof.
  intros S H. unfold Input_set_value_from_prompt in H.
  rewrite (is_lit_SecureString_not_String _ S), S in H.
  apply bind_inv in H. destruct H as (v & w1 & P & H).
  inversion H. subst i' w1. clear H.
  destruct (prompt_for_string_answer _ _ _ _ _ P) as (line & rest & L & W & V).
  assert (E : truthy (if is_none echo then OBool false else echo)
              = (if is_none echo then false else truthy echo))
    by (destruct (is_none echo); reflexivity).
  rewrite E in W.
  split.
  { exists line, rest. split; [exact L|]. split; [exact W|].
    rewrite V. reflexivity. }
  split; [rewrite W; reflexivity|].
  split; [reflexivity|]. split; [reflexivity|]. split; [reflexivity|].
  cbn. intros TV decrypt key_id K. unfold Input_get_value. rewrite K.
  cbn. rewrite TV. reflexivity.
Qed.



End Prompting.

(** A [SecureString] Input without a value. *)
Definition token_input : InputObj.t :=
  Input_init "Token" (OStr "SecureString") ONone ONone ONone.

(** X20 with [s3cret] typed at the prompt: the line is taken without echo
    and stored as the decrypted value of the Input, which stays unset. *)
Lemma secure_prompt_stores_plaintext_witness :
  exists i' w',
    Input_set_value_from_prompt search_any token_input ONone
                                (initial_world ONone ONone ["s3cret"; "next"])
    = (Ok i', w') /\
    i' = InputObj.set__decrypted_value token_input (OStr "s3cret") /\
    stdin w' = ["next"] /\
    terminal w'
    = [ReadLine false (EnterPrompt "Token" (OStr "SecureString") ONone)] /\
    truthy (Input_value_is_set i') = false /\
    Input_get_value decrypt_never i' (OStr "alias/app")
    = Ok (OStr "s3cret", i').
Proof.
  destruct (Input_set_value_from_prompt search_any token_input ONone
              (initial_world ONone ONone ["s3cret"; "next"]))
    as [[i'|e] w'] eqn:P; [|vm_compute in P; discriminate P].
  exists i', w'. split; [reflexivity|].
  destruct (secure_prompt_stores_plaintext search_any token_input i' ONone
              _ w' eq_refl P) as [(line & rest & L & W & I) [T [_ [U [_ G]]]]].
  inversion L. subst line rest.
  assert (V : InputObj._decrypted_value i' = OStr "s3cret")
    by (rewrite I; reflexivity).
  split; [exact I|]. split; [rewrite W; reflexivity|].
  split; [exact T|]. split; [rewrite U; reflexivity|].
  rewrite (G (eq_trans (f_equal truthy V) eq_refl) decrypt_never
             (OStr "alias/app") eq_refl).
  rewrite V. reflexivity.
Defined.


(** *** [SSMClient.batch_put] on parameters without references *)

Section BatchPutOnce.
Variable decrypt : pyobj -> pyobj -> outcome pyobj.

(** X22.  Take parameter mappings, each paired with its name, that are
    plain ([plain_fragment]): [Name] is that name, a string without
    variable references; there is no [Disable] and no [Disabled] field;
    [Type] is absent, [None] or a string; [AllowedPattern] is absent, [None]
    or a string without references; and either the type is [SecureString]
    (declared, or not declared next to a [KeyId]) with [KeyId] and
    [EncryptedValue] strings without references, or there is no [KeyId] and
    [Value] is a string without references or, under a declared [Type], a
    list of such strings.  Each mapping loads, leaving the state as it was,
    to the parameter [loaded_parameter].  For these parameters [batch_put]
    returns, and it sends the requests of all the parameters, in order,
    once for every chunk of ten; so up to ten parameters are each sent
    exactly once. *)
Theorem batch_put_sends_once_per_chunk
        (items : list (string * Dict.t)) (w : World) :
  plain_items items = true ->
  (forall item,
      In item items ->
      SSMParameter_load (snd item) false w
      = (Ok (loaded_parameter (snd item)), w)) /\
  SSMClient_batch_put decrypt (loaded_items items) w
  = (Ok (loaded_items items),
     with_put_requests w
       (put_requests w
        ++ List.concat (repeat (map (plain_request (OVERWRITE_DEFAULT w)) items)
                          ((List.length items + 9) / 10)))%list) /\
  (List.length items <= 10 ->
   SSMClient_batch_put decrypt (loaded_items items) w
   = (Ok (loaded_items items),
      with_put_requests w
        (put_requests w
         ++ map (plain_request (OVERWRITE_DEFAULT w)) items)%list)).
Proof.
  intros P. pose proof (batch_put_loaded decrypt items w P) as B.
  split.
  { intros item I. unfold plain_items in P.
    rewrite forallb_forall in P.
    exact (load_plain_fragment (fst item) (snd item) w (P item I)). }
  split; [exact B|]. intros L. rewrite B.
  destruct items as [|item items]; [reflexivity|].
  assert (E : (List.length (item :: items) + 9) / 10 = 1).
  { cbn [List.length] in *.
    symmetry. apply Nat.div_unique with (r := List.length items); lia. }
  rewrite E. cbn [repeat List.concat]. rewrite app_nil_r. reflexivity.
Qed.

End BatchPutOnce.

(** X22 at two fragments: two requests, the second with [Overwrite]. *)
Lemma batch_put_sends_once_per_chunk_witness :
  let items := [("/app/name", [("Name", OStr "/app/name");
                               ("Type", OStr "String"); ("Value", OStr "demo")]);
                ("/app/port", [("Name", OStr "/app/port");
                               ("Type", OStr "String"); ("Value", OStr "8080");
                               ("Overwrite", OBool true)])] in
  put_requests
    (snd (SSMClient_batch_put decrypt_const (loaded_items items) sample_world))
  = [[("Name", OStr "/app/name"); ("Type", OStr "String");
      ("Value", OStr "demo")];
     [("Name", OStr "/app/port"); ("Type", OStr "String");
      ("Value", OStr "8080"); ("Overwrite", OBool true)]].
Proof.
  intros items.
  destruct (batch_put_sends_once_per_chunk decrypt_const items sample_world
              eq_refl) as [_ [_ H]].
  rewrite H; [reflexivity|]. simpl. lia.
Defined.

(** *** The Inputs of the command line ([cli.py]) *)

Lemma fold_set_other {V} (g : string * string -> V) (n : string)
      (l : list (string * string)) :
  forall acc,
    ~ In n (map fst l) ->
    assoc_lookup
      (fold_left (fun acc item => assoc_set acc (fst item) (g item)) l acc) n
    = assoc_lookup acc n.
Proof.
  induction l as [|[k v] l IH]; intros acc N; [reflexivity|].
  cbn [fold_left fst]. rewrite IH.
  - apply assoc_lookup_set_other. intros E. apply N. left. symmetry. exact E.
  - intros I. apply N. right. exact I.
Qed.

Lemma fold_set_last {V} (g : string * string -> V) (n v : string)
      (before after : list (string * string)) (acc : list (string * V)) :
  ~ In n (map fst after) ->
  assoc_lookup
    (fold_left (fun acc item => assoc_set acc (fst item) (g item))
               (before ++ (n, v) :: after)%list acc) n
  = Some (g (n, v)).
Proof.
  intros N. rewrite fold_left_app. cbn [fold_left fst].
  rewrite (fold_set_other g n after _ N). apply assoc_lookup_set_same.
Qed.

Section CommandLine.
Variable re_search : pyobj -> pyobj -> outcome bool.

(** X23.  [load_inputs_from_args] needs a namespace with the attribute
    [secure_input]: without it (the parser of [delete_main], which calls
    [add_input_args] with [secure=False]) it raises [AttributeError].  With
    it, a name given by [--input] with a value that is not empty, not given
    again later and not given by [--secure-input], resolves to that value:
    the resolver returns its Input without prompting and without touching
    the state, whatever the prompt settings. *)
Theorem load_inputs_from_args_resolves_given_input (args : Namespace) :
  match args_secure_input args with
  | None => load_inputs_from_args args = Raise (AttributeError "secure_input")
  | Some secure_input =>
      exists inputs,
        load_inputs_from_args args = Ok inputs /\
        forall n v before after,
          args_input args = (before ++ (n, v) :: after)%list ->
          ~ In n (map fst after) ->
          ~ In n (map fst secure_input) ->
          v <> "" ->
          exists i,
            (forall prompt echo w,
                Input_get_resolver re_search inputs prompt echo n w
                = (Ok (BoundInput i, inputs), w)) /\
            (forall decrypt, Input_get_value decrypt i ONone = Ok (OStr v, i))
  end.
Proof.
  unfold load_inputs_from_args.
  destruct (args_secure_input args) as [secure_input|]; [|reflexivity].
  eexists. split; [reflexivity|].
  intros n v before after E NA NS NE.
  eexists. split.
  - intros prompt echo w. unfold Input_get_resolver.
    rewrite (fold_set_other _ n secure_input _ NS), E.
    rewrite (fold_set_last _ n v before after [] NA).
    unfold resolver_found.
    assert (T : truthy (Input_value_is_set
                          (Input_set_value
                             (Input_init n (OStr "String") ONone ONone ONone)
                             (OStr v) ONone)) = true).
    { apply String.eqb_neq in NE.
      unfold Input_value_is_set, Input_set_value, Input_init. simpl.
      rewrite NE. simpl. rewrite NE. reflexivity. }
    cbn [fst snd]. rewrite T. reflexivity.
  - intros decrypt. reflexivity.
Qed.

End CommandLine.

(** *** Loading several parameter files ([cli.py]) *)

Lemma foldM_app {A B} (f : A -> B -> M A) (l1 l2 : list B) :
  forall a w,
    foldM f (l1 ++ l2)%list a w = bind (foldM f l1 a) (foldM f l2) w.
Proof.
  induction l1 as [|x l1 IH]; intros a w; [reflexivity|].
  cbn [app foldM]. rewrite bind_assoc.
  destruct (f a x w) as [[a1|e] w1] eqn:E.
  - rewrite !(bind_ok _ _ E). apply IH.
  - rewrite !(bind_raise _ _ E). reflexivity.
Qed.

Lemma assoc_lookup_app {V} (a b : list (string * V)) (k : string) :
  assoc_lookup (a ++ b)%list k
  = match assoc_lookup a k with Some v => Some v | None => assoc_lookup b k end.
Proof.
  induction a as [|[k' v'] a IH]; simpl; [reflexivity|].
  destruct (k =? k'); [reflexivity|exact IH].
Qed.

Lemma assoc_lookup_update {V} (e : list (string * V)) :
  forall (d : list (string * V)) (k : string),
    assoc_lookup (assoc_update d e) k
    = match assoc_lookup (rev e) k with
      | Some v => Some v
      | None => assoc_lookup d k
      end.
Proof.
  unfold assoc_update.
  induction e as [|[k0 v0] e IH]; intros d k; [reflexivity|].
  cbn [fold_left fst snd rev]. rewrite IH, assoc_lookup_app.
  destruct (assoc_lookup (rev e) k); [reflexivity|].
  cbn [assoc_lookup]. destruct (String.eqb_spec k k0) as [E|E].
  - subst k0. apply assoc_lookup_set_same.
  - apply assoc_lookup_set_other. exact E.
Qed.

Lemma assoc_lookup_rev {V} (e : list (string * V)) (k : string) :
  NoDup (map fst e) -> assoc_lookup (rev e) k = assoc_lookup e k.
Proof.
  induction e as [|[k0 v0] e IH]; intros N; [reflexivity|].
  inversion N as [|x l NI N']. subst.
  cbn [rev]. rewrite assoc_lookup_app, (IH N'). cbn [assoc_lookup].
  destruct (String.eqb_spec k k0) as [E|E].
  - subst k0. apply assoc_lookup_none in NI. rewrite NI. reflexivity.
  - destruct (assoc_lookup e k); reflexivity.
Qed.

Lemma assoc_set_nodup {V} (d : list (string * V)) (k : string) (v : V) :
  NoDup (map fst d) -> NoDup (map fst (assoc_set d k v)).
Proof.
  intros N. destruct (assoc_lookup d k) as [x|] eqn:L.
  - rewrite (assoc_set_keys_bound d k x v L). exact N.
  - apply assoc_lookup_none in L. rewrite (assoc_set_keys_fresh d k v L).
    apply NoDup_app; [exact N|repeat constructor; intros []|].
    intros a I [E|[]]. subst a. exact (L I).
Qed.

Lemma parse_entries_nodup (common : pyobj) (v : bool)
      (items : list (string * pyobj)) :
  forall acc w acc' w',
    foldM (parse_entry common v) items acc w = (Ok acc', w') ->
    NoDup (map fst acc) -> NoDup (map fst acc').
Proof.
  induction items as [|item items IH]; intros acc w acc' w' H N.
  - inversion H. subst. exact N.
  - cbn [foldM] in H. apply bind_inv in H. destruct H as (acc1 & w1 & E & H).
    apply (IH _ _ _ _ H).
    apply parse_entry_keys in E.
    destruct (parameter_key (fst item)).
    + destruct E as [p E]. subst acc1. apply assoc_set_nodup. exact N.
    + subst acc1. exact N.
Qed.

Lemma parse_parameter_file_nodup (obj : pyobj) (v : bool) (w w' : World)
      (data : ParameterFileData) :
  parse_parameter_file obj v w = (Ok data, w') ->
  NoDup (map fst (parameters data)).
Proof.
  unfold parse_parameter_file. destruct obj; try discriminate. intros H.
  apply bind_inv in H. destruct H as (inputs1 & w1 & _ & H).
  apply bind_inv in H. destruct H as (ps & w2 & E & H).
  inversion H. subst. simpl.
  apply (parse_entries_nodup _ _ _ _ _ _ _ E). constructor.
Qed.

(** X24.  [load_parameter_files] treats each further file like this: it
    announces the file, parses it, merges its Inputs into those collected so
    far, lets its parameters replace the parameters of the same name of the
    files before it and keeps the others, and appends its flush paths. *)
Theorem load_parameter_files_later_file_wins
        (files : list (string * pyobj)) (name : string) (doc : pyobj)
        (inputs0 : list (string * InputObj.t))
        (d : ParameterFileData) (w w' : World) :
  load_parameter_files (files ++ [(name, doc)])%list inputs0 w = (Ok d, w') ->
  exists d0 w0 data paths0 paths,
    load_parameter_files files inputs0 w = (Ok d0, w0) /\
    parse_parameter_file doc false
      (with_terminal w0 (stdin w0)
         (terminal w0 ++ [Printed ("Loading " ++ name ++ "...")])%list)
    = (Ok data, w') /\
    Input_merge_inputs (inputs d0) (inputs data) = Ok (inputs d) /\
    (forall n,
        assoc_lookup (parameters d) n
        = match assoc_lookup (parameters data) n with
          | Some p => Some p
          | None => assoc_lookup (parameters d0) n
          end) /\
    flush d0 = OList paths0 /\
    iterate (flush data) = Ok paths /\
    flush d = OList (paths0 ++ paths)%list.
Proof.
  unfold load_parameter_files. intros H.
  apply bind_inv in H. destruct H as ([[i1 p1] f1] & w1 & F & H).
  inversion H. subst d w1. clear H.
  rewrite foldM_app in F.
  apply bind_inv in F. destruct F as ([[i0 p0] f0] & w0 & F0 & F).
  cbn [foldM] in F. apply bind_inv in F. destruct F as (acc & w2 & S & F).
  inversion F. subst acc w2. clear F.
  unfold load_parameter_file in S. cbn [fst snd] in S.
  apply bind_inv in S. destruct S as ([] & w3 & P & S).
  apply bind_inv in S. destruct S as (data & w4 & D & S).
  apply bind_inv in S. destruct S as (inputs1 & w5 & M & S).
  apply bind_inv in S. destruct S as (more & w6 & I & S).
  inversion S. subst i1 p1 f1 w6. clear S.
  unfold lift in M, I. inversion M as [[M1 M2]]. inversion I as [[I1 I2]].
  subst w5 w4. inversion P. subst w3.
  exists (mkParameterFileData i0 p0 (OList f0)), w0, data, f0, more.
  split; [rewrite (bind_ok _ _ F0); reflexivity|].
  split; [exact D|]. split; [exact M1|]. split.
  - intros n. cbn [parameters].
    rewrite assoc_lookup_update.
    rewrite (assoc_lookup_rev _ _ (parse_parameter_file_nodup _ _ _ _ _ D)).
    reflexivity.
  - split; [reflexivity|]. split; [exact I1|reflexivity].
Qed.

(** Two documents that both define [/app/name]. *)
Definition base_document : pyobj :=
  ODict [(".FLUSH", OStr "/app"); ("/app/name", OStr "demo");
         ("/app/port", OStr "8080")].

Definition override_document : pyobj :=
  ODict [(".FLUSH", OList [OStr "/old"]); ("/app/name", OStr "prod")].

(** X24 at these two files: [/app/name] comes from the second, [/app/port]
    from the first, and both flush paths are kept. *)
Lemma load_parameter_files_later_file_wins_witness :
  exists d w',
    load_parameter_files ([("base.yaml", base_document)]
                          ++ [("prod.yaml", override_document)])%list
                         [] sample_world = (Ok d, w') /\
    assoc_lookup (parameters d) "/app/name"
    = Some (plain_parameter "/app/name" "prod") /\
    assoc_lookup (parameters d) "/app/port"
    = Some (plain_parameter "/app/port" "8080") /\
    flush d = OList [OStr "/app"; OStr "/old"].
Proof.
  destruct (load_parameter_files ([("base.yaml", base_document)]
                                  ++ [("prod.yaml", override_document)])%list
                                 [] sample_world) as [[d|e] w'] eqn:L;
    [|vm_compute in L; discriminate L].
  exists d, w'. split; [reflexivity|].
  destruct (load_parameter_files_later_file_wins _ _ _ _ _ _ _ L)
    as (d0 & w0 & data & paths0 & paths & L0 & P & _ & N & F0 & I & F).
  vm_compute in L0. inversion L0. subst d0 w0. clear L0.
  vm_compute in P. inversion P. subst data. clear P.
  rewrite !N, F.
  inversion F0. subst paths0. vm_compute in I. inversion I. subst paths.
  repeat split; reflexivity.
Defined.

(** *** [SSMClient.get], [SSMClient.get_path] and [SSMClient.delete_path] *)

Section RemoteProperties.
Variable get_parameter_history : pyobj -> M (list ParameterObj.t).
Variable get_parameters : list pyobj -> outcome (list pyobj * list Dict.t).
Variable pages : list (list Dict.t).

Lemma get_path_names (names_only full : bool) :
  names_only || full = true ->
  forall (ps : list (list Dict.t)) names parameters w,
    foldM (get_path_page names_only full) ps (names, parameters) w
    = (match item_names (List.concat ps) with
       | Ok more => Ok ((names ++ more)%list, parameters)
       | Raise e => Raise e
       end, w).
Proof.
  intros F. induction ps as [|page ps IH]; intros names parameters w.
  - simpl. rewrite app_nil_r. reflexivity.
  - cbn [foldM List.concat]. unfold get_path_page at 1. rewrite F.
    assert (A : forall a b,
               item_names (a ++ b)%list
               = obind (item_names a)
                       (fun x => obind (item_names b)
                                       (fun y => Ok (x ++ y)%list))).
    { induction a as [|item a IHa]; intros b.
      - simpl. destruct (item_names b); reflexivity.
      - simpl. destruct (subscript item "Name") as [n|e]; [|reflexivity].
        simpl. rewrite IHa. destruct (item_names a) as [x|e]; [|reflexivity].
        simpl. destruct (item_names b); reflexivity. }
    rewrite A. unfold bind at 1 2, lift.
    destruct (item_names page) as [more|e]; [|reflexivity].
    cbn [obind]. unfold ret. rewrite IH.
    destruct (item_names (List.concat ps)) as [rest|e]; [|reflexivity].
    cbn [obind]. rewrite app_assoc. reflexivity.
Qed.

Lemma get_full_fails (name : pyobj) (args : list pyobj) (w : World) :
  SSMClient_get get_parameter_history get_parameters (name :: args) true w
  = (Raise (TypeError "get_versions() got an unexpected keyword argument"
                      (OStr "with_decryption")), w).
Proof. reflexivity. Qed.

(** X25.  [get_path] under [full] hands the names it collected to [get],
    whose call of [get_versions] passes a keyword that [get_versions] does
    not take.  So [get_path(path, full=True)], the call of [download_main],
    returns only when the path holds no parameter, and then returns the
    empty list; when every item has a [Name] and there is at least one, it
    raises that [TypeError]. *)
Theorem get_path_full_returns_nothing (w : World) :
  (forall r w',
      SSMClient_get_path get_parameter_history get_parameters pages
                         false true w = (Ok r, w') ->
      r = inr [] /\ List.concat pages = [] /\ w' = w) /\
  (forall names,
      item_names (List.concat pages) = Ok names ->
      names <> [] ->
      SSMClient_get_path get_parameter_history get_parameters pages
                         false true w
      = (Raise (TypeError "get_versions() got an unexpected keyword argument"
                          (OStr "with_decryption")), w)).
Proof.
  assert (E : SSMClient_get_path get_parameter_history get_parameters pages
                                 false true w
              = match item_names (List.concat pages) with
                | Ok names =>
                    bind (SSMClient_get get_parameter_history get_parameters
                                        names true)
                         (fun parameters => ret (inr parameters)) w
                | Raise e => (Raise e, w)
                end).
  { unfold SSMClient_get_path. cbn [andb]. unfold bind at 1.
    rewrite (get_path_names false true eq_refl).
    destruct (item_names (List.concat pages)); reflexivity. }
  split.
  - intros r w' H. rewrite E in H.
    destruct (item_names (List.concat pages)) as [names|e] eqn:N;
      [|discriminate H].
    destruct names as [|name names].
    + inversion H. split; [reflexivity|]. split; [|reflexivity].
      destruct (List.concat pages) as [|item items]; [reflexivity|].
      simpl in N. destruct (subscript item "Name"); [|discriminate N].
      simpl in N. destruct (item_names items); discriminate N.
    + unfold bind in H. rewrite get_full_fails in H. discriminate H.
  - intros names N NE. rewrite E, N.
    destruct names as [|name names]; [contradiction|].
    unfold bind. rewrite get_full_fails. reflexivity.
Qed.

(** X26.  When every item that the paginator returns has a [Name],
    [delete_path] deletes exactly these names: each once, in the order of
    the responses, in requests of one to ten names, without changing the
    state of the program. *)
Theorem delete_path_deletes_the_names_found (names : list pyobj) (w : World) :
  item_names (List.concat pages) = Ok names ->
  exists requests,
    SSMClient_delete_path get_parameter_history get_parameters pages w
    = (Ok requests, w) /\
    List.concat requests = names /\
    Forall (fun chunk => 1 <= List.length chunk <= 10) requests.
Proof.
  intros N. exists (SSMClient_delete names). split.
  - unfold SSMClient_delete_path, SSMClient_get_path. cbn [andb].
    unfold bind at 1 2. rewrite (get_path_names true false eq_refl), N.
    reflexivity.
  - unfold SSMClient_delete.
    exact (batch_chunks 10 (Nat.lt_0_succ 9) (List.length names) names
                        (Nat.le_refl _)).
Qed.

End RemoteProperties.

(** A service without history and without parameters to get. *)
Definition no_history (name : pyobj) : M (list ParameterObj.t) := ret [].
Definition nothing_found (names : list pyobj)
  : outcome (list pyobj * list Dict.t) := Ok (names, []).

(** Two responses with three parameters. *)
Definition sample_pages : list (list Dict.t) :=
  [[[("Name", OStr "/app/name"); ("Type", OStr "String")];
    [("Name", OStr "/app/port"); ("Type", OStr "String")]];
   [[("Name", OStr "/app/hosts"); ("Type", OStr "StringList")]]].

(** X26 at [sample_pages]: one request with the three names. *)
Lemma delete_path_deletes_the_names_found_witness :
  SSMClient_delete_path no_history nothing_found sample_pages sample_world
  = (Ok [[OStr "/app/name"; OStr "/app/port"; OStr "/app/hosts"]],
     sample_world).
Proof.
  destruct (delete_path_deletes_the_names_found no_history nothing_found
              sample_pages
              [OStr "/app/name"; OStr "/app/port"; OStr "/app/hosts"]
              sample_world eq_refl) as [requests [D _]].
  rewrite D. vm_compute in D. inversion D. reflexivity.
Defined.
